(** * Ultimate Control: the WiFi manager, the lazy tab loader and the
    settings tab

    A shallow embedding of three parts of the application:

    - [Wifi]: [WifiManager::Impl] (scan, connect, enable, disable) and the
      click handler of [WifiNetworkWidget].  External commands ([popen],
      [std::system]) and dialogs are answered by an environment; every call a
      method makes is recorded, in order, in a trace.
    - [MainWindow]: the tab bookkeeping of [main.cpp] ([tab_widgets_], the
      loading flags, the timers that defer construction), each handler taken
      by itself; [Reentrant]: the same handlers with the notebook's
      [switch_page] signal delivered inside the calls that cause it.
    - [Core]: the settings tab, which reads its file when it is built and
      writes it when it is destroyed. *)

From Stdlib Require Import ZArith String Ascii List Bool Lia.
From stdpp Require Import gmap strings.
Import ListNotations.

Local Open Scope string_scope.

(** Characters that a string literal cannot hold. *)
Definition newline : ascii := ascii_of_nat 10.
Definition dq : string := String (ascii_of_nat 34) EmptyString.

(* ===================================================================== *)
(** ** The WiFi manager *)
(* ===================================================================== *)

Module Wifi.

(** [struct Network] of WifiManager.hpp. *)
Record Network := mkNetwork {
  ssid : string;
  bssid : string;
  signal_strength : Z;
  connected : bool;
  secured : bool
}.

(** *** Text helpers *)

(** [Impl::split]: the token under construction is pushed at every
    delimiter and once more at the end of the input. *)
Fixpoint split_from (s : string) (delimiter : ascii) (token : string) : list string :=
  match s with
  | EmptyString => [token]
  | String c rest =>
      if Ascii.eqb c delimiter
      then token :: split_from rest delimiter EmptyString
      else split_from rest delimiter (token ++ String c EmptyString)
  end.

Definition split (s : string) (delimiter : ascii) : list string :=
  split_from s delimiter EmptyString.

(** The loop [while ((pos = result.find('\n')) != npos)]: every line that is
    closed by a newline, in order; text after the last newline is never
    taken out of [result]. *)
Fixpoint lines_from (result : string) (line : string) : list string :=
  match result with
  | EmptyString => []
  | String c rest =>
      if Ascii.eqb c newline
      then line :: lines_from rest EmptyString
      else lines_from rest (line ++ String c EmptyString)
  end.

Definition complete_lines (result : string) : list string :=
  lines_from result EmptyString.

(** [std::stoi] in base 10 on a 32-bit [int]: leading white space, an
    optional sign, then at least one digit; what follows the digits is
    ignored.  [None] stands for the exception ([invalid_argument] when there
    is no digit, [out_of_range] when the value does not fit). *)
Definition is_space (c : ascii) : bool :=
  let n := nat_of_ascii c in
  Nat.eqb n 32 || (Nat.leb 9 n && Nat.leb n 13).

Fixpoint skip_spaces (s : string) : string :=
  match s with
  | String c rest => if is_space c then skip_spaces rest else s
  | EmptyString => s
  end.

Definition digit_of (c : ascii) : option Z :=
  let n := nat_of_ascii c in
  if Nat.leb 48 n && Nat.leb n 57 then Some (Z.of_nat (n - 48)) else None.

Fixpoint digits_from (s : string) (acc : option Z) : option Z :=
  match s with
  | String c rest =>
      match digit_of c with
      | Some d =>
          digits_from rest
            (Some (10 * match acc with Some a => a | None => 0 end + d)%Z)
      | None => acc
      end
  | EmptyString => acc
  end.

Definition INT_MIN : Z := (-2147483648)%Z.
Definition INT_MAX : Z := 2147483647%Z.

Definition stoi (s : string) : option Z :=
  let s1 := skip_spaces s in
  let '(negative, s2) :=
    match s1 with
    | String c rest =>
        if Ascii.eqb c "-"%char then (true, rest)
        else if Ascii.eqb c "+"%char then (false, rest)
        else (false, s1)
    | EmptyString => (false, s1)
    end in
  match digits_from s2 None with
  | None => None
  | Some v =>
      let r := if negative then (- v)%Z else v in
      if (INT_MIN <=? r)%Z && (r <=? INT_MAX)%Z then Some r else None
  end.

(** The body of the parsing loop of [scan_networks] for one line: a line
    with fewer than four fields adds nothing. *)
Definition parse_line (line : string) : option Network :=
  match split line ":"%char with
  | t0 :: t1 :: t2 :: t3 :: _ =>
      Some {| connected := String.eqb t0 "*";
              ssid := t1;
              bssid := EmptyString;
              signal_strength := match stoi t2 with Some v => v | None => 0%Z end;
              secured := negb (String.eqb t3 "--") && negb (String.eqb t3 EmptyString) |}
  | _ => None
  end.

(** [fgets] into a buffer of [size] bytes, once: at most [size - 1]
    characters, stopping after the first newline. *)
Fixpoint fgets (size_minus_1 : nat) (s : string) : string :=
  match size_minus_1, s with
  | S n, String c rest =>
      if Ascii.eqb c newline then String c EmptyString
      else String c (fgets n rest)
  | _, _ => EmptyString
  end.

(** What that [fgets] leaves in the stream. *)
Fixpoint after_fgets (size_minus_1 : nat) (s : string) : string :=
  match size_minus_1, s with
  | S n, String c rest =>
      if Ascii.eqb c newline then rest else after_fgets n rest
  | _, _ => s
  end.

(** [buffer.data()] taken as a C string, as in [result += buffer.data()]
    and [result = buffer.data()]: the characters before the first NUL. *)
Definition NUL : ascii := ascii_of_nat 0.

Fixpoint c_str (buffer : string) : string :=
  match buffer with
  | String c rest => if Ascii.eqb c NUL then EmptyString else String c (c_str rest)
  | EmptyString => EmptyString
  end.

(** The read loop [while (fgets(...) != nullptr) result += buffer.data();]
    on a stream that holds [s]: [fgets] gives [nullptr] at the end of the
    stream.  Every round takes at least one character, so the length of the
    stream bounds the number of rounds. *)
Fixpoint read_rounds (rounds size_minus_1 : nat) (s : string) : string :=
  match rounds with
  | O => EmptyString
  | S rounds' =>
      match s with
      | EmptyString => EmptyString
      | _ => c_str (fgets size_minus_1 s)
             ++ read_rounds rounds' size_minus_1 (after_fgets size_minus_1 s)
      end
  end.

(** [result] when the read loop of [scan_networks], with its buffer of 4096
    bytes, ends on a command that printed [output]. *)
Definition read_result (output : string) : string :=
  read_rounds (String.length output) 4095 output.

(** The trimming idiom [erase(0, find_first_not_of(ws))] followed by
    [erase(find_last_not_of(ws) + 1)] with [ws = " \t\n\r"]. *)
Definition is_trim_char (c : ascii) : bool :=
  let n := nat_of_ascii c in
  Nat.eqb n 32 || Nat.eqb n 9 || Nat.eqb n 10 || Nat.eqb n 13.

Fixpoint trim_left (s : string) : string :=
  match s with
  | String c rest => if is_trim_char c then trim_left rest else s
  | EmptyString => s
  end.

Fixpoint trim_right (s : string) : string :=
  match s with
  | String c rest =>
      match trim_right rest with
      | EmptyString => if is_trim_char c then EmptyString else String c EmptyString
      | r => String c r
      end
  | EmptyString => EmptyString
  end.

Definition trim (s : string) : string := trim_right (trim_left s).

(** *** The environment and the trace *)

(** What [popen] and [pclose] yield: no pipe at all, or the text the command
    prints into the pipe together with the exit status that [pclose]
    returns. *)
Inductive PipeResult :=
| PipeFailed
| PipeClosed (output : string) (exit_status : Z).

(** Answers of a modal dialog. *)
Inductive Response := RESPONSE_OK | RESPONSE_CANCEL | RESPONSE_YES | RESPONSE_NO.

(** The environment answers the [k]-th external request of a run. *)
Record Env := mkEnv {
  popen_result : nat -> string -> PipeResult;
  system_result : nat -> string -> Z;
  dialog_result : nat -> string -> Response * string
}.

(** Handles of registered callbacks. *)
Definition UpdateCallback := nat.
Definition StateCallback := nat.

(** Everything a method does besides changing its own fields, in program
    order. *)
Inductive Action :=
| Popen (cmd : string)
| System (cmd : string)
| Cerr (msg : string)
| Cout (msg : string)
| CallUpdate (cb : UpdateCallback) (networks : list Network)
| CallState (cb : StateCallback) (enabled : bool)
| Usleep (microseconds : Z)
| RunDialog (title : string).

(** The fields of [WifiManager::Impl], the number of external requests made
    so far and the trace. *)
Record State := mkState {
  networks_ : list Network;
  update_callback_ : option UpdateCallback;
  state_callback_ : option StateCallback;
  wifi_enabled_ : bool;
  issued : nat;
  trace : list Action
}.

Definition with_networks (n : list Network) (s : State) : State :=
  {| networks_ := n; update_callback_ := update_callback_ s;
     state_callback_ := state_callback_ s; wifi_enabled_ := wifi_enabled_ s;
     issued := issued s; trace := trace s |}.

Definition with_enabled (b : bool) (s : State) : State :=
  {| networks_ := networks_ s; update_callback_ := update_callback_ s;
     state_callback_ := state_callback_ s; wifi_enabled_ := b;
     issued := issued s; trace := trace s |}.

Definition with_update_callback (cb : option UpdateCallback) (s : State) : State :=
  {| networks_ := networks_ s; update_callback_ := cb;
     state_callback_ := state_callback_ s; wifi_enabled_ := wifi_enabled_ s;
     issued := issued s; trace := trace s |}.

Definition with_state_callback (cb : option StateCallback) (s : State) : State :=
  {| networks_ := networks_ s; update_callback_ := update_callback_ s;
     state_callback_ := cb; wifi_enabled_ := wifi_enabled_ s;
     issued := issued s; trace := trace s |}.

Definition record (a : Action) (s : State) : State :=
  {| networks_ := networks_ s; update_callback_ := update_callback_ s;
     state_callback_ := state_callback_ s; wifi_enabled_ := wifi_enabled_ s;
     issued := issued s; trace := trace s ++ [a] |}.

Definition next_request (s : State) : State :=
  {| networks_ := networks_ s; update_callback_ := update_callback_ s;
     state_callback_ := state_callback_ s; wifi_enabled_ := wifi_enabled_ s;
     issued := S (issued s); trace := trace s |}.

(** *** A state monad for the methods *)

Definition M (A : Type) : Type := State -> A * State.

Definition ret {A} (a : A) : M A := fun s => (a, s).
Definition bind {A B} (m : M A) (k : A -> M B) : M B :=
  fun s => let '(a, s1) := m s in k a s1.
Definition get {A} (field : State -> A) : M A := fun s => (field s, s).
Definition modify (f : State -> State) : M unit := fun s => (tt, f s).
Definition exec {A} (m : M A) (s : State) : State := snd (m s).

Notation "'do' x <- m ; k" := (bind m (fun x => k))
  (at level 10, x name, m at level 100, k at level 200).
Notation "m ;; k" := (bind m (fun _ => k))
  (at level 100, k at level 200, right associativity).

Definition log (a : Action) : M unit := modify (record a).

Section Methods.

Variable env : Env.

Definition popen (cmd : string) : M PipeResult := fun s =>
  (popen_result env (issued s) cmd, next_request (record (Popen cmd) s)).

Definition system (cmd : string) : M Z := fun s =>
  (system_result env (issued s) cmd, next_request (record (System cmd) s)).

Definition run_dialog (title : string) : M (Response * string) := fun s =>
  (dialog_result env (issued s) title, next_request (record (RunDialog title) s)).

(** [if (update_callback_) update_callback_(networks_);] *)
Definition notify_update : M unit :=
  do cb <- get update_callback_;
  match cb with
  | Some f => do nets <- get networks_; log (CallUpdate f nets)
  | None => ret tt
  end.

(** [if (state_callback_) state_callback_(wifi_enabled_);] *)
Definition notify_state : M unit :=
  do cb <- get state_callback_;
  match cb with
  | Some f => do en <- get wifi_enabled_; log (CallState f en)
  | None => ret tt
  end.

(** The parsing loop: one [push_back] per line of four fields or more. *)
Fixpoint push_lines (lines : list string) : M unit :=
  match lines with
  | [] => ret tt
  | line :: rest =>
      match parse_line line with
      | Some net => modify (fun s => with_networks (networks_ s ++ [net]) s)
      | None => ret tt
      end;;
      push_lines rest
  end.

Definition scan_command : string :=
  "nmcli -t -f IN-USE,SSID,SIGNAL,SECURITY device wifi list".

(** [WifiManager::Impl::scan_networks]. *)
Definition scan_networks : M unit :=
  do enabled <- get wifi_enabled_;
  if negb enabled then
    modify (with_networks []);;
    notify_update
  else
    modify (with_networks []);;
    do pipe <- popen scan_command;
    match pipe with
    | PipeFailed => log (Cerr ("Failed to run nmcli" ++ String newline EmptyString))
    | PipeClosed output _ =>
        push_lines (complete_lines (read_result output));;
        notify_update
    end.

(** [WifiManager::Impl::get_wifi_interface]. *)
Definition interface_command : string :=
  "nmcli device status | grep wifi | grep -v p2p | awk '{print $1}'".

Definition get_wifi_interface : M string :=
  do pipe <- popen interface_command;
  match pipe with
  | PipeFailed => ret EmptyString
  | PipeClosed out _ => ret (trim (c_str (fgets 127 out)))
  end.

(** [WifiManager::Impl::check_wifi_enabled]. *)
Definition check_wifi_enabled : M bool :=
  do pipe <- popen "nmcli radio wifi";
  match pipe with
  | PipeFailed => ret false
  | PipeClosed out _ => ret (String.eqb (trim (c_str (fgets 127 out))) "enabled")
  end.

(** The search loop at the head of [connect], also used by the widget. *)
Definition is_connected_to (target : string) (nets : list Network) : bool :=
  existsb (fun net => String.eqb (ssid net) target && connected net) nets.

Definition endl : string := String newline EmptyString.

(** [WifiManager::Impl::connect]. *)
Definition connect (ssid password security_type : string) : M unit :=
  do nets <- get networks_;
  if is_connected_to ssid nets then
    log (Cout ("Already connected to " ++ ssid ++ endl))
  else
    log (Cout ("Connecting to WiFi network: " ++ ssid ++ "..." ++ endl));;
    if negb (String.eqb password EmptyString) && negb (String.eqb security_type EmptyString)
    then
      do wifi_interface <- get_wifi_interface;
      if String.eqb wifi_interface EmptyString then
        log (Cerr ("Error: No WiFi interface found" ++ endl))
      else
        let conn_name := ssid in
        system ("nmcli con delete " ++ dq ++ conn_name ++ dq ++ " 2>/dev/null || true");;
        do result <- system
          ("nmcli con add type wifi con-name " ++ dq ++ conn_name ++ dq
             ++ " ifname " ++ wifi_interface
             ++ " ssid " ++ dq ++ ssid ++ dq ++ " && "
             ++ "nmcli con modify " ++ dq ++ conn_name ++ dq
             ++ " wifi-sec.key-mgmt " ++ security_type ++ " && "
             ++ "nmcli con modify " ++ dq ++ conn_name ++ dq
             ++ " wifi-sec.psk " ++ dq ++ password ++ dq ++ " && "
             ++ "nmcli con up " ++ dq ++ conn_name ++ dq);
        (if Z.eqb result 0
         then log (Cout ("Successfully connected to " ++ ssid ++ endl))
         else log (Cerr ("Failed to connect to " ++ ssid ++ endl)));;
        scan_networks
    else
      let cmd := "nmcli dev wifi connect " ++ dq ++ ssid ++ dq in
      let cmd := if negb (String.eqb password EmptyString)
                 then cmd ++ " password " ++ dq ++ password ++ dq else cmd in
      do result <- system cmd;
      (if Z.eqb result 0
       then log (Cout ("Successfully connected to " ++ ssid ++ endl))
       else log (Cerr ("Failed to connect to " ++ ssid ++ endl)));;
      scan_networks.

(** [WifiManager::Impl::disconnect]. *)
Definition disconnect : M unit :=
  do wifi_interface <- get_wifi_interface;
  if String.eqb wifi_interface EmptyString then
    log (Cerr ("Error: No WiFi interface found" ++ endl))
  else
    log (Cout ("Disconnecting from WiFi..." ++ endl));;
    system ("nmcli device disconnect " ++ wifi_interface);;
    scan_networks.

(** [WifiManager::Impl::enable_wifi]. *)
Definition enable_wifi : M unit :=
  do r <- system "nmcli radio wifi on";
  if Z.eqb r 0 then
    modify (with_enabled true);;
    notify_state;;
    scan_networks
  else ret tt.

(** [WifiManager::Impl::disable_wifi]. *)
Definition disable_wifi : M unit :=
  do r <- system "nmcli radio wifi off";
  if Z.eqb r 0 then
    modify (with_enabled false);;
    notify_state;;
    modify (with_networks []);;
    notify_update
  else ret tt.

Definition is_wifi_enabled (s : State) : bool := wifi_enabled_ s.

(** The constructor [Impl() : wifi_enabled_(check_wifi_enabled())]: no
    network, no callback, the flag as the radio reports it. *)
Definition new_impl : State :=
  let '(enabled, s) :=
    check_wifi_enabled
      {| networks_ := []; update_callback_ := None; state_callback_ := None;
         wifi_enabled_ := false; issued := 0; trace := [] |} in
  with_enabled enabled s.

Definition set_update_callback (cb : option UpdateCallback) : M unit :=
  modify (with_update_callback cb).

Definition set_state_callback (cb : option StateCallback) : M unit :=
  modify (with_state_callback cb).

(** Modelled from the spec: [WifiManager::get_networks] is declared in
    WifiManager.hpp (it returns the most recent scan results) and its body is
    not among the sources; it hands out the stored list. *)
Definition get_networks (s : State) : list Network := networks_ s.

(** [WifiNetworkWidget::on_connect_clicked], for the widget showing
    [network_].  A handler of a button signal: all of it runs on the thread
    of the toolkit's main loop. *)
Definition on_connect_clicked (network_ : Network) : M unit :=
  let target_ssid := ssid network_ in
  if connected network_ then disconnect
  else
    let security_type := if secured network_ then "wpa-psk" else EmptyString in
    log (Cout ("Trying to connect to " ++ target_ssid
                 ++ " using saved credentials..." ++ endl));;
    connect target_ssid EmptyString security_type;;
    log (Usleep 1000000);;
    scan_networks;;
    do nets <- get get_networks;
    if is_connected_to target_ssid nets then
      run_dialog ("Successfully connected to " ++ target_ssid);;
      ret tt
    else if secured network_ then
      do answer <- run_dialog "Enter WiFi Password";
      match fst answer with
      | RESPONSE_OK =>
          let password := snd answer in
          log (Cout ("Connecting to " ++ target_ssid ++ " with password..." ++ endl));;
          connect target_ssid password security_type;;
          log (Usleep 1000000);;
          scan_networks;;
          do nets <- get get_networks;
          if is_connected_to target_ssid nets then
            run_dialog ("Successfully connected to " ++ target_ssid);;
            ret tt
          else
            run_dialog ("Failed to connect to " ++ target_ssid);;
            ret tt
      | _ => ret tt
      end
    else ret tt.

(** [WifiManager::Impl::forget_network]. *)
Definition forget_network (ssid : string) : M unit :=
  log (Cout ("Forgetting network: " ++ ssid ++ endl));;
  system ("nmcli connection delete " ++ dq ++ ssid ++ dq ++ " 2>/dev/null || true");;
  system ("nmcli -t -f NAME connection show | grep " ++ dq ++ "temp-conn-" ++ dq
            ++ " | xargs -r -n1 nmcli connection delete 2>/dev/null || true");;
  log (Cout ("Network forgotten: " ++ ssid ++ endl));;
  scan_networks.

Definition forget_question : string :=
  "Are you sure you want to forget this network?".

(** [WifiNetworkWidget::on_forget_clicked], for the widget showing
    [network_]. *)
Definition on_forget_clicked (network_ : Network) : M unit :=
  let target_ssid := ssid network_ in
  do answer <- run_dialog forget_question;
  match fst answer with
  | RESPONSE_YES =>
      forget_network target_ssid;;
      run_dialog "Network forgotten";;
      ret tt
  | _ => ret tt
  end.

End Methods.

(** What the parsing loop makes of the text in [result]. *)
Definition parse_output (result : string) : list Network :=
  omap parse_line (complete_lines result).

(** An environment in which every command runs, prints [result] and exits
    with [status]. *)
Definition answering (result : string) (status : Z) : Env :=
  {| popen_result := fun _ _ => PipeClosed result status;
     system_result := fun _ _ => status;
     dialog_result := fun _ _ => (RESPONSE_CANCEL, EmptyString) |}.

(** An environment in which [popen] gives no pipe and [std::system]
    returns 127. *)
Definition unavailable : Env :=
  {| popen_result := fun _ _ => PipeFailed;
     system_result := fun _ _ => 127%Z;
     dialog_result := fun _ _ => (RESPONSE_CANCEL, EmptyString) |}.

(** Modelled from the spec: [WifiManager::scan_networks_async] is declared
    in WifiManager.hpp and called by [WifiTab]; its body is not among the
    sources.  The spec has a refresh take the next request sequence number
    when it is issued and compare it at apply-time: the result of a probe is
    applied only when no probe issued later has been applied, and a stale
    result is silently discarded.  Applying a result is what [scan_networks]
    does with the text of its command. *)
Record AsyncManager := mkAsyncManager {
  impl_ : State;
  last_issued : nat;
  last_applied : nat
}.

Record Completion := mkCompletion {
  seq : nat;
  output : string
}.

Definition refresh_async (m : AsyncManager) : nat * AsyncManager :=
  (S (last_issued m),
   {| impl_ := impl_ m; last_issued := S (last_issued m);
      last_applied := last_applied m |}).

Definition apply_completion (p : Completion) (m : AsyncManager) : AsyncManager :=
  if Nat.ltb (last_applied m) (seq p) then
    {| impl_ := exec (scan_networks (answering (output p) 0)) (impl_ m);
       last_issued := last_issued m;
       last_applied := seq p |}
  else m.

(** Actions that keep the calling thread waiting. *)
Definition blocks (a : Action) : bool :=
  match a with
  | Popen _ | System _ | Usleep _ => true
  | _ => false
  end.

(** A manager freshly built with WiFi on, as [WifiTab] sets it up. *)
Definition enabled_manager (nets : list Network) : State :=
  {| networks_ := nets; update_callback_ := Some 0; state_callback_ := Some 0;
     wifi_enabled_ := true; issued := 0; trace := [] |}.

Definition disabled_manager (nets : list Network) : State :=
  {| networks_ := nets; update_callback_ := Some 0; state_callback_ := Some 0;
     wifi_enabled_ := false; issued := 0; trace := [] |}.

Definition home : Network :=
  {| ssid := "Home"; bssid := EmptyString; signal_strength := 80;
     connected := true; secured := true |}.

Definition cafe : Network :=
  {| ssid := "Cafe"; bssid := EmptyString; signal_strength := 55;
     connected := false; secured := false |}.

Definition home_listing : string := "*:Home:80:WPA2" ++ String newline EmptyString.
Definition cafe_listing : string := ":Cafe:55:--" ++ String newline EmptyString.

(** The tokens put back together with the delimiter between them. *)
Fixpoint join (delimiter : ascii) (tokens : list string) : string :=
  match tokens with
  | [] => EmptyString
  | [t] => t
  | t :: rest => t ++ String delimiter (join delimiter rest)
  end.

(** How often a character occurs in a text, and whether it does. *)
Fixpoint occurrences (c : ascii) (s : string) : nat :=
  match s with
  | EmptyString => 0
  | String c' rest => (if Ascii.eqb c' c then 1 else 0) + occurrences c rest
  end.

(** The lines with their newlines, one after the other. *)
Fixpoint unlines (lines : list string) : string :=
  match lines with
  | [] => EmptyString
  | line :: rest => line ++ String newline (unlines rest)
  end.

(** What is left in [result] when the loop of [scan_networks] ends: the
    text after the last newline. *)
Fixpoint unterminated_from (result : string) (line : string) : string :=
  match result with
  | EmptyString => line
  | String c rest =>
      if Ascii.eqb c newline
      then unterminated_from rest EmptyString
      else unterminated_from rest (line ++ String c EmptyString)
  end.

Definition unterminated (result : string) : string :=
  unterminated_from result EmptyString.

(** What the parsing loop guarantees of a stored network: no BSSID, no
    colon in the SSID, a signal that fits an [int]. *)
Definition parsed_network (net : Network) : Prop :=
  bssid net = EmptyString
  /\ occurrences ":"%char (ssid net) = 0%nat
  /\ (INT_MIN <= signal_strength net <= INT_MAX)%Z.

(** The comparator [WifiTab::update_network_list] hands to [std::sort]:
    connected networks first, then the stronger signal first. *)
Definition network_before (a b : Network) : bool :=
  if negb (Bool.eqb (connected a) (connected b)) then connected a
  else (signal_strength b <? signal_strength a)%Z.

(** What a method leaves alone: the registered callbacks and the enabled
    flag stay, the count of external requests does not go down and the
    trace is only added to, with actions that satisfy [P]. *)
Definition frames (P : Action -> Prop) {A} (m : M A) : Prop :=
  forall s,
    update_callback_ (exec m s) = update_callback_ s
    /\ state_callback_ (exec m s) = state_callback_ s
    /\ wifi_enabled_ (exec m s) = wifi_enabled_ s
    /\ (issued s <= issued (exec m s))%nat
    /\ exists added, trace (exec m s) = (trace s ++ added)%list /\ Forall P added.

(** Actions a manager method may perform: everything but dialogs and
    sleeping, which only the widgets do. *)
Definition manager_action (a : Action) : Prop :=
  match a with
  | RunDialog _ | Usleep _ => False
  | _ => True
  end.

(** Actions a scan may perform. *)
Definition scan_action (a : Action) : Prop :=
  match a with
  | Popen _ | Cerr _ | CallUpdate _ _ => True
  | _ => False
  end.

(** The titles of the dialogs shown, the commands run through
    [std::system] and the sleeps of a trace, each in order. *)
Definition dialogs (tr : list Action) : list string :=
  omap (fun a => match a with RunDialog title => Some title | _ => None end) tr.

Definition system_commands (tr : list Action) : list string :=
  omap (fun a => match a with System cmd => Some cmd | _ => None end) tr.

Definition sleeps (tr : list Action) : list Z :=
  omap (fun a => match a with Usleep us => Some us | _ => None end) tr.

(** What a scan that makes request number [k] stores. *)
Definition scanned (env : Env) (k : nat) (enabled : bool) : list Network :=
  if enabled then
    match popen_result env k scan_command with
    | PipeClosed output _ => parse_output (read_result output)
    | PipeFailed => []
    end
  else [].

(** Text made only of the characters that the trimming idiom removes. *)
Fixpoint is_blank (s : string) : bool :=
  match s with
  | EmptyString => true
  | String c rest => is_trim_char c && is_blank rest
  end.

(** Request number [k], made by [get_wifi_interface], finds no interface:
    the pipe cannot be opened or what the first read gives, as a C string, is
    blank. *)
Definition no_interface (env : Env) (k : nat) : Prop :=
  match popen_result env k interface_command with
  | PipeFailed => True
  | PipeClosed out _ => is_blank (c_str (fgets 127 out)) = true
  end.

(** An environment with two wireless interfaces. *)
Definition two_interfaces : Env :=
  {| popen_result := fun _ _ =>
       PipeClosed ("wlan0" ++ String newline ("wlan1" ++ String newline EmptyString)) 0;
     system_result := fun _ _ => 0%Z;
     dialog_result := fun _ _ => (RESPONSE_CANCEL, EmptyString) |}.

(** An environment in which the scan lists [Cafe] as connected and every
    other command fails. *)
Definition cafe_in_use : Env :=
  {| popen_result := fun _ _ =>
       PipeClosed ("*:Cafe:55:--" ++ String newline EmptyString) 0;
     system_result := fun _ _ => 10%Z;
     dialog_result := fun _ _ => (RESPONSE_YES, EmptyString) |}.

End Wifi.

(* ===================================================================== *)
(** ** The main window: lazily loaded tabs *)
(* ===================================================================== *)

Module MainWindow.

Local Open Scope Z_scope.

(** The widgets a notebook page can hold. *)
Inductive Widget :=
| NullWidget
| PlaceholderBox
| LoadingIndicator
| TabContent (id : string).

Definition is_null (w : Widget) : bool :=
  match w with NullWidget => true | _ => false end.

(** [struct TabInfo]. *)
Record TabInfo := mkTabInfo {
  widget : Widget;
  page_num : Z;
  loaded : bool;
  loading : bool
}.

(** *** [std::map<std::string, TabInfo>]

    An association list kept in key order, which is the order the range-for
    loops of [main.cpp] visit it in. *)
Definition TabMap := list (string * TabInfo).

Fixpoint find (id : string) (m : TabMap) : option TabInfo :=
  match m with
  | [] => None
  | (k, v) :: rest => if String.eqb k id then Some v else find id rest
  end.

(** [tab_widgets_[id] = v]: the entry of an existing key is overwritten in
    place, a new key goes to its place in the order. *)
Fixpoint replace (id : string) (v : TabInfo) (m : TabMap) : TabMap :=
  match m with
  | [] => []
  | (k, x) :: rest =>
      if String.eqb k id then (k, v) :: rest else (k, x) :: replace id v rest
  end.

Fixpoint insert_sorted (id : string) (v : TabInfo) (m : TabMap) : TabMap :=
  match m with
  | [] => [(id, v)]
  | (k, x) :: rest =>
      if String.ltb id k then (id, v) :: (k, x) :: rest
      else (k, x) :: insert_sorted id v rest
  end.

Definition assign (id : string) (v : TabInfo) (m : TabMap) : TabMap :=
  match find id m with
  | Some _ => replace id v m
  | None => insert_sorted id v m
  end.

(** A value-initialised [TabInfo], what [operator[]] inserts for a key that
    is not there. *)
Definition blank : TabInfo :=
  {| widget := NullWidget; page_num := 0; loaded := false; loading := false |}.

(** [tab_widgets_[id]] as an expression: the map afterwards and the entry. *)
Definition touch (id : string) (m : TabMap) : TabMap :=
  match find id m with
  | Some _ => m
  | None => assign id blank m
  end.

Definition entry (id : string) (m : TabMap) : TabInfo :=
  match find id m with
  | Some v => v
  | None => blank
  end.

(** [tab_widgets_[id].field = value]. *)
Definition update (id : string) (f : TabInfo -> TabInfo) (m : TabMap) : TabMap :=
  assign id (f (entry id m)) m.

Definition set_loading (b : bool) (i : TabInfo) : TabInfo :=
  {| widget := widget i; page_num := page_num i; loaded := loaded i; loading := b |}.

Definition set_widget_page (w : Widget) (p : Z) (i : TabInfo) : TabInfo :=
  {| widget := w; page_num := p; loaded := loaded i; loading := loading i |}.

Definition set_content (w : Widget) (p : Z) (i : TabInfo) : TabInfo :=
  {| widget := w; page_num := p; loaded := true; loading := false |}.

(** The loop that looks for the tab shown on a page: the first key, in map
    order, whose [page_num] is [page]; the empty string when there is none. *)
Fixpoint tab_at_page (page : Z) (m : TabMap) : string :=
  match m with
  | [] => EmptyString
  | (id, info) :: rest =>
      if page_num info =? page then id else tab_at_page page rest
  end.

(** The loop of [on_tab_switch] that looks for a tab to load. *)
Fixpoint tab_to_load (page : Z) (m : TabMap) : string :=
  match m with
  | [] => EmptyString
  | (id, info) :: rest =>
      if (page_num info =? page) && negb (loaded info) && negb (loading info)
      then id else tab_to_load page rest
  end.

(** *** The notebook

    [Gtk::Notebook] belongs to the toolkit.  It is modelled by its pages and
    the index of the current page ([-1] when there is none); a negative page
    index in a call means the last page, and an index past the end is
    ignored.  The toolkit announces a change of page through [switch_page];
    that delivery is an event of its own here ([SwitchPage] below), so the
    functions of this section only move the index. *)
Record Notebook := mkNotebook {
  pages : list Widget;
  current_page : Z
}.

Definition get_n_pages (nb : Notebook) : Z := Z.of_nat (length (pages nb)).

Definition resolve (n : Z) (nb : Notebook) : option nat :=
  if n <? 0 then
    match pages nb with
    | [] => None
    | _ :: rest => Some (length rest)
    end
  else if n <? get_n_pages nb then Some (Z.to_nat n) else None.

Definition get_nth_page (n : Z) (nb : Notebook) : Widget :=
  match resolve n nb with
  | Some k => nth k (pages nb) NullWidget
  | None => NullWidget
  end.

Definition set_current_page (n : Z) (nb : Notebook) : Notebook :=
  match resolve n nb with
  | Some k => {| pages := pages nb; current_page := Z.of_nat k |}
  | None => nb
  end.

Definition remove_page (n : Z) (nb : Notebook) : Notebook :=
  match resolve n nb with
  | None => nb
  | Some k =>
      let rest := (firstn k (pages nb) ++ skipn (S k) (pages nb))%list in
      let cur := current_page nb in
      let kz := Z.of_nat k in
      {| pages := rest;
         current_page :=
           if cur <? kz then cur
           else if kz <? cur then cur - 1
           else if 0 <? kz then kz - 1
           else match rest with [] => -1 | _ => 0 end |}
  end.

Definition insert_page (w : Widget) (position : Z) (nb : Notebook) : Notebook * Z :=
  let n := get_n_pages nb in
  let idx := if (position <? 0) || (n <? position) then n else position in
  let k := Z.to_nat idx in
  let cur := current_page nb in
  ({| pages := (firstn k (pages nb) ++ w :: skipn k (pages nb))%list;
      current_page := if cur <? 0 then idx
                      else if idx <=? cur then cur + 1 else cur |},
   idx).

Definition append_page (w : Widget) (nb : Notebook) : Notebook * Z :=
  insert_page w (-1) nb.

(** *** Timers, effects and the window *)

(** The continuations handed to [Glib::signal_timeout().connect_once]. *)
Inductive Timer :=
| ShowAndLoad (id : string) (page : Z)
| CreateContent (id : string) (page : Z)
| ReleaseGuard
| EndAnimateOut (w : Widget)
| EndAnimateIn (w : Widget) (msg : string).

(** What the window does to the outside, in program order. *)
Inductive Effect :=
| AddClass (w : Widget) (class : string)
| RemoveClass (w : Widget) (class : string)
| SetOpacity (w : Widget) (opacity : Z)
| MakeLoadingIndicator
| Construct (id : string)
| EmitLoaded (id : string)
| Cout (msg : string)
| Cerr (msg : string).

(** The members of [MainWindow] that the tab logic reads or writes, the
    function-local [static bool loading] of [on_tab_switch] ([switch_guard]),
    the main loop's clock in milliseconds with its pending timers (each with
    the time it comes due), and the effects so far. *)
Record Window := mkWindow {
  notebook_ : Notebook;
  initial_tab_ : string;
  prevent_auto_loading_ : bool;
  tab_widgets_ : TabMap;
  tab_load_errors_ : gmap string string;
  switch_guard : bool;
  now : Z;
  timers : list (Z * Timer);
  effects : list Effect
}.

Definition with_notebook (nb : Notebook) (w : Window) : Window :=
  {| notebook_ := nb; initial_tab_ := initial_tab_ w;
     prevent_auto_loading_ := prevent_auto_loading_ w;
     tab_widgets_ := tab_widgets_ w; tab_load_errors_ := tab_load_errors_ w;
     switch_guard := switch_guard w; now := now w; timers := timers w;
     effects := effects w |}.

Definition with_tabs (m : TabMap) (w : Window) : Window :=
  {| notebook_ := notebook_ w; initial_tab_ := initial_tab_ w;
     prevent_auto_loading_ := prevent_auto_loading_ w;
     tab_widgets_ := m; tab_load_errors_ := tab_load_errors_ w;
     switch_guard := switch_guard w; now := now w; timers := timers w;
     effects := effects w |}.

Definition with_errors (e : gmap string string) (w : Window) : Window :=
  {| notebook_ := notebook_ w; initial_tab_ := initial_tab_ w;
     prevent_auto_loading_ := prevent_auto_loading_ w;
     tab_widgets_ := tab_widgets_ w; tab_load_errors_ := e;
     switch_guard := switch_guard w; now := now w; timers := timers w;
     effects := effects w |}.

Definition with_guard (b : bool) (w : Window) : Window :=
  {| notebook_ := notebook_ w; initial_tab_ := initial_tab_ w;
     prevent_auto_loading_ := prevent_auto_loading_ w;
     tab_widgets_ := tab_widgets_ w; tab_load_errors_ := tab_load_errors_ w;
     switch_guard := b; now := now w; timers := timers w;
     effects := effects w |}.

Definition with_clock (t : Z) (pending : list (Z * Timer)) (w : Window) : Window :=
  {| notebook_ := notebook_ w; initial_tab_ := initial_tab_ w;
     prevent_auto_loading_ := prevent_auto_loading_ w;
     tab_widgets_ := tab_widgets_ w; tab_load_errors_ := tab_load_errors_ w;
     switch_guard := switch_guard w; now := t; timers := pending;
     effects := effects w |}.

Definition effect (e : Effect) (w : Window) : Window :=
  {| notebook_ := notebook_ w; initial_tab_ := initial_tab_ w;
     prevent_auto_loading_ := prevent_auto_loading_ w;
     tab_widgets_ := tab_widgets_ w; tab_load_errors_ := tab_load_errors_ w;
     switch_guard := switch_guard w; now := now w; timers := timers w;
     effects := (effects w ++ [e])%list |}.

(** [Glib::signal_timeout().connect_once(f, delay)]. *)
Definition connect_once (t : Timer) (delay : Z) (w : Window) : Window :=
  with_clock (now w) (timers w ++ [(now w + delay, t)])%list w.

(** What the toolkit and the panel constructors do when called: return, or
    throw a [std::exception] with a message, or throw something else. *)
Inductive Outcome :=
| Returns
| Throws (what : string)
| ThrowsOther.

(** The answers for one handler or timer callback: [labels] for the calls
    in the [try] block of [show_loading_indicator] (taken at
    [create_tab_label], its first call), [factory] for the panel constructor
    in [create_tab_content]. *)
Record Env := mkEnv {
  labels : Outcome;
  factory : Outcome
}.

(** The icon and the label that the [if]-chains give to a tab id. *)
Definition tab_label (id : string) : option (string * string) :=
  if String.eqb id "volume" then Some ("audio-volume-high-symbolic", "Volume")
  else if String.eqb id "wifi" then Some ("network-wireless-symbolic", "WiFi")
  else if String.eqb id "bluetooth" then Some ("bluetooth-active-symbolic", "Bluetooth")
  else if String.eqb id "display" then Some ("video-display-symbolic", "Display")
  else if String.eqb id "power" then Some ("system-shutdown-symbolic", "Power")
  else None.

(** *** The handlers *)

(** The head of [switch_to_tab] and of [on_tab_switch]: the page being left
    gets the exit animation when its tab is loaded.  [tab_widgets_[id]]
    there reads a key the loop has just found. *)
Definition exit_animation (delay target : Z) (w : Window) : Window :=
  let current := current_page (notebook_ w) in
  if (0 <=? current) && negb (current =? target) then
    let current_widget := get_nth_page current (notebook_ w) in
    if is_null current_widget then w
    else
      let current_tab_id := tab_at_page current (tab_widgets_ w) in
      if negb (String.eqb current_tab_id EmptyString)
         && loaded (entry current_tab_id (tab_widgets_ w))
      then connect_once (EndAnimateOut current_widget) delay
             (effect (AddClass current_widget "animate-out") w)
      else w
  else w.

(** The entrance animation of an already loaded page. *)
Definition entrance_animation (target : Widget) (msg : string) (w : Window) : Window :=
  connect_once (EndAnimateIn target msg) 50
    (effect (AddClass target "animate-in") (effect (SetOpacity target 0) w)).

(** [MainWindow::show_loading_indicator]. *)
Definition show_loading_indicator (env : Env) (id : string) (page : Z) (w : Window) : Window :=
  let w := with_tabs (touch id (tab_widgets_ w)) w in
  let info := entry id (tab_widgets_ w) in
  if loaded info || loading info then w
  else
    match find id (tab_widgets_ w) with
    | None => w
    | Some _ =>
        if (page <? 0) || (get_n_pages (notebook_ w) <=? page) then w
        else
          let w := with_tabs (update id (set_loading true) (tab_widgets_ w)) w in
          let w := effect MakeLoadingIndicator w in
          match tab_label id with
          | None => with_tabs (update id (set_loading false) (tab_widgets_ w)) w
          | Some _ =>
              match labels env with
              | Returns =>
                  let nb := remove_page page (notebook_ w) in
                  let '(nb, new_page_num) := insert_page LoadingIndicator page nb in
                  let w := with_notebook nb w in
                  let w := with_tabs
                             (update id (set_widget_page LoadingIndicator new_page_num)
                                (tab_widgets_ w)) w in
                  if current_page (notebook_ w) =? new_page_num then w
                  else with_notebook (set_current_page new_page_num (notebook_ w)) w
              | Throws what =>
                  with_tabs (update id (set_loading false) (tab_widgets_ w))
                    (effect (Cerr ("Error showing loading indicator for tab "
                                     ++ id ++ ": " ++ what)) w)
              | ThrowsOther =>
                  with_tabs (update id (set_loading false) (tab_widgets_ w))
                    (effect (Cerr ("Unknown error showing loading indicator for tab "
                                     ++ id)) w)
              end
          end
    end.

(** [MainWindow::load_tab_content_async]. *)
Definition load_tab_content_async (id : string) (page : Z) (w : Window) : Window :=
  let w := with_tabs (touch id (tab_widgets_ w)) w in
  if loaded (entry id (tab_widgets_ w)) then w
  else
    match find id (tab_widgets_ w) with
    | None => w
    | Some _ =>
        if String.eqb id "power"
        then connect_once (CreateContent id page) 10 w
        else connect_once (CreateContent id page) 100 w
    end.

(** [MainWindow::create_tab_content].  The panel constructor is the first
    call of the [try] block; [Construct] records that it was entered. *)
Definition create_tab_content (env : Env) (id : string) (page : Z) (w : Window) : Window :=
  let w := with_tabs (touch id (tab_widgets_ w)) w in
  if loaded (entry id (tab_widgets_ w)) then w
  else
    match find id (tab_widgets_ w) with
    | None => w
    | Some _ =>
        match tab_label id with
        | None =>
            with_errors (<[id := "Unknown tab type"]> (tab_load_errors_ w))
              (with_tabs (update id (set_loading false) (tab_widgets_ w)) w)
        | Some _ =>
            let w := effect (Construct id) w in
            match factory env with
            | Returns =>
                let content := TabContent id in
                let current_page_num := page_num (entry id (tab_widgets_ w)) in
                let nb := remove_page current_page_num (notebook_ w) in
                let w := effect (AddClass content "tab-content") w in
                let w := effect (SetOpacity content 0) w in
                let w := effect (AddClass content "animate-in") w in
                let '(nb, new_page_num) := insert_page content current_page_num nb in
                let w := with_notebook nb w in
                let w := with_tabs
                           (update id (set_content content new_page_num)
                              (tab_widgets_ w)) w in
                let w := if current_page (notebook_ w) =? new_page_num then w
                         else with_notebook
                                (set_current_page new_page_num (notebook_ w)) w in
                let w := connect_once (EndAnimateIn content "Starting tab animation") 50 w in
                let w := effect (EmitLoaded id) w in
                effect (Cout ("Tab " ++ id ++ " loaded and selected successfully")) w
            | Throws what =>
                effect (Cerr ("Error creating tab " ++ id ++ ": " ++ what))
                  (with_errors (<[id := what]> (tab_load_errors_ w))
                     (with_tabs (update id (set_loading false) (tab_widgets_ w)) w))
            | ThrowsOther =>
                effect (Cerr ("Unknown error creating tab " ++ id))
                  (with_errors (<[id := "Unknown error"]> (tab_load_errors_ w))
                     (with_tabs (update id (set_loading false) (tab_widgets_ w)) w))
            end
        end
    end.

(** [MainWindow::switch_to_tab].  [it->second.page_num] is read again after
    [show_loading_indicator], which may have stored a new page number. *)
Definition switch_to_tab (env : Env) (tab_id : string) (w : Window) : Window :=
  match find tab_id (tab_widgets_ w) with
  | None => w
  | Some it =>
      let w := exit_animation 200 (page_num it) w in
      let w := with_notebook (set_current_page (page_num it) (notebook_ w)) w in
      if negb (loaded it) && negb (loading it) then
        let w := show_loading_indicator env tab_id (page_num it) w in
        load_tab_content_async tab_id (page_num (entry tab_id (tab_widgets_ w))) w
      else if loaded it then
        if is_null (widget it) then w
        else entrance_animation (widget it) "Starting direct tab switch animation" w
      else w
  end.

(** The button-press handler that [create_tab_label] connects to the label
    of [tab_id]; the result tells whether the event was handled. *)
Definition on_label_press (env : Env) (tab_id : string) (button : Z) (w : Window)
  : Window * bool :=
  if button =? 1 then
    match find tab_id (tab_widgets_ w) with
    | None => (w, true)
    | Some it =>
        let w := with_notebook (set_current_page (page_num it) (notebook_ w)) w in
        if negb (loaded it) && negb (loading it) then
          let w := show_loading_indicator env tab_id (page_num it) w in
          (load_tab_content_async tab_id (page_num (entry tab_id (tab_widgets_ w))) w,
           true)
        else (w, true)
    end
  else (w, false).

(** [MainWindow::on_tab_switch], the handler of the notebook's
    [switch_page] signal. *)
Definition on_tab_switch (env : Env) (page : Z) (w : Window) : Window :=
  if switch_guard w then w
  else
    let w := exit_animation 250 page w in
    if prevent_auto_loading_ w
       && negb (String.eqb (tab_at_page page (tab_widgets_ w)) (initial_tab_ w))
    then w
    else
      let tab_id_to_load := tab_to_load page (tab_widgets_ w) in
      if negb (String.eqb tab_id_to_load EmptyString) then
        let w := with_guard true w in
        let w :=
          if String.eqb tab_id_to_load "power" then
            load_tab_content_async tab_id_to_load page
              (show_loading_indicator env tab_id_to_load page w)
          else connect_once (ShowAndLoad tab_id_to_load page) 50 w in
        connect_once ReleaseGuard 100 w
      else
        let new_widget := get_nth_page page (notebook_ w) in
        if is_null new_widget then w
        else
          let new_tab_id := tab_at_page page (tab_widgets_ w) in
          if negb (String.eqb new_tab_id EmptyString)
             && loaded (entry new_tab_id (tab_widgets_ w))
          then entrance_animation new_widget "Starting tab switch animation" w
          else w.

(** [MainWindow::add_tab]. *)
Definition add_tab (id : string) (w : Window) : Window :=
  let '(nb, page) := append_page PlaceholderBox (notebook_ w) in
  with_tabs
    (assign id {| widget := PlaceholderBox; page_num := page;
                  loaded := false; loading := false |} (tab_widgets_ w))
    (with_notebook nb w).

(** [MainWindow::create_tabs] on a notebook that is still empty.  The order
    and the enabled set come from [Settings::TabSettings]. *)
Fixpoint create_tabs (tab_order : list string) (is_tab_enabled : string -> bool)
    (w : Window) : Window :=
  match tab_order with
  | [] => w
  | tab_id :: rest =>
      create_tabs rest is_tab_enabled
        (if is_tab_enabled tab_id then
           match tab_label tab_id with
           | Some _ => add_tab tab_id w
           | None => w
           end
         else w)
  end.

(** The constructor of [MainWindow], as far as the tabs go. *)
Definition new_window (env : Env) (initial_tab : string)
    (tab_order : list string) (is_tab_enabled : string -> bool) : Window :=
  let chosen := negb (String.eqb initial_tab EmptyString) in
  let w := {| notebook_ := {| pages := []; current_page := -1 |};
              initial_tab_ := initial_tab;
              prevent_auto_loading_ := chosen;
              tab_widgets_ := [];
              tab_load_errors_ := ∅;
              switch_guard := false;
              now := 0;
              timers := [];
              effects := [] |} in
  let enabled id := (chosen && String.eqb id initial_tab) || is_tab_enabled id in
  let w := create_tabs tab_order enabled w in
  if chosen then switch_to_tab env initial_tab w else w.

(** *** The main loop *)

(** A timer callback. *)
Definition fire (env : Env) (t : Timer) (w : Window) : Window :=
  match t with
  | ShowAndLoad id page =>
      load_tab_content_async id page (show_loading_indicator env id page w)
  | CreateContent id page => create_tab_content env id page w
  | ReleaseGuard => with_guard false w
  | EndAnimateOut target => effect (RemoveClass target "animate-out") w
  | EndAnimateIn target msg =>
      effect (SetOpacity target 1)
        (effect (RemoveClass target "animate-in") (effect (Cout msg) w))
  end.

(** The pending timer that comes due first (the one connected first among
    equals), and the others. *)
Fixpoint earliest (pending : list (Z * Timer)) : option ((Z * Timer) * list (Z * Timer)) :=
  match pending with
  | [] => None
  | t :: rest =>
      match earliest rest with
      | Some (t', others) =>
          if fst t' <? fst t then Some (t', t :: others) else Some (t, rest)
      | None => Some (t, [])
      end
  end.

(** What the main loop can dispatch: the notebook's [switch_page] signal, a
    button press on a tab label, a call of [switch_to_tab], the next timer,
    or nothing for a while. *)
Inductive Event :=
| SwitchPage (page : Z)
| LabelPress (tab_id : string) (button : Z)
| SwitchTo (tab_id : string)
| Tick
| Elapse (milliseconds : Z).

Definition step (env : Env) (ev : Event) (w : Window) : Window :=
  match ev with
  | SwitchPage page => on_tab_switch env page w
  | LabelPress tab_id button => fst (on_label_press env tab_id button w)
  | SwitchTo tab_id => switch_to_tab env tab_id w
  | Tick =>
      match earliest (timers w) with
      | Some ((due, t), others) =>
          fire env t (with_clock (Z.max (now w) due) others w)
      | None => w
      end
  | Elapse dt => with_clock (now w + Z.max dt 0) (timers w) w
  end.

(** A run: each event with the answers of the toolkit and the constructors
    during it.  [states] keeps every window on the way, the first one
    included. *)
Fixpoint run (evs : list (Event * Env)) (w : Window) : Window :=
  match evs with
  | [] => w
  | (ev, env) :: rest => run rest (step env ev w)
  end.

Fixpoint states (evs : list (Event * Env)) (w : Window) : list Window :=
  match evs with
  | [] => [w]
  | (ev, env) :: rest => w :: states rest (step env ev w)
  end.

(** *** The lifecycle of a slot, read off the flags

    [Loaded] when [loaded] is set, [Loading] when [loading] is, else
    [Failed] when [tab_load_errors_] has an entry for the tab, else
    [Placeholder]. *)
Inductive SlotState := Placeholder | Loading | Loaded | Failed.

Definition slot_state (id : string) (w : Window) : SlotState :=
  let info := entry id (tab_widgets_ w) in
  if loaded info then Loaded
  else if loading info then Loading
  else match tab_load_errors_ w !! id with
       | Some _ => Failed
       | None => Placeholder
       end.

(** The edges of the lifecycle the specification allows. *)
Definition allowed_edge (a b : SlotState) : bool :=
  match a, b with
  | Placeholder, Loading | Loading, Loaded | Loading, Failed | Failed, Loading => true
  | _, _ => false
  end.

(** Pending requests to construct the content of [id], and constructor
    calls made for it. *)
Definition is_request (id : string) (t : Z * Timer) : bool :=
  match snd t with
  | CreateContent id' _ => String.eqb id' id
  | _ => false
  end.

Definition requests (id : string) (w : Window) : nat :=
  length (List.filter (fun t => is_request id t) (timers w)).

Definition is_construct (id : string) (e : Effect) : bool :=
  match e with
  | Construct id' => String.eqb id' id
  | _ => false
  end.

Definition constructions (id : string) (w : Window) : nat :=
  length (List.filter (fun e => is_construct id e) (effects w)).

(** Timers that lead to a load, for any tab. *)
Definition is_load_timer (t : Z * Timer) : bool :=
  match snd t with
  | ShowAndLoad _ _ | CreateContent _ _ => true
  | _ => false
  end.

Definition quiet : Env := {| labels := Returns; factory := Returns |}.

Definition all_tabs : list string :=
  ["volume"; "wifi"; "bluetooth"; "display"; "power"].

(** The window at startup with no tab chosen on the command line and with
    one chosen. *)
Definition plain_window : Window :=
  new_window quiet EmptyString all_tabs (fun _ => true).

Definition window_for (initial_tab : string) : Window :=
  new_window quiet initial_tab all_tabs (fun _ => true).

(** The window started on the wifi tab, once its content has been built. *)
Definition loaded_wifi_window : Window :=
  run [(Tick, quiet)] (window_for "wifi").

(** [n] calls of [switch_to_tab id] in a row, each with its answers. *)
Fixpoint selects (envs : list Env) (id : string) (w : Window) : Window :=
  match envs with
  | [] => w
  | env :: rest => selects rest id (switch_to_tab env id w)
  end.

(** A constructor call, for whichever tab. *)
Definition is_any_construct (e : Effect) : bool :=
  match e with Construct _ => true | _ => false end.

(** What a handler may change without touching the lifecycle of any slot:
    the notebook's pages, the clock, animation timers and effects other than
    constructor calls. *)
Definition cosmetic (w w' : Window) : Prop :=
  tab_widgets_ w' = tab_widgets_ w
  /\ tab_load_errors_ w' = tab_load_errors_ w
  /\ prevent_auto_loading_ w' = prevent_auto_loading_ w
  /\ initial_tab_ w' = initial_tab_ w
  /\ switch_guard w' = switch_guard w
  /\ List.filter is_load_timer (timers w') = List.filter is_load_timer (timers w)
  /\ List.filter is_any_construct (effects w') = List.filter is_any_construct (effects w).

(** The tab a timer would load, if any. *)
Definition timer_tab (t : Timer) : option string :=
  match t with
  | ShowAndLoad id _ | CreateContent id _ => Some id
  | _ => None
  end.

(** A run in which the user only moves between pages of tabs other than
    [t] (each [switch_page] is for a page whose tab, looked up at that
    moment, is not [t]) while timers fire and time passes: no click on a tab
    label and no call of [switch_to_tab]. *)
Fixpoint passive (t : string) (evs : list (Event * Env)) (w : Window) : Prop :=
  match evs with
  | [] => True
  | (ev, env) :: rest =>
      match ev with
      | SwitchPage page => tab_at_page page (tab_widgets_ w) <> t
      | Tick | Elapse _ => True
      | LabelPress _ _ | SwitchTo _ => False
      end
      /\ passive t rest (step env ev w)
  end.

(** The slot of [id] is loading and its page is the one shown. *)
Definition settled (id : string) (w : Window) : Prop :=
  exists info,
    find id (tab_widgets_ w) = Some info
    /\ loaded info = false /\ loading info = true
    /\ current_page (notebook_ w) = page_num info
    /\ 0 <= page_num info < get_n_pages (notebook_ w).

(** The two members that decide whether [on_tab_switch] may load a tab. *)
Definition policy (w : Window) : bool * string :=
  (prevent_auto_loading_ w, initial_tab_ w).

(** [w'] differs from [w] at most in the slot of [id]: the entries and the
    recorded errors of the other tabs are the same, the policy is the same,
    and every timer added that would load a tab is for [id]. *)
Definition touches_only (id : string) (w w' : Window) : Prop :=
  (forall id', id' <> id ->
     entry id' (tab_widgets_ w') = entry id' (tab_widgets_ w)
     /\ tab_load_errors_ w' !! id' = tab_load_errors_ w !! id')
  /\ policy w' = policy w
  /\ exists ts,
       timers w' = (timers w ++ ts)%list
       /\ forall tm id', In tm ts -> timer_tab (snd tm) = Some id' -> id' = id.

(** What holds at startup with an initial tab [t] and keeps holding while
    the user only moves between the other pages: the policy is on for [t],
    and every pending timer that would load a tab is for [t]. *)
Definition waiting_for (t : string) (w : Window) : Prop :=
  policy w = (true, t)
  /\ forall tm id, In tm (timers w) -> timer_tab (snd tm) = Some id -> id = t.

(** No tab is loaded or loading, no error is recorded, no timer pends. *)
Definition fresh (w : Window) : Prop :=
  (forall id, loaded (entry id (tab_widgets_ w)) = false
              /\ loading (entry id (tab_widgets_ w)) = false)
  /\ tab_load_errors_ w = ∅
  /\ timers w = [].

(** One click on the label of the wifi tab while the volume page is shown:
    the toolkit changes the page and delivers [switch_page], then the label's
    own handler runs; the timers follow in the order they come due.  The
    first construction of the panel throws, the second one returns. *)
Definition panel_throws : Env := {| labels := Returns; factory := Throws "no adapter" |}.

Definition click_on_wifi : list (Event * Env) :=
  [ (SwitchPage 1, quiet);
    (LabelPress "wifi" 1, quiet);
    (Tick, quiet);
    (Tick, quiet);
    (Tick, panel_throws);
    (Tick, quiet) ].

(** The tabs with their pages, in map order, and the page recorded for a
    tab. *)
Definition layout (m : TabMap) : list (string * Z) :=
  map (fun kv => (fst kv, page_num (snd kv))) m.

Definition page_of (id : string) (w : Window) : option Z :=
  option_map page_num (find id (tab_widgets_ w)).

(** The bookkeeping is in order: no key twice, every registered tab has a
    page of the notebook, a pending [ShowAndLoad] is for a registered tab and
    its page, a pending [CreateContent] is for a registered tab. *)
Definition placed (w : Window) : Prop :=
  List.NoDup (map fst (tab_widgets_ w))
  /\ (forall id p, page_of id w = Some p -> 0 <= p < get_n_pages (notebook_ w))
  /\ (forall due id page,
        In (due, ShowAndLoad id page) (timers w) -> page_of id w = Some page)
  /\ (forall due id page,
        In (due, CreateContent id page) (timers w) -> page_of id w <> None).

(** Same tabs on the same pages, same number of pages. *)
Definition same_layout (w w' : Window) : Prop :=
  layout (tab_widgets_ w') = layout (tab_widgets_ w)
  /\ get_n_pages (notebook_ w') = get_n_pages (notebook_ w).

(** [w'] has the layout of [w], and the timers it adds load registered
    tabs only. *)
Definition keeps (w w' : Window) : Prop :=
  same_layout w w'
  /\ exists ts,
       timers w' = (timers w ++ ts)%list
       /\ (forall due id page,
             In (due, ShowAndLoad id page) ts -> page_of id w = Some page)
       /\ (forall due id page,
             In (due, CreateContent id page) ts -> page_of id w <> None).

(** Every registered tab is one of the five panels. *)
Definition labelled (w : Window) : Prop :=
  forall id, page_of id w <> None -> tab_label id <> None.

(** The window before [create_tabs]. *)
Definition empty_window (initial_tab : string) : Window :=
  {| notebook_ := {| pages := []; current_page := -1 |};
     initial_tab_ := initial_tab;
     prevent_auto_loading_ := negb (String.eqb initial_tab EmptyString);
     tab_widgets_ := [];
     tab_load_errors_ := ∅;
     switch_guard := false;
     now := 0;
     timers := [];
     effects := [] |}.

(** [w'] has the entry of [id] and as many constructor calls for it as
    [w]. *)
Definition spares (id : string) (w w' : Window) : Prop :=
  entry id (tab_widgets_ w') = entry id (tab_widgets_ w)
  /\ constructions id w' = constructions id w.

(** Nothing is taken back between [w] and [w']: the clock has not gone
    back, effects were only added, every tab with an error recorded still has
    one, the policy is the same. *)
Definition grows (w w' : Window) : Prop :=
  now w <= now w'
  /\ (exists es, effects w' = (effects w ++ es)%list)
  /\ (forall id e, tab_load_errors_ w !! id = Some e ->
                   exists e', tab_load_errors_ w' !! id = Some e')
  /\ policy w' = policy w.

(** The guard of [on_tab_switch] is set only while its release is pending,
    and the release is due within 100 ms. *)
Definition guarded (w : Window) : Prop :=
  switch_guard w = true ->
  exists due, In (due, ReleaseGuard) (timers w) /\ due <= now w + 100.

(** [w'] has the guard and the clock of [w] and all its timers. *)
Definition holds_guard (w w' : Window) : Prop :=
  switch_guard w' = switch_guard w
  /\ now w' = now w
  /\ exists ts, timers w' = (timers w ++ ts)%list.

(** The choice of the initial tab in [main]: the first option set, in this
    order, decides. *)
Definition initial_tab_option
    (volume_opt wifi_opt bluetooth_opt display_opt power_opt settings_opt : bool)
    : string :=
  if volume_opt then "volume"
  else if wifi_opt then "wifi"
  else if bluetooth_opt then "bluetooth"
  else if display_opt then "display"
  else if power_opt then "power"
  else if settings_opt then "settings"
  else EmptyString.

(** A run without the user asking for a tab: page changes, timers and
    time passing only. *)
Definition unattended (evs : list (Event * Env)) : Prop :=
  Forall (fun ev => match fst ev with
                    | SwitchPage _ | Tick | Elapse _ => True
                    | LabelPress _ _ | SwitchTo _ => False
                    end) evs.

(** [w'] differs from [w] in nothing that bears on loading: same entries,
    same errors, same policy, same pending loads, same constructor calls. *)
Definition idle (w w' : Window) : Prop :=
  tab_widgets_ w' = tab_widgets_ w
  /\ tab_load_errors_ w' = tab_load_errors_ w
  /\ policy w' = policy w
  /\ List.filter is_load_timer (timers w') = List.filter is_load_timer (timers w)
  /\ List.filter is_any_construct (effects w') = List.filter is_any_construct (effects w).

(** The page recorded for a tab holds the widget recorded for it, and no
    two tabs have the same page. *)
Definition shown (w : Window) : Prop :=
  forall id info,
    find id (tab_widgets_ w) = Some info ->
    get_nth_page (page_num info) (notebook_ w) = widget info.

Definition distinct_pages (w : Window) : Prop :=
  forall id id' p, page_of id w = Some p -> page_of id' w = Some p -> id = id'.

(** The position of a tab in a list of tab ids, counted from 0, and the
    tabs that [create_tabs] gives a page: the enabled ones that are panels,
    in the configured order. *)
Fixpoint index_of (id : string) (l : list string) : option Z :=
  match l with
  | [] => None
  | x :: rest =>
      if String.eqb x id then Some 0 else option_map Z.succ (index_of id rest)
  end.

Definition visible (tab_order : list string) (is_tab_enabled : string -> bool)
    : list string :=
  List.filter
    (fun id => is_tab_enabled id
               && match tab_label id with Some _ => true | None => false end)
    tab_order.

(** The enabled set that [create_tabs] sees: the settings' one with the
    initial tab switched on. *)
Definition enabled_with (initial_tab : string) (is_tab_enabled : string -> bool)
    (id : string) : bool :=
  (negb (String.eqb initial_tab EmptyString) && String.eqb id initial_tab)
  || is_tab_enabled id.

(** The three invariants together. *)
Definition in_order (w : Window) : Prop := placed w /\ distinct_pages w /\ shown w.

End MainWindow.

(* ===================================================================== *)
(** ** The main window with the notebook's signal

    [MainWindow] above takes every handler by itself.  In the program the
    constructor connects [on_tab_switch] to the notebook's [switch_page]
    signal before it adds a page, and the notebook emits that signal from
    inside [append_page], [insert_page], [remove_page] and
    [set_current_page] whenever the current page changes, so the handler runs
    in the middle of the function that made the call.  Here the handlers are
    taken with these deliveries. *)
(* ===================================================================== *)

Module Reentrant.
Import MainWindow.

Local Open Scope Z_scope.

(** How a handler ends: it returns, or it locks [tab_mutex_] while the
    thread already holds it.  The behaviour of [std::mutex::lock] is then
    undefined (in practice the thread waits for itself for ever); the window
    is given as it was at that point, and nothing runs after it. *)
Inductive Result :=
| Finished (w : Window)
| Relocks (w : Window).

Definition and_then (r : Result) (k : Window -> Result) : Result :=
  match r with
  | Finished w => k w
  | Relocks w => Relocks w
  end.

Definition window_of (r : Result) : Window :=
  match r with
  | Finished w | Relocks w => w
  end.

(** *** The notebook

    [Gtk::Notebook] belongs to the toolkit: pages are taken to be visible
    when they are added.  Each function gives the notebook afterwards and the
    page whose [switch_page] it emits, if any.  The notebook emits the
    signal when the current page changes: a page added to a notebook with no
    current page becomes the current one; when the current page is removed
    the next page becomes current, or the previous one when there is no next;
    [set_current_page] on the page that is already current emits nothing. *)
Definition select_page (n : Z) (nb : Notebook) : Notebook * option Z :=
  match resolve n nb with
  | Some k =>
      if current_page nb =? Z.of_nat k then (nb, None)
      else ({| pages := pages nb; current_page := Z.of_nat k |}, Some (Z.of_nat k))
  | None => (nb, None)
  end.

Definition take_page (n : Z) (nb : Notebook) : Notebook * option Z :=
  match resolve n nb with
  | None => (nb, None)
  | Some k =>
      let rest := (firstn k (pages nb) ++ skipn (S k) (pages nb))%list in
      let cur := current_page nb in
      let kz := Z.of_nat k in
      if cur =? kz then
        if kz <? Z.of_nat (length rest)
        then ({| pages := rest; current_page := kz |}, Some kz)
        else if 0 <? kz
        then ({| pages := rest; current_page := kz - 1 |}, Some (kz - 1))
        else ({| pages := rest; current_page := -1 |}, None)
      else ({| pages := rest;
               current_page := if kz <? cur then cur - 1 else cur |}, None)
  end.

(** The index at which [insert_page] puts a page. *)
Definition inserted_at (position : Z) (nb : Notebook) : Z :=
  let n := get_n_pages nb in
  if (position <? 0) || (n <? position) then n else position.

Definition put_page (child : Widget) (position : Z) (nb : Notebook)
  : Notebook * option Z :=
  let idx := inserted_at position nb in
  let k := Z.to_nat idx in
  let cur := current_page nb in
  let all := (firstn k (pages nb) ++ child :: skipn k (pages nb))%list in
  if cur <? 0 then ({| pages := all; current_page := idx |}, Some idx)
  else ({| pages := all; current_page := if idx <=? cur then cur + 1 else cur |},
        None).

Section Handlers.

(** The handler connected to [switch_page]: whether the caller holds
    [tab_mutex_], the page, the window. *)
Variable deliver : bool -> Z -> Window -> Result.

Definition announce (locked : bool) (emitted : option Z) (w : Window) : Result :=
  match emitted with
  | Some page => deliver locked page w
  | None => Finished w
  end.

(** [notebook_.set_current_page], [notebook_.remove_page] and
    [notebook_.insert_page] as the handlers call them. *)
Definition set_current_page (locked : bool) (n : Z) (w : Window) : Result :=
  let '(nb, emitted) := select_page n (notebook_ w) in
  announce locked emitted (with_notebook nb w).

Definition remove_page (locked : bool) (n : Z) (w : Window) : Result :=
  let '(nb, emitted) := take_page n (notebook_ w) in
  announce locked emitted (with_notebook nb w).

Definition insert_page (locked : bool) (child : Widget) (position : Z) (w : Window)
  : Result :=
  let '(nb, emitted) := put_page child position (notebook_ w) in
  announce locked emitted (with_notebook nb w).

(** [MainWindow::show_loading_indicator].  The lock taken at its head is
    held until it returns, so the notebook calls are made with
    [tab_mutex_] held. *)
Definition show_loading_indicator (env : Env) (id : string) (page : Z) (w : Window)
  : Result :=
  let w := with_tabs (touch id (tab_widgets_ w)) w in
  let info := entry id (tab_widgets_ w) in
  if loaded info || loading info then Finished w
  else
    match find id (tab_widgets_ w) with
    | None => Finished w
    | Some _ =>
        if (page <? 0) || (get_n_pages (notebook_ w) <=? page) then Finished w
        else
          let w := with_tabs (update id (set_loading true) (tab_widgets_ w)) w in
          let w := effect MakeLoadingIndicator w in
          match tab_label id with
          | None =>
              Finished (with_tabs (update id (set_loading false) (tab_widgets_ w)) w)
          | Some _ =>
              match labels env with
              | Returns =>
                  and_then (remove_page true page w) (fun w =>
                  let new_page_num := inserted_at page (notebook_ w) in
                  and_then (insert_page true LoadingIndicator page w) (fun w =>
                  let w := with_tabs
                             (update id (set_widget_page LoadingIndicator new_page_num)
                                (tab_widgets_ w)) w in
                  if current_page (notebook_ w) =? new_page_num then Finished w
                  else set_current_page true new_page_num w))
              | Throws what =>
                  Finished
                    (with_tabs (update id (set_loading false) (tab_widgets_ w))
                       (effect (Cerr ("Error showing loading indicator for tab "
                                        ++ id ++ ": " ++ what)) w))
              | ThrowsOther =>
                  Finished
                    (with_tabs (update id (set_loading false) (tab_widgets_ w))
                       (effect (Cerr ("Unknown error showing loading indicator for tab "
                                        ++ id)) w))
              end
          end
    end.

(** [MainWindow::create_tab_content].  Its locks are released before the
    notebook is called. *)
Definition create_tab_content (env : Env) (id : string) (page : Z) (w : Window)
  : Result :=
  let w := with_tabs (touch id (tab_widgets_ w)) w in
  if loaded (entry id (tab_widgets_ w)) then Finished w
  else
    match find id (tab_widgets_ w) with
    | None => Finished w
    | Some _ =>
        match tab_label id with
        | None =>
            Finished
              (with_errors (<[id := "Unknown tab type"]> (tab_load_errors_ w))
                 (with_tabs (update id (set_loading false) (tab_widgets_ w)) w))
        | Some _ =>
            let w := effect (Construct id) w in
            match factory env with
            | Returns =>
                let content := TabContent id in
                let current_page_num := page_num (entry id (tab_widgets_ w)) in
                and_then (remove_page false current_page_num w) (fun w =>
                let w := effect (AddClass content "tab-content") w in
                let w := effect (SetOpacity content 0) w in
                let w := effect (AddClass content "animate-in") w in
                let new_page_num := inserted_at current_page_num (notebook_ w) in
                and_then (insert_page false content current_page_num w) (fun w =>
                let w := with_tabs
                           (update id (set_content content new_page_num)
                              (tab_widgets_ w)) w in
                and_then
                  (if current_page (notebook_ w) =? new_page_num then Finished w
                   else set_current_page false new_page_num w) (fun w =>
                let w := connect_once (EndAnimateIn content "Starting tab animation")
                           50 w in
                let w := effect (EmitLoaded id) w in
                Finished
                  (effect (Cout ("Tab " ++ id ++ " loaded and selected successfully"))
                     w))))
            | Throws what =>
                Finished
                  (effect (Cerr ("Error creating tab " ++ id ++ ": " ++ what))
                     (with_errors (<[id := what]> (tab_load_errors_ w))
                        (with_tabs (update id (set_loading false) (tab_widgets_ w)) w)))
            | ThrowsOther =>
                Finished
                  (effect (Cerr ("Unknown error creating tab " ++ id))
                     (with_errors (<[id := "Unknown error"]> (tab_load_errors_ w))
                        (with_tabs (update id (set_loading false) (tab_widgets_ w)) w)))
            end
        end
    end.

(** The two calls that load a tab, as [switch_to_tab], the label's handler
    and the timer of [on_tab_switch] make them. *)
Definition show_and_load (env : Env) (id : string) (page : Z) (w : Window) : Result :=
  and_then (show_loading_indicator env id page w)
    (fun w => Finished (load_tab_content_async id page w)).

(** [MainWindow::switch_to_tab].  [it] is an iterator into [tab_widgets_]:
    what is read through it after [set_current_page] is the entry as the
    handler of [switch_page] left it. *)
Definition switch_to_tab (env : Env) (tab_id : string) (w : Window) : Result :=
  match find tab_id (tab_widgets_ w) with
  | None => Finished w
  | Some found =>
      let w := exit_animation 200 (page_num found) w in
      and_then (set_current_page false (page_num found) w) (fun w =>
      let it := entry tab_id (tab_widgets_ w) in
      if negb (loaded it) && negb (loading it) then
        show_and_load env tab_id (page_num it) w
      else if loaded it then
        if is_null (widget it) then Finished w
        else Finished (entrance_animation (widget it)
                         "Starting direct tab switch animation" w)
      else Finished w)
  end.

(** The button-press handler that [create_tab_label] connects to the label
    of [tab_id]. *)
Definition on_label_press (env : Env) (tab_id : string) (button : Z) (w : Window)
  : Result :=
  if button =? 1 then
    match find tab_id (tab_widgets_ w) with
    | None => Finished w
    | Some found =>
        and_then (set_current_page false (page_num found) w) (fun w =>
        let it := entry tab_id (tab_widgets_ w) in
        if negb (loaded it) && negb (loading it) then
          show_and_load env tab_id (page_num it) w
        else Finished w)
    end
  else Finished w.

(** [MainWindow::on_tab_switch], with [deliver] for the deliveries that its
    own call of [show_loading_indicator] causes.  [locked] tells whether the
    function that made the notebook emit the signal holds [tab_mutex_]. *)
Definition on_tab_switch_body (env : Env) (locked : bool) (page : Z) (w : Window)
  : Result :=
  if switch_guard w then Finished w
  else
    let w := exit_animation 250 page w in
    if prevent_auto_loading_ w
       && negb (String.eqb (tab_at_page page (tab_widgets_ w)) (initial_tab_ w))
    then Finished w
    else if locked then Relocks w
    else
      let tab_id_to_load := tab_to_load page (tab_widgets_ w) in
      if negb (String.eqb tab_id_to_load EmptyString) then
        let w := with_guard true w in
        and_then
          (if String.eqb tab_id_to_load "power"
           then show_and_load env tab_id_to_load page w
           else Finished (connect_once (ShowAndLoad tab_id_to_load page) 50 w))
          (fun w => Finished (connect_once ReleaseGuard 100 w))
      else
        let new_widget := get_nth_page page (notebook_ w) in
        if is_null new_widget then Finished w
        else
          let new_tab_id := tab_at_page page (tab_widgets_ w) in
          if negb (String.eqb new_tab_id EmptyString)
             && loaded (entry new_tab_id (tab_widgets_ w))
          then Finished (entrance_animation new_widget
                           "Starting tab switch animation" w)
          else Finished w.

(** [MainWindow::add_tab]. *)
Definition add_tab (id : string) (w : Window) : Result :=
  let page := inserted_at (-1) (notebook_ w) in
  and_then (insert_page false PlaceholderBox (-1) w) (fun w =>
  Finished
    (with_tabs
       (assign id {| widget := PlaceholderBox; page_num := page;
                     loaded := false; loading := false |} (tab_widgets_ w))
       w)).

(** [MainWindow::create_tabs] on a notebook that is still empty. *)
Fixpoint create_tabs (tab_order : list string) (is_tab_enabled : string -> bool)
    (w : Window) : Result :=
  match tab_order with
  | [] => Finished w
  | tab_id :: rest =>
      and_then
        (if is_tab_enabled tab_id then
           match tab_label tab_id with
           | Some _ => add_tab tab_id w
           | None => Finished w
           end
         else Finished w)
        (create_tabs rest is_tab_enabled)
  end.

End Handlers.

(** [on_tab_switch] sets its guard before it calls
    [show_loading_indicator], so the deliveries that this call causes enter
    [on_tab_switch] with the guard set and return at once. *)
Definition returns_at_guard (locked : bool) (page : Z) (w : Window) : Result :=
  Finished w.

Definition on_tab_switch (env : Env) : bool -> Z -> Window -> Result :=
  on_tab_switch_body returns_at_guard env.

(** The constructor of [MainWindow], as far as the tabs go. *)
Definition new_window (env : Env) (initial_tab : string)
    (tab_order : list string) (is_tab_enabled : string -> bool) : Result :=
  and_then
    (create_tabs (on_tab_switch env) tab_order
       (enabled_with initial_tab is_tab_enabled) (empty_window initial_tab))
    (fun w =>
       if negb (String.eqb initial_tab EmptyString)
       then switch_to_tab (on_tab_switch env) env initial_tab w
       else Finished w).

(** *** The main loop *)

(** A timer callback. *)
Definition fire (env : Env) (t : Timer) (w : Window) : Result :=
  match t with
  | ShowAndLoad id page => show_and_load (on_tab_switch env) env id page w
  | CreateContent id page => create_tab_content (on_tab_switch env) env id page w
  | ReleaseGuard => Finished (with_guard false w)
  | EndAnimateOut target => Finished (effect (RemoveClass target "animate-out") w)
  | EndAnimateIn target msg =>
      Finished
        (effect (SetOpacity target 1)
           (effect (RemoveClass target "animate-in") (effect (Cout msg) w)))
  end.

(** What the main loop dispatches: the user moves to a page through the
    notebook (which then emits [switch_page]), a button press on a tab
    label, the next timer, or nothing for a while. *)
Inductive Event :=
| Select (page : Z)
| LabelPress (tab_id : string) (button : Z)
| Tick
| Elapse (milliseconds : Z).

Definition step (env : Env) (ev : Event) (w : Window) : Result :=
  match ev with
  | Select page => set_current_page (on_tab_switch env) false page w
  | LabelPress tab_id button => on_label_press (on_tab_switch env) env tab_id button w
  | Tick =>
      match earliest (timers w) with
      | Some ((due, t), others) =>
          fire env t (with_clock (Z.max (now w) due) others w)
      | None => Finished w
      end
  | Elapse dt => Finished (with_clock (now w + Z.max dt 0) (timers w) w)
  end.

(** A run: each event with the answers of the toolkit and the constructors
    during it. *)
Fixpoint run (evs : list (Event * Env)) (w : Window) : Result :=
  match evs with
  | [] => Finished w
  | (ev, env) :: rest => and_then (step env ev w) (run rest)
  end.

(** Whether a handler returned. *)
Definition finished (r : Result) : bool :=
  match r with
  | Finished _ => true
  | Relocks _ => false
  end.

(** A handler that returns at once when the guard of [on_tab_switch] is
    set. *)
Definition guard_respecting (deliver : bool -> Z -> Window -> Result) : Prop :=
  forall locked page w, switch_guard w = true -> deliver locked page w = Finished w.

(** The effects of an animation: style classes and opacity. *)
Definition is_animation (e : Effect) : Prop :=
  match e with
  | AddClass _ _ | RemoveClass _ _ | SetOpacity _ _ => True
  | _ => False
  end.

(** [w'] differs from [w] by a change of page at most: a cosmetic change
    that keeps the pages and adds effects of animations only. *)
Definition swaps (w w' : Window) : Prop :=
  cosmetic w w'
  /\ pages (notebook_ w') = pages (notebook_ w)
  /\ exists added,
       effects w' = (effects w ++ added)%list /\ Forall is_animation added.

(** The window that [main] builds when started on the wifi tab, and that
    window once the content of the tab has been built. *)
Definition started_on_wifi : Result :=
  new_window quiet "wifi" all_tabs (fun _ => true).

Definition wifi_loaded : Window :=
  window_of
    (and_then started_on_wifi
       (run [(Tick, quiet); (Tick, quiet); (Tick, quiet); (Tick, quiet);
             (Tick, quiet); (Tick, quiet)])).

(** Started on the wifi tab, the user waits for it, clicks on the label of
    the bluetooth tab, waits for that tab and then moves to the page of the
    display tab. *)
Definition click_then_select : list (Event * Env) :=
  [ (Tick, quiet); (Tick, quiet); (Tick, quiet); (Tick, quiet);
    (Tick, quiet); (Tick, quiet);
    (LabelPress "bluetooth" 1, quiet);
    (Tick, quiet); (Tick, quiet);
    (Select 3, quiet);
    (Elapse 1000, quiet) ].

End Reentrant.

(* ===================================================================== *)
(** ** The settings tab *)
(* ===================================================================== *)

Module Core.

(** The members of [SettingsTab]: two check buttons, the text that is active
    in the language combo box (none when no row is active) and the
    key-value store. *)
Record SettingsTab := mkSettingsTab {
  autostart_check_ : bool;
  notifications_check_ : bool;
  language_combo_ : option string;
  settings_ : gmap string string
}.

(** The rows the constructor appends to the combo box. *)
Definition languages : list string := ["en"; "pt"; "es"].

(** [Gtk::ComboBoxText::set_active_text]: the row with this text becomes
    active; when no row has it the combo box is left with no active row. *)
Definition set_active_text (text : string) : option string :=
  if existsb (String.eqb text) languages then Some text else None.

(** [Gtk::ComboBoxText::get_active_text]: empty when no row is active. *)
Definition get_active_text (combo : option string) : string :=
  match combo with
  | Some text => text
  | None => ""
  end.

(** White space for a stream in the classic locale. *)
Definition isspace (c : ascii) : bool :=
  let n := nat_of_ascii c in
  Nat.eqb n 32 || (Nat.leb 9 n && Nat.leb n 13).

(** [operator>>] into a [std::string]: leading white space is skipped, then
    characters are taken up to the next white space or the end of the
    stream.  The extraction fails when no character could be taken. *)
Fixpoint skipws (s : string) : string :=
  match s with
  | EmptyString => EmptyString
  | String c s' => if isspace c then skipws s' else s
  end.

Fixpoint word (s : string) : string * string :=
  match s with
  | EmptyString => (EmptyString, EmptyString)
  | String c s' =>
      if isspace c then (EmptyString, s)
      else let (w, rest) := word s' in (String c w, rest)
  end.

Definition extract (s : string) : option (string * string) :=
  match skipws s with
  | EmptyString => None
  | s' => Some (word s')
  end.

(** [while (infile >> key >> value) settings_[key] = value;] on what is left
    of the stream.  Every round takes at least two characters, so the length
    of the stream bounds the number of rounds. *)
Fixpoint read_loop (fuel : nat) (s : string) (settings : gmap string string)
  : gmap string string :=
  match fuel with
  | O => settings
  | S fuel' =>
      match extract s with
      | None => settings
      | Some (key, s1) =>
          match extract s1 with
          | None => settings
          | Some (value, s2) => read_loop fuel' s2 (<[key := value]> settings)
          end
      end
  end.

Definition read_pairs (s : string) (settings : gmap string string)
  : gmap string string :=
  read_loop (String.length s) s settings.

(** [settings_[key]] as an rvalue: a missing key is inserted with an empty
    value. *)
Definition at_key (key : string) (settings : gmap string string)
  : string * gmap string string :=
  match settings !! key with
  | Some value => (value, settings)
  | None => (EmptyString, <[key := EmptyString]> settings)
  end.

(** [SettingsTab::load_settings].  [file] is the content of the settings
    file, [None] when it cannot be opened. *)
Definition load_settings (file : option string) (t : SettingsTab) : SettingsTab :=
  match file with
  | None => t
  | Some text =>
      let s0 := read_pairs text (settings_ t) in
      let (autostart, s1) := at_key "autostart" s0 in
      let (notifications, s2) := at_key "notifications" s1 in
      let (language, s3) := at_key "language" s2 in
      mkSettingsTab (String.eqb autostart "1") (String.eqb notifications "1")
        (if String.eqb language "" then language_combo_ t
         else set_active_text language)
        s3
  end.

(** The constructor: both check buttons unchecked, "en" active, an empty
    store, then [load_settings]. *)
Definition new_SettingsTab (file : option string) : SettingsTab :=
  load_settings file (mkSettingsTab false false (set_active_text "en") ∅).

(** One round of the loop of [save_settings]. *)
Definition write_pair (kv : string * string) : string :=
  kv.1 ++ " " ++ kv.2 ++ String newline EmptyString.

Fixpoint written (pairs : list (string * string)) : string :=
  match pairs with
  | [] => EmptyString
  | kv :: pairs' => write_pair kv ++ written pairs'
  end.

Definition flag (b : bool) : string := if b then "1" else "0".

(** The store after the three assignments that open [save_settings]. *)
Definition saved_settings (t : SettingsTab) : gmap string string :=
  <["language" := get_active_text (language_combo_ t)]>
    (<["notifications" := flag (notifications_check_ t)]>
       (<["autostart" := flag (autostart_check_ t)]> (settings_ t))).

(** [SettingsTab::save_settings], which the destructor calls.  [items] lists
    the pairs of a store in the order in which the range-for loop visits
    them; [opened] tells whether the output file could be opened.  The result
    is the tab and the new content of the file, [None] when nothing was
    written. *)
Definition save_settings (items : gmap string string -> list (string * string))
    (opened : bool) (t : SettingsTab) : SettingsTab * option string :=
  let s := saved_settings t in
  let t' := mkSettingsTab (autostart_check_ t) (notifications_check_ t)
              (language_combo_ t) s in
  if opened then (t', Some (written (items s))) else (t', None).

(** A key or value that the reader gets back as one token: not empty and
    without white space. *)
Fixpoint no_space (s : string) : bool :=
  match s with
  | EmptyString => true
  | String c s' => negb (isspace c) && no_space s'
  end.

Definition plain (s : string) : bool :=
  negb (String.eqb s EmptyString) && no_space s.

Definition plain_pair (key value : string) : Prop :=
  plain key = true /\ plain value = true.

(** [settings_[key] = value] for a pair. *)
Definition assign_pair (m : gmap string string) (kv : string * string)
  : gmap string string :=
  <[kv.1 := kv.2]> m.

(** A file whose language is not one of the three offered. *)
Definition french : string := "autostart 1" ++ String newline "language fr".

End Core.

(** Case analysis on the scrutinee of the first [match] of the goal. *)
Ltac break_match :=
  match goal with
  | |- context [match ?x with _ => _ end] => destruct x
  end.

(* ===================================================================== *)
(** ** Properties of the WiFi manager *)
(* ===================================================================== *)

Module WifiProps.
Import Wifi.

Lemma with_networks_twice a b s :
  with_networks a (with_networks b s) = with_networks a s.
Proof. reflexivity. Qed.

Lemma with_networks_same s : with_networks (networks_ s) s = s.
Proof. destruct s; reflexivity. Qed.

(** The parsing loop appends the networks of the lines, in order, and
    touches nothing else. *)
Lemma push_lines_appends lines : forall s,
  push_lines lines s
  = (tt, with_networks (networks_ s ++ omap parse_line lines) s).
Proof.
  induction lines as [|line rest IH]; intros s; simpl.
  - rewrite app_nil_r, with_networks_same. reflexivity.
  - unfold bind. destruct (parse_line line) as [net|]; simpl.
    + unfold modify. rewrite IH. simpl. rewrite <- app_assoc. reflexivity.
    + unfold ret. apply IH.
Qed.

(** A scan with the radio on whose command ran: the list is exactly what
    the text parses to, and the callback, when set, receives it. *)
Lemma scan_networks_ran env s output status :
  wifi_enabled_ s = true ->
  popen_result env (issued s) scan_command = PipeClosed output status ->
  exec (scan_networks env) s
  = let s1 := with_networks (parse_output (read_result output))
                (next_request (record (Popen scan_command) s)) in
    match update_callback_ s with
    | Some f => record (CallUpdate f (parse_output (read_result output))) s1
    | None => s1
    end.
Proof.
  intros Hen Hpipe.
  unfold exec, scan_networks, bind, get, popen. rewrite Hen. simpl.
  rewrite Hpipe. rewrite push_lines_appends. simpl.
  unfold notify_update, bind, get, parse_output. simpl.
  destruct (update_callback_ s); reflexivity.
Qed.

(** A scan with the radio on for which [popen] gave no pipe. *)
Lemma scan_networks_no_pipe env s :
  wifi_enabled_ s = true ->
  popen_result env (issued s) scan_command = PipeFailed ->
  exec (scan_networks env) s
  = record (Cerr ("Failed to run nmcli" ++ endl))
      (next_request (record (Popen scan_command) (with_networks [] s))).
Proof.
  intros Hen Hpipe.
  unfold exec, scan_networks, bind, get, popen. rewrite Hen. simpl.
  rewrite Hpipe. reflexivity.
Qed.

(** The list after a completion was applied to a manager whose radio is
    on. *)
Lemma apply_completion_fresh p m :
  wifi_enabled_ (impl_ m) = true ->
  (last_applied m < seq p)%nat ->
  get_networks (impl_ (apply_completion p m)) = parse_output (read_result (output p))
  /\ wifi_enabled_ (impl_ (apply_completion p m)) = true
  /\ last_applied (apply_completion p m) = seq p.
Proof.
  intros Hen Hlt. unfold apply_completion.
  apply Nat.ltb_lt in Hlt. rewrite Hlt. cbn [impl_ last_applied].
  rewrite (scan_networks_ran (answering (output p) 0) (impl_ m) (output p) 0
             Hen eq_refl).
  unfold get_networks. destruct (update_callback_ (impl_ m)); cbn;
    repeat split; try reflexivity; exact Hen.
Qed.

Lemma apply_completion_stale p m :
  (seq p <= last_applied m)%nat -> apply_completion p m = m.
Proof.
  intros Hle. unfold apply_completion.
  apply Nat.ltb_ge in Hle. rewrite Hle. reflexivity.
Qed.



(** C2 (as stated, refuted).  The manager holds one network; [popen] gives
    no pipe for the scan command; afterwards [get_networks] is empty. *)
Lemma failed_probe_empties_list :
  popen_result unavailable (issued (enabled_manager [home])) scan_command
  = PipeFailed
  /\ get_networks (exec (scan_networks unavailable) (enabled_manager [home]))
     <> get_networks (enabled_manager [home]).
Proof. split; [reflexivity|]. vm_compute. discriminate. Qed.

(** C2 (amended).  With the radio on: a scan for which [popen] gives no
    pipe leaves the enabled flag and the callbacks as they were, calls no
    callback and writes one line to the error stream, and the stored list is
    empty afterwards; a scan whose pipe was opened and whose read loop
    gathered no complete line of four fields is an ordinary completion with
    an empty list, passed to the update callback when one is set. *)
Theorem failed_probe_effect env s :
  wifi_enabled_ s = true ->
  (popen_result env (issued s) scan_command = PipeFailed ->
   let s' := exec (scan_networks env) s in
   wifi_enabled_ s' = wifi_enabled_ s
   /\ update_callback_ s' = update_callback_ s
   /\ state_callback_ s' = state_callback_ s
   /\ get_networks s' = []
   /\ trace s' = (trace s ++ [Popen scan_command;
                               Cerr ("Failed to run nmcli" ++ endl)])%list)
  /\ (forall output status,
        popen_result env (issued s) scan_command = PipeClosed output status ->
        parse_output (read_result output) = [] ->
        let s' := exec (scan_networks env) s in
        get_networks s' = []
        /\ trace s' = (trace s ++ Popen scan_command ::
                          match update_callback_ s with
                          | Some f => [CallUpdate f []]
                          | None => []
                          end)%list).
Proof.
  intros Hen. split.
  - intros Hpipe. cbv zeta. rewrite (scan_networks_no_pipe env s Hen Hpipe).
    simpl. rewrite <- app_assoc. repeat split; reflexivity.
  - intros output status Hpipe Hnone. cbv zeta.
    rewrite (scan_networks_ran env s output status Hen Hpipe). rewrite Hnone.
    unfold get_networks.
    destruct (update_callback_ s); simpl; rewrite <- ?app_assoc; split; reflexivity.
Qed.

Lemma failed_probe_effect_witness :
  wifi_enabled_ (enabled_manager [home]) = true
  /\ get_networks (exec (scan_networks unavailable) (enabled_manager [home])) = []
  /\ trace (exec (scan_networks unavailable) (enabled_manager [home]))
     = [Popen scan_command; Cerr ("Failed to run nmcli" ++ endl)].
Proof.
  split; [reflexivity|].
  destruct (failed_probe_effect unavailable (enabled_manager [home]) eq_refl)
    as [Hfail _].
  destruct (Hfail eq_refl) as (_ & _ & _ & Hnets & Htrace).
  split; [exact Hnets | exact Htrace].
Defined.

(** C8 (as stated, refuted).  The scan command exits with status 1 after
    printing one full line and the beginning of a second; the full line is
    parsed, stored and handed to the update callback, and nothing is written
    to the error stream. *)
Lemma nonzero_exit_output_applied :
  let env := answering (home_listing ++ ":Caf") 1 in
  let s' := exec (scan_networks env) (enabled_manager []) in
  popen_result env 0 scan_command = PipeClosed (home_listing ++ ":Caf") 1
  /\ get_networks s' = [home]
  /\ trace s' = [Popen scan_command; CallUpdate 0 [home]].
Proof. vm_compute. repeat split; reflexivity. Qed.

(** C8 (amended).  With the radio on, a scan reports a failure, on the
    error stream and with nothing parsed or applied, only when [popen] gives
    no pipe.  Once the pipe is open, the exit status that [pclose] returns is
    not consulted: every complete line of four fields in the text that the
    read loop gathered is parsed and applied, and no diagnostic is
    written. *)
Theorem exit_status_not_consulted env s :
  wifi_enabled_ s = true ->
  (popen_result env (issued s) scan_command = PipeFailed ->
   let s' := exec (scan_networks env) s in
   get_networks s' = []
   /\ trace s' = (trace s ++ [Popen scan_command;
                               Cerr ("Failed to run nmcli" ++ endl)])%list)
  /\ (forall output status,
        popen_result env (issued s) scan_command = PipeClosed output status ->
        let s' := exec (scan_networks env) s in
        get_networks s' = parse_output (read_result output)
        /\ trace s' = (trace s ++ Popen scan_command ::
                          match update_callback_ s with
                          | Some f => [CallUpdate f (parse_output (read_result output))]
                          | None => []
                          end)%list).
Proof.
  intros Hen. split.
  - intros Hpipe. cbv zeta. rewrite (scan_networks_no_pipe env s Hen Hpipe).
    simpl. rewrite <- app_assoc. split; reflexivity.
  - intros output status Hpipe. cbv zeta.
    rewrite (scan_networks_ran env s output status Hen Hpipe).
    unfold get_networks.
    destruct (update_callback_ s); simpl; rewrite <- ?app_assoc; split; reflexivity.
Qed.

Lemma exit_status_not_consulted_witness :
  wifi_enabled_ (enabled_manager []) = true
  /\ get_networks
       (exec (scan_networks (answering (home_listing ++ ":Caf") 1))
          (enabled_manager []))
     = parse_output (read_result (home_listing ++ ":Caf")).
Proof.
  split; [reflexivity|].
  destruct (exit_status_not_consulted
              (answering (home_listing ++ ":Caf") 1) (enabled_manager []) eq_refl)
    as [_ Hran].
  exact (proj1 (Hran (home_listing ++ ":Caf") 1%Z eq_refl)).
Defined.

(** C9.  A scan while the radio is off runs no external command, leaves
    the stored list empty and calls the update callback, when one is set,
    exactly once, with the empty list. *)
Theorem scan_while_disabled env s :
  wifi_enabled_ s = false ->
  let s' := exec (scan_networks env) s in
  issued s' = issued s
  /\ get_networks s' = []
  /\ trace s' = (trace s ++ match update_callback_ s with
                            | Some f => [CallUpdate f []]
                            | None => []
                            end)%list.
Proof.
  intros Hoff. cbv zeta.
  unfold exec, scan_networks, bind, get. rewrite Hoff. simpl.
  unfold notify_update, bind, get. simpl.
  destruct (update_callback_ s); simpl; rewrite ?app_nil_r; repeat split; reflexivity.
Qed.

Lemma scan_while_disabled_witness :
  wifi_enabled_ (disabled_manager [home]) = false
  /\ trace (exec (scan_networks (answering home_listing 0)) (disabled_manager [home]))
     = [CallUpdate 0 []].
Proof.
  split; [reflexivity|].
  exact (proj2 (proj2 (scan_while_disabled (answering home_listing 0)
                         (disabled_manager [home]) eq_refl))).
Defined.

(** C10.  When the radio command returns a non-zero result, [enable_wifi]
    and [disable_wifi] leave the enabled flag and the stored list as they
    were and call neither callback: the command is all the trace gains. *)
Theorem radio_failure_changes_nothing env s :
  (system_result env (issued s) "nmcli radio wifi on" <> 0%Z ->
   let s' := exec (enable_wifi env) s in
   wifi_enabled_ s' = wifi_enabled_ s
   /\ get_networks s' = get_networks s
   /\ trace s' = (trace s ++ [System "nmcli radio wifi on"])%list)
  /\ (system_result env (issued s) "nmcli radio wifi off" <> 0%Z ->
      let s' := exec (disable_wifi env) s in
      wifi_enabled_ s' = wifi_enabled_ s
      /\ get_networks s' = get_networks s
      /\ trace s' = (trace s ++ [System "nmcli radio wifi off"])%list).
Proof.
  split; intros Hret; cbv zeta;
    unfold exec, enable_wifi, disable_wifi, bind, system; simpl;
    apply Z.eqb_neq in Hret; rewrite Hret; simpl; repeat split; reflexivity.
Qed.

Lemma radio_failure_changes_nothing_witness :
  system_result unavailable 0 "nmcli radio wifi on" <> 0%Z
  /\ wifi_enabled_ (exec (enable_wifi unavailable) (disabled_manager [])) = false
  /\ trace (exec (disable_wifi unavailable) (enabled_manager [home]))
     = [System "nmcli radio wifi off"].
Proof.
  split; [discriminate|].
  destruct (radio_failure_changes_nothing unavailable (disabled_manager []))
    as [Hon _].
  destruct (radio_failure_changes_nothing unavailable (enabled_manager [home]))
    as [_ Hoff].
  split.
  - apply Hon. discriminate.
  - apply Hoff. discriminate.
Defined.

(** C6 (the code at the failing input).  The Connect button of the widget
    of an open network that is not connected: the handler runs the connect
    command and the scans itself and sleeps one second in between. *)
Theorem connect_click_blocks :
  List.filter blocks
    (trace (exec (on_connect_clicked (answering cafe_listing 0) cafe)
              (enabled_manager [cafe])))
  = [System ("nmcli dev wifi connect " ++ dq ++ "Cafe" ++ dq);
     Popen scan_command;
     Usleep 1000000;
     Popen scan_command].
Proof. vm_compute. reflexivity. Qed.

End WifiProps.

(* ===================================================================== *)
(** ** Properties of the tab loader *)
(* ===================================================================== *)

Module MainWindowProps.
Import MainWindow.

Local Open Scope Z_scope.

Local Arguments insert_page : simpl never.
Local Arguments remove_page : simpl never.
Local Arguments set_current_page : simpl never.
Local Arguments get_nth_page : simpl never.
Local Arguments get_n_pages : simpl never.
Local Arguments update : simpl never.
Local Arguments touch : simpl never.
Local Arguments entry : simpl never.
Local Arguments tab_label : simpl never.

(** *** The tab map *)

Lemma find_replace_same id v m v0 :
  find id m = Some v0 -> find id (replace id v m) = Some v.
Proof.
  induction m as [|[k x] rest IH]; simpl; [discriminate|].
  destruct (String.eqb k id) eqn:E; simpl; rewrite E; auto.
Qed.

Lemma find_replace_other id id' v m :
  id' <> id -> find id' (replace id v m) = find id' m.
Proof.
  intros Hne. induction m as [|[k x] rest IH]; simpl; [reflexivity|].
  destruct (String.eqb k id) eqn:E; simpl.
  - apply String.eqb_eq in E. subst k.
    destruct (String.eqb id id') eqn:E'; [|reflexivity].
    apply String.eqb_eq in E'. congruence.
  - rewrite IH. reflexivity.
Qed.

Lemma find_insert_sorted_same id v m :
  find id m = None -> find id (insert_sorted id v m) = Some v.
Proof.
  induction m as [|[k x] rest IH]; simpl.
  - rewrite String.eqb_refl. reflexivity.
  - destruct (String.eqb k id) eqn:E; [discriminate|]. intros Hnone.
    destruct (String.ltb id k); simpl.
    + rewrite String.eqb_refl. reflexivity.
    + rewrite E. auto.
Qed.

Lemma find_insert_sorted_other id id' v m :
  id' <> id -> find id' (insert_sorted id v m) = find id' m.
Proof.
  intros Hne. induction m as [|[k x] rest IH]; simpl.
  - destruct (String.eqb id id') eqn:E'; [|reflexivity].
    apply String.eqb_eq in E'. congruence.
  - destruct (String.ltb id k); simpl.
    + destruct (String.eqb id id') eqn:E'; [|reflexivity].
      apply String.eqb_eq in E'. congruence.
    + rewrite IH. reflexivity.
Qed.

Lemma find_assign_same id v m : find id (assign id v m) = Some v.
Proof.
  unfold assign. destruct (find id m) eqn:E.
  - eapply find_replace_same; eauto.
  - apply find_insert_sorted_same; assumption.
Qed.

Lemma find_assign_other id id' v m :
  id' <> id -> find id' (assign id v m) = find id' m.
Proof.
  intros Hne. unfold assign. destruct (find id m).
  - apply find_replace_other; assumption.
  - apply find_insert_sorted_other; assumption.
Qed.

Lemma touch_found id m v : find id m = Some v -> touch id m = m.
Proof. intros H. unfold touch. rewrite H. reflexivity. Qed.

Lemma entry_found id m v : find id m = Some v -> entry id m = v.
Proof. intros H. unfold entry. rewrite H. reflexivity. Qed.

Lemma find_update_same id f m : find id (update id f m) = Some (f (entry id m)).
Proof. apply find_assign_same. Qed.

Lemma find_update_other id id' f m :
  id' <> id -> find id' (update id f m) = find id' m.
Proof. apply find_assign_other. Qed.

Lemma entry_update_same id f m : entry id (update id f m) = f (entry id m).
Proof. unfold entry at 1. rewrite find_update_same. reflexivity. Qed.

Lemma entry_update_other id id' f m :
  id' <> id -> entry id' (update id f m) = entry id' m.
Proof. intros H. unfold entry. rewrite find_update_other by assumption. reflexivity. Qed.

Lemma entry_touch id id' m : entry id' (touch id m) = entry id' m.
Proof.
  unfold touch. destruct (find id m) eqn:E; [reflexivity|].
  destruct (String.eqb id id') eqn:E'.
  - apply String.eqb_eq in E'. subst id'. unfold entry.
    rewrite find_assign_same, E. reflexivity.
  - apply String.eqb_neq in E'. unfold entry.
    rewrite find_assign_other by congruence. reflexivity.
Qed.

(** *** The notebook *)

Lemma resolve_valid p nb :
  0 <= p < get_n_pages nb -> resolve p nb = Some (Z.to_nat p).
Proof.
  intros [H0 Hn]. unfold resolve.
  destruct (p <? 0) eqn:E; [apply Z.ltb_lt in E; lia|].
  apply Z.ltb_lt in Hn. rewrite Hn. reflexivity.
Qed.

Lemma set_current_page_valid p nb :
  0 <= p < get_n_pages nb ->
  set_current_page p nb = {| pages := pages nb; current_page := p |}.
Proof.
  intros H. unfold set_current_page. rewrite resolve_valid by assumption.
  rewrite Z2Nat.id by lia. reflexivity.
Qed.

Lemma set_current_page_same nb :
  0 <= current_page nb < get_n_pages nb ->
  set_current_page (current_page nb) nb = nb.
Proof.
  intros H. rewrite set_current_page_valid by assumption.
  destruct nb; reflexivity.
Qed.

(** Taking a page out and putting another widget in at the same position
    gives the position back and keeps the number of pages. *)
Lemma swap_page p content nb :
  0 <= p < get_n_pages nb ->
  snd (insert_page content p (remove_page p nb)) = p
  /\ get_n_pages (fst (insert_page content p (remove_page p nb))) = get_n_pages nb.
Proof.
  intros H. unfold remove_page. rewrite resolve_valid by assumption.
  unfold insert_page, get_n_pages in *. simpl.
  set (k := Z.to_nat p) in *.
  assert (Hk : (k < length (pages nb))%nat) by lia.
  assert (Hlen : length (firstn k (pages nb) ++ skipn (S k) (pages nb))
                 = (length (pages nb) - 1)%nat).
  { rewrite length_app, length_take, length_drop. lia. }
  rewrite Hlen.
  assert (Hpos : ((p <? 0) || (Z.of_nat (length (pages nb) - 1) <? p)) = false).
  { apply orb_false_iff. split; apply Z.ltb_ge; lia. }
  rewrite Hpos. split; [reflexivity|].
  rewrite length_app. simpl. rewrite length_take, length_drop.
  rewrite length_app, length_take, length_drop. lia.
Qed.

(** *** Setters *)

Lemma with_notebook_same w : with_notebook (notebook_ w) w = w.
Proof. destruct w; reflexivity. Qed.

Lemma with_tabs_same w : with_tabs (tab_widgets_ w) w = w.
Proof. destruct w; reflexivity. Qed.

(** *** [show_loading_indicator] and [load_tab_content_async] *)

(** On a registered, known tab that is neither loaded nor loading, with a
    valid page and a toolkit that does not throw, [show_loading_indicator]
    sets [loading], puts the indicator on the page and shows that page. *)
Lemma show_loading_indicator_starts env id p w info :
  find id (tab_widgets_ w) = Some info ->
  loaded info = false -> loading info = false ->
  tab_label id <> None ->
  0 <= p < get_n_pages (notebook_ w) ->
  labels env = Returns ->
  let w' := show_loading_indicator env id p w in
  tab_widgets_ w'
  = update id (set_widget_page LoadingIndicator p)
      (update id (set_loading true) (tab_widgets_ w))
  /\ current_page (notebook_ w') = p
  /\ get_n_pages (notebook_ w') = get_n_pages (notebook_ w)
  /\ tab_load_errors_ w' = tab_load_errors_ w
  /\ prevent_auto_loading_ w' = prevent_auto_loading_ w
  /\ initial_tab_ w' = initial_tab_ w
  /\ switch_guard w' = switch_guard w
  /\ now w' = now w
  /\ timers w' = timers w
  /\ effects w' = (effects w ++ [MakeLoadingIndicator])%list.
Proof.
  intros Hfind Hloaded Hloading Hknown Hpage Hok. cbv zeta.
  unfold show_loading_indicator.
  rewrite (touch_found _ _ _ Hfind). rewrite with_tabs_same.
  rewrite (entry_found _ _ _ Hfind), Hloaded, Hloading, Hfind.
  cbn [orb tab_widgets_ with_tabs notebook_ effect].
  assert (Hchk : ((p <? 0) || (get_n_pages (notebook_ w) <=? p)) = false).
  { apply orb_false_iff. split; [apply Z.ltb_ge | apply Z.leb_gt]; lia. }
  rewrite Hchk.
  destruct (tab_label id) as [lbl|]; [|congruence].
  rewrite Hok.
  pose proof (swap_page p LoadingIndicator (notebook_ w) Hpage) as [Hq Hn].
  destruct (insert_page LoadingIndicator p (remove_page p (notebook_ w)))
    as [nb q] eqn:Eins.
  cbn [fst snd] in Hq, Hn. subst q.
  cbn [tab_widgets_ with_tabs notebook_ effect with_notebook].
  destruct (current_page nb =? p) eqn:Ecur; cbn.
  - apply Z.eqb_eq in Ecur. repeat split; assumption || reflexivity.
  - rewrite set_current_page_valid by lia. simpl.
    repeat split; reflexivity || assumption.
Qed.

(** [load_tab_content_async] on a registered tab that is not loaded
    schedules one construction. *)
Lemma load_tab_content_async_schedules id p w info :
  find id (tab_widgets_ w) = Some info ->
  loaded info = false ->
  load_tab_content_async id p w
  = connect_once (CreateContent id p) (if String.eqb id "power" then 10 else 100) w.
Proof.
  intros Hfind Hloaded. unfold load_tab_content_async.
  rewrite (touch_found _ _ _ Hfind), with_tabs_same.
  rewrite (entry_found _ _ _ Hfind), Hloaded, Hfind.
  destruct (String.eqb id "power"); reflexivity.
Qed.

(** *** Counting requests and constructions *)

Lemma filter_request_load_timers id l :
  List.filter (fun t => is_request id t) l
  = List.filter (fun t => is_request id t) (List.filter is_load_timer l).
Proof.
  induction l as [|[due t] rest IH]; [reflexivity|].
  destruct t; cbn; rewrite ?IH; reflexivity.
Qed.

Lemma filter_construct_any id l :
  List.filter (fun e => is_construct id e) l
  = List.filter (fun e => is_construct id e) (List.filter is_any_construct l).
Proof.
  induction l as [|e rest IH]; [reflexivity|].
  destruct e; cbn; rewrite ?IH; reflexivity.
Qed.

Lemma cosmetic_refl w : cosmetic w w.
Proof. repeat split. Qed.

Lemma cosmetic_trans w1 w2 w3 : cosmetic w1 w2 -> cosmetic w2 w3 -> cosmetic w1 w3.
Proof.
  intros (A1 & A2 & A3 & A4 & A5 & A6 & A7) (B1 & B2 & B3 & B4 & B5 & B6 & B7).
  repeat split; congruence.
Qed.

(** A cosmetic change moves no slot, schedules no construction and calls
    no constructor. *)
Lemma cosmetic_counts w w' :
  cosmetic w w' ->
  forall id, slot_state id w' = slot_state id w
             /\ requests id w' = requests id w
             /\ constructions id w' = constructions id w.
Proof.
  intros (A1 & A2 & A3 & A4 & A5 & A6 & A7) id. split; [|split].
  - unfold slot_state. rewrite A1, A2. reflexivity.
  - unfold requests. rewrite (filter_request_load_timers id (timers w')), A6,
      <- filter_request_load_timers. reflexivity.
  - unfold constructions. rewrite (filter_construct_any id (effects w')), A7,
      <- filter_construct_any. reflexivity.
Qed.

(** *** The animations *)

Lemma exit_animation_frame d p w :
  let w' := exit_animation d p w in
  notebook_ w' = notebook_ w
  /\ now w' = now w
  /\ cosmetic w w'
  /\ exists ts es,
       timers w' = (timers w ++ ts)%list
       /\ effects w' = (effects w ++ es)%list
       /\ List.filter is_load_timer ts = []
       /\ List.filter is_any_construct es = [].
Proof.
  cbv zeta. unfold exit_animation.
  destruct ((0 <=? current_page (notebook_ w))
            && negb (current_page (notebook_ w) =? p));
    [|repeat split; exists [], []; rewrite !app_nil_r; repeat split].
  destruct (is_null (get_nth_page (current_page (notebook_ w)) (notebook_ w)));
    [repeat split; exists [], []; rewrite !app_nil_r; repeat split|].
  destruct (negb (String.eqb (tab_at_page (current_page (notebook_ w)) (tab_widgets_ w))
                    EmptyString)
            && loaded (entry (tab_at_page (current_page (notebook_ w)) (tab_widgets_ w))
                         (tab_widgets_ w)));
    [|repeat split; exists [], []; rewrite !app_nil_r; repeat split].
  unfold cosmetic, connect_once, effect, with_clock; cbn.
  repeat split.
  - rewrite List.filter_app. cbn. apply app_nil_r.
  - rewrite List.filter_app. cbn. apply app_nil_r.
  - eexists [_], [_]. repeat split.
Qed.

Lemma entrance_animation_cosmetic target msg w :
  cosmetic w (entrance_animation target msg w).
Proof.
  unfold cosmetic, entrance_animation, connect_once, effect, with_clock. cbn.
  repeat split.
  - rewrite List.filter_app. cbn. apply app_nil_r.
  - rewrite !List.filter_app. cbn. rewrite !app_nil_r. reflexivity.
Qed.

Lemma with_notebook_cosmetic nb w : cosmetic w (with_notebook nb w).
Proof. repeat split. Qed.

(** *** Selecting a tab *)

Lemma select_settled env id w : settled id w -> switch_to_tab env id w = w.
Proof.
  intros (info & Hfind & Hloaded & Hloading & Hcur & Hpage).
  unfold switch_to_tab. rewrite Hfind, Hloaded, Hloading. cbn [negb andb].
  unfold exit_animation. rewrite Hcur, Z.eqb_refl, andb_false_r.
  rewrite <- Hcur.
  rewrite set_current_page_same by (rewrite Hcur; assumption).
  apply with_notebook_same.
Qed.

Lemma selects_settled envs id w : settled id w -> selects envs id w = w.
Proof.
  intros H. induction envs as [|env rest IH]; [reflexivity|].
  cbn [selects]. rewrite (select_settled env id w H). exact IH.
Qed.

(** While a slot is loading, selecting it again moves no slot, schedules
    nothing and constructs nothing. *)
Lemma select_while_loading env id info w :
  find id (tab_widgets_ w) = Some info ->
  loaded info = false -> loading info = true ->
  cosmetic w (switch_to_tab env id w).
Proof.
  intros Hfind Hloaded Hloading.
  unfold switch_to_tab. rewrite Hfind, Hloaded, Hloading. cbn [negb andb].
  destruct (exit_animation_frame 200 (page_num info) w) as (_ & _ & Hc & _).
  eapply cosmetic_trans; [exact Hc | apply with_notebook_cosmetic].
Qed.

(** The pair of calls every selection path makes on a tab that is neither
    loaded nor loading: the slot starts loading, its page is shown and one
    construction is scheduled. *)
Lemma begin_load env id info w :
  find id (tab_widgets_ w) = Some info ->
  loaded info = false -> loading info = false ->
  tab_label id <> None ->
  0 <= page_num info < get_n_pages (notebook_ w) ->
  labels env = Returns ->
  let wb := show_loading_indicator env id (page_num info) w in
  let wc := load_tab_content_async id (page_num (entry id (tab_widgets_ wb))) wb in
  settled id wc
  /\ tab_load_errors_ wc = tab_load_errors_ w
  /\ prevent_auto_loading_ wc = prevent_auto_loading_ w
  /\ initial_tab_ wc = initial_tab_ w
  /\ timers wc
     = (timers w
          ++ [(now w + (if String.eqb id "power" then 10 else 100),
               CreateContent id (page_num info))])%list
  /\ effects wc = (effects w ++ [MakeLoadingIndicator])%list.
Proof.
  intros Hfind Hloaded Hloading Hknown Hpage Hok. cbv zeta.
  destruct (show_loading_indicator_starts env id (page_num info) w info
              Hfind Hloaded Hloading Hknown Hpage Hok)
    as (Stabs & Scur & Sn & Serr & Sprev & Sinit & _ & Snow & Stimers & Seff).
  set (wb := show_loading_indicator env id (page_num info) w) in *.
  assert (Hfb : find id (tab_widgets_ wb)
                = Some (set_widget_page LoadingIndicator (page_num info)
                          (set_loading true info))).
  { rewrite Stabs, find_update_same, entry_update_same.
    rewrite (entry_found _ _ _ Hfind). reflexivity. }
  rewrite (entry_found _ _ _ Hfb). cbn [page_num set_widget_page].
  rewrite (load_tab_content_async_schedules id (page_num info) wb _ Hfb)
    by (cbn; exact Hloaded).
  unfold connect_once, with_clock. cbn.
  split; [|repeat split].
  - eexists. split; [exact Hfb|]. cbn.
    repeat split; try assumption; try lia; rewrite Sn; apply Hpage.
  - exact Serr.
  - exact Sprev.
  - exact Sinit.
  - rewrite Stimers, Snow. reflexivity.
  - exact Seff.
Qed.

(** The first selection of a registered, known tab that is neither loaded
    nor loading. *)
Lemma first_select env id info w :
  find id (tab_widgets_ w) = Some info ->
  loaded info = false -> loading info = false ->
  tab_label id <> None ->
  0 <= page_num info < get_n_pages (notebook_ w) ->
  labels env = Returns ->
  let w1 := switch_to_tab env id w in
  settled id w1
  /\ tab_load_errors_ w1 = tab_load_errors_ w
  /\ (exists ts,
        timers w1
        = (timers w ++ ts
             ++ [(now w + (if String.eqb id "power" then 10 else 100),
                  CreateContent id (page_num info))])%list
        /\ List.filter is_load_timer ts = [])
  /\ List.filter is_any_construct (effects w1)
     = List.filter is_any_construct (effects w).
Proof.
  intros Hfind Hloaded Hloading Hknown Hpage Hok. cbv zeta.
  unfold switch_to_tab. rewrite Hfind, Hloaded, Hloading. cbn [negb andb].
  destruct (exit_animation_frame 200 (page_num info) w)
    as (Hnb & Hnow & Hc & ts & es & Hts & Hes & Hts0 & Hes0).
  destruct Hc as (Htabs & Herr & _).
  set (w0 := exit_animation 200 (page_num info) w) in *.
  set (wa := with_notebook (set_current_page (page_num info) (notebook_ w0)) w0).
  assert (Hfa : find id (tab_widgets_ wa) = Some info)
    by (unfold wa; cbn; rewrite Htabs; exact Hfind).
  assert (Hpa : 0 <= page_num info < get_n_pages (notebook_ wa)).
  { unfold wa. cbn. rewrite Hnb.
    rewrite set_current_page_valid by assumption. exact Hpage. }
  destruct (begin_load env id info wa Hfa Hloaded Hloading Hknown Hpa Hok)
    as (Bset & Berr & _ & _ & Btimers & Beff).
  split; [exact Bset|]. split; [|split].
  - rewrite Berr. unfold wa. cbn. exact Herr.
  - exists ts. split; [|exact Hts0].
    rewrite Btimers. unfold wa. cbn. rewrite Hts, Hnow.
    rewrite <- app_assoc. reflexivity.
  - rewrite Beff. unfold wa. cbn. rewrite Hes, !List.filter_app, Hes0.
    cbn. rewrite !app_nil_r. reflexivity.
Qed.

(** A slot that is Loading or Loaded has an entry in the map with one of
    the two flags set. *)
Lemma busy_slot_registered id w :
  slot_state id w = Loading \/ slot_state id w = Loaded ->
  exists info,
    find id (tab_widgets_ w) = Some info /\ loaded info || loading info = true.
Proof.
  unfold slot_state, entry. intros H.
  destruct (find id (tab_widgets_ w)) as [info|] eqn:Ef.
  - exists info. split; [reflexivity|].
    destruct (loaded info); [reflexivity|].
    destruct (loading info); [reflexivity|].
    destruct (tab_load_errors_ w !! id); destruct H; discriminate.
  - cbn in H. destruct (tab_load_errors_ w !! id); destruct H; discriminate.
Qed.

(** The guard at the head of [show_loading_indicator]: on a slot that is
    Loading or Loaded the function changes nothing. *)
Lemma show_loading_indicator_guard env id p w :
  slot_state id w = Loading \/ slot_state id w = Loaded ->
  show_loading_indicator env id p w = w.
Proof.
  intros H. destruct (busy_slot_registered id w H) as (info & Hfind & Hbusy).
  unfold show_loading_indicator.
  rewrite (touch_found _ _ _ Hfind), with_tabs_same.
  rewrite (entry_found _ _ _ Hfind), Hbusy. reflexivity.
Qed.

(** The guard at the head of [create_tab_content]: on a slot that is Loaded
    the function changes nothing and calls no constructor. *)
Lemma create_tab_content_guard env id p w :
  slot_state id w = Loaded ->
  create_tab_content env id p w = w.
Proof.
  intros H.
  destruct (busy_slot_registered id w (or_intror H)) as (info & Hfind & _).
  unfold slot_state in H. rewrite (entry_found _ _ _ Hfind) in H.
  assert (Hl : loaded info = true).
  { destruct (loaded info); [reflexivity|].
    destruct (loading info); [discriminate|].
    destruct (tab_load_errors_ w !! id); discriminate. }
  unfold create_tab_content.
  rewrite (touch_found _ _ _ Hfind), with_tabs_same.
  rewrite (entry_found _ _ _ Hfind), Hl. reflexivity.
Qed.

(** *** The startup policy is never changed *)

Lemma policy_with_notebook nb w : policy (with_notebook nb w) = policy w.
Proof. reflexivity. Qed.
Lemma policy_with_tabs m w : policy (with_tabs m w) = policy w.
Proof. reflexivity. Qed.
Lemma policy_with_errors e w : policy (with_errors e w) = policy w.
Proof. reflexivity. Qed.
Lemma policy_with_guard b w : policy (with_guard b w) = policy w.
Proof. reflexivity. Qed.
Lemma policy_with_clock t l w : policy (with_clock t l w) = policy w.
Proof. reflexivity. Qed.
Lemma policy_effect e w : policy (effect e w) = policy w.
Proof. reflexivity. Qed.
Lemma policy_connect_once t d w : policy (connect_once t d w) = policy w.
Proof. reflexivity. Qed.

Lemma policy_exit_animation d p w : policy (exit_animation d p w) = policy w.
Proof. unfold exit_animation. repeat break_match; reflexivity. Qed.

Lemma policy_entrance_animation t msg w : policy (entrance_animation t msg w) = policy w.
Proof. reflexivity. Qed.

Lemma policy_show_loading_indicator env id p w :
  policy (show_loading_indicator env id p w) = policy w.
Proof. unfold show_loading_indicator. cbv zeta. repeat break_match; reflexivity. Qed.

Lemma policy_load_tab_content_async id p w :
  policy (load_tab_content_async id p w) = policy w.
Proof. unfold load_tab_content_async. cbv zeta. repeat break_match; reflexivity. Qed.

Lemma policy_create_tab_content env id p w :
  policy (create_tab_content env id p w) = policy w.
Proof. unfold create_tab_content. cbv zeta. repeat break_match; reflexivity. Qed.

Create Rewrite HintDb policy.
#[local] Hint Rewrite policy_with_notebook policy_with_tabs policy_with_errors
  policy_with_guard policy_with_clock policy_effect policy_connect_once
  policy_exit_animation policy_entrance_animation policy_show_loading_indicator
  policy_load_tab_content_async policy_create_tab_content : policy.

Lemma policy_switch_to_tab env id w : policy (switch_to_tab env id w) = policy w.
Proof.
  unfold switch_to_tab. cbv zeta.
  repeat break_match; autorewrite with policy; reflexivity.
Qed.

Lemma policy_on_label_press env id button w :
  policy (fst (on_label_press env id button w)) = policy w.
Proof.
  unfold on_label_press. cbv zeta.
  repeat break_match; cbn [fst]; autorewrite with policy; reflexivity.
Qed.

Lemma policy_on_tab_switch env page w : policy (on_tab_switch env page w) = policy w.
Proof.
  unfold on_tab_switch. cbv zeta.
  repeat break_match; autorewrite with policy; reflexivity.
Qed.

Lemma policy_fire env t w : policy (fire env t w) = policy w.
Proof. destruct t; cbn [fire]; autorewrite with policy; reflexivity. Qed.

Lemma policy_step env ev w : policy (step env ev w) = policy w.
Proof.
  destruct ev; cbn [step].
  - apply policy_on_tab_switch.
  - apply policy_on_label_press.
  - apply policy_switch_to_tab.
  - destruct (earliest (timers w)) as [[[due t] others]|]; [|reflexivity].
    rewrite policy_fire. reflexivity.
  - reflexivity.
Qed.

Lemma policy_run evs : forall w, policy (run evs w) = policy w.
Proof.
  induction evs as [|[ev env] rest IH]; intros w; [reflexivity|].
  cbn [run]. rewrite IH. apply policy_step.
Qed.

Lemma policy_add_tab id w : policy (add_tab id w) = policy w.
Proof. unfold add_tab. destruct (append_page _ _). reflexivity. Qed.

Lemma policy_create_tabs order enabled : forall w,
  policy (create_tabs order enabled w) = policy w.
Proof.
  induction order as [|id rest IH]; intros w; [reflexivity|].
  cbn [create_tabs]. rewrite IH.
  repeat break_match; rewrite ?policy_add_tab; reflexivity.
Qed.

Lemma policy_new_window env initial_tab order enabled :
  policy (new_window env initial_tab order enabled)
  = (negb (String.eqb initial_tab EmptyString), initial_tab).
Proof.
  unfold new_window. cbv zeta.
  destruct (negb (String.eqb initial_tab EmptyString));
    rewrite ?policy_switch_to_tab, policy_create_tabs; reflexivity.
Qed.

(** *** Handlers touch one slot *)

Lemma touches_only_refl id w : touches_only id w w.
Proof.
  split; [intros; split; reflexivity|]. split; [reflexivity|].
  exists []. split; [symmetry; apply app_nil_r | intros tm id' []].
Qed.

Lemma touches_only_trans id w1 w2 w3 :
  touches_only id w1 w2 -> touches_only id w2 w3 -> touches_only id w1 w3.
Proof.
  intros (A1 & A2 & ts1 & A3 & A4) (B1 & B2 & ts2 & B3 & B4).
  split; [|split].
  - intros id' Hne. destruct (A1 id' Hne) as [Ha Hb].
    destruct (B1 id' Hne) as [Hc Hd]. split; congruence.
  - congruence.
  - exists (ts1 ++ ts2)%list. split.
    + rewrite B3, A3, app_assoc. reflexivity.
    + intros tm id' Hin. apply in_app_or in Hin. destruct Hin; eauto.
Qed.

(** A change of the entry of [id], of the notebook, of the guard or of the
    effects, and nothing else. *)
Lemma touches_only_same_timers id w w' :
  (forall id', id' <> id ->
     entry id' (tab_widgets_ w') = entry id' (tab_widgets_ w)
     /\ tab_load_errors_ w' !! id' = tab_load_errors_ w !! id') ->
  policy w' = policy w ->
  timers w' = timers w ->
  touches_only id w w'.
Proof.
  intros H1 H2 H3. split; [exact H1|]. split; [exact H2|].
  exists []. split; [rewrite app_nil_r; exact H3 | intros tm id' []].
Qed.

Lemma touches_only_show_loading_indicator env id p w :
  touches_only id w (show_loading_indicator env id p w).
Proof.
  apply touches_only_same_timers.
  - intros id' Hne. unfold show_loading_indicator. cbv zeta.
    repeat break_match; cbn [tab_widgets_ tab_load_errors_ with_tabs with_notebook effect];
      rewrite ?entry_update_other by assumption;
      cbn [tab_widgets_ tab_load_errors_ with_tabs with_notebook effect];
      rewrite ?entry_update_other by assumption;
      cbn [tab_widgets_ tab_load_errors_ with_tabs with_notebook effect];
      rewrite ?entry_touch; split; reflexivity.
  - apply policy_show_loading_indicator.
  - unfold show_loading_indicator. cbv zeta. repeat break_match; reflexivity.
Qed.

Lemma touches_only_load_tab_content_async id p w :
  touches_only id w (load_tab_content_async id p w).
Proof.
  split; [|split].
  - intros id' Hne. unfold load_tab_content_async. cbv zeta.
    repeat break_match; cbn; rewrite ?entry_touch; split; reflexivity.
  - apply policy_load_tab_content_async.
  - unfold load_tab_content_async. cbv zeta.
    repeat break_match; cbn;
      try (exists []; split; [symmetry; apply app_nil_r | intros tm id' []]);
      (eexists [_]; split; [reflexivity|];
       intros tm id' [<-|[]]; cbn; congruence).
Qed.

Lemma touches_only_create_tab_content env id p w :
  touches_only id w (create_tab_content env id p w).
Proof.
  split; [|split].
  - intros id' Hne. unfold create_tab_content. cbv zeta.
    repeat break_match;
      cbn [tab_widgets_ tab_load_errors_ with_tabs with_notebook with_errors effect
             connect_once with_clock];
      rewrite ?entry_update_other by assumption;
      cbn [tab_widgets_ tab_load_errors_ with_tabs with_notebook with_errors effect
             connect_once with_clock];
      rewrite ?entry_touch, ?lookup_insert_ne by congruence; split; reflexivity.
  - apply policy_create_tab_content.
  - unfold create_tab_content. cbv zeta.
    repeat break_match; cbn;
      try (exists []; split; [symmetry; apply app_nil_r | intros tm id' []]);
      (eexists [_]; split; [reflexivity|];
       intros tm id' [<-|[]]; cbn; congruence).
Qed.

Lemma touches_only_exit_animation id d p w :
  touches_only id w (exit_animation d p w).
Proof.
  destruct (exit_animation_frame d p w)
    as (_ & _ & (Htabs & Herr & _) & ts & es & Hts & _ & Hts0 & _).
  split; [|split].
  - intros id' _. rewrite Htabs, Herr. split; reflexivity.
  - apply policy_exit_animation.
  - exists ts. split; [exact Hts|].
    intros tm id' Hin Htab.
    assert (Hl : In tm (List.filter is_load_timer ts)).
    { apply filter_In. split; [exact Hin|].
      unfold is_load_timer. destruct (snd tm); cbn in Htab |- *; congruence. }
    rewrite Hts0 in Hl. destruct Hl.
Qed.

(** *** Selection under the startup policy *)

(** With the policy on, [on_tab_switch] for a page whose tab is not the
    initial one stops after the exit animation. *)
Lemma on_tab_switch_stops env page w :
  prevent_auto_loading_ w = true ->
  tab_at_page page (tab_widgets_ w) <> initial_tab_ w ->
  on_tab_switch env page w = w
  \/ on_tab_switch env page w = exit_animation 250 page w.
Proof.
  intros Hprev Hother. unfold on_tab_switch.
  destruct (switch_guard w); [left; reflexivity|]. right. cbv zeta.
  destruct (exit_animation_frame 250 page w) as (_ & _ & Hc & _).
  destruct Hc as (Htabs & _ & Hp & Hi & _).
  rewrite Hp, Hprev, Htabs, Hi.
  apply String.eqb_neq in Hother. rewrite Hother. reflexivity.
Qed.

Lemma on_tab_switch_suppressed env page w :
  prevent_auto_loading_ w = true ->
  tab_at_page page (tab_widgets_ w) <> initial_tab_ w ->
  cosmetic w (on_tab_switch env page w).
Proof.
  intros Hprev Hother.
  destruct (on_tab_switch_stops env page w Hprev Hother) as [-> | ->].
  - apply cosmetic_refl.
  - apply (exit_animation_frame 250 page w).
Qed.

Lemma touches_only_entrance_animation id target msg w :
  touches_only id w (entrance_animation target msg w).
Proof.
  split; [intros; split; reflexivity|]. split; [reflexivity|].
  eexists [_]. split; [reflexivity|].
  intros tm id' [<-|[]]; cbn; congruence.
Qed.

Lemma touches_only_with_notebook id nb w : touches_only id w (with_notebook nb w).
Proof. apply touches_only_same_timers; [intros; split|..]; reflexivity. Qed.

Lemma touches_only_switch_to_tab env id w :
  touches_only id w (switch_to_tab env id w).
Proof.
  unfold switch_to_tab. cbv zeta.
  destruct (find id (tab_widgets_ w)) as [it|]; [|apply touches_only_refl].
  eapply touches_only_trans; [apply (touches_only_exit_animation id 200 (page_num it))|].
  eapply touches_only_trans; [apply touches_only_with_notebook|].
  repeat break_match; try apply touches_only_refl.
  - eapply touches_only_trans; [apply touches_only_show_loading_indicator|].
    apply touches_only_load_tab_content_async.
  - apply touches_only_entrance_animation.
Qed.

(** A timer callback touches the slot of the tab it is for. *)
Lemma touches_only_fire env tm id w :
  (forall id', timer_tab tm = Some id' -> id' = id) ->
  touches_only id w (fire env tm w).
Proof.
  intros Hfor. destruct tm as [id0 p|id0 p| | |]; cbn [fire].
  - rewrite (Hfor id0 eq_refl).
    eapply touches_only_trans; [apply touches_only_show_loading_indicator|].
    apply touches_only_load_tab_content_async.
  - rewrite (Hfor id0 eq_refl). apply touches_only_create_tab_content.
  - apply touches_only_same_timers; [intros; split|..]; reflexivity.
  - apply touches_only_same_timers; [intros; split|..]; reflexivity.
  - apply touches_only_same_timers; [intros; split|..]; reflexivity.
Qed.

Lemma touches_only_slot id w w' :
  touches_only id w w' ->
  forall id', id' <> id -> slot_state id' w' = slot_state id' w.
Proof.
  intros (H & _) id' Hne. destruct (H id' Hne) as [He Hr].
  unfold slot_state. rewrite He, Hr. reflexivity.
Qed.

Lemma waiting_for_touches t w w' :
  waiting_for t w -> touches_only t w w' -> waiting_for t w'.
Proof.
  intros [Hp Ht] (_ & Hp' & ts & Hts & Hfor). split; [congruence|].
  intros tm id Hin Htab. rewrite Hts in Hin. apply in_app_or in Hin.
  destruct Hin; eauto.
Qed.

Lemma earliest_in l : forall x rest,
  earliest l = Some (x, rest) ->
  In x l /\ forall y, In y rest -> In y l.
Proof.
  induction l as [|t l IH]; intros x rest H; [discriminate|].
  cbn [earliest] in H.
  destruct (earliest l) as [[t' others]|] eqn:E.
  - destruct (IH t' others eq_refl) as [Hin Hsub].
    destruct (fst t' <? fst t); injection H as <- <-.
    + split; [right; exact Hin|].
      intros y [<-|Hy]; [left; reflexivity | right; auto].
    + split; [left; reflexivity | intros y Hy; right; exact Hy].
  - injection H as <- <-. split; [left; reflexivity | intros y []].
Qed.

(** One event of a passive run keeps [waiting_for] and every other slot. *)
Lemma passive_step t env ev w :
  waiting_for t w ->
  match ev with
  | SwitchPage page => tab_at_page page (tab_widgets_ w) <> t
  | Tick | Elapse _ => True
  | LabelPress _ _ | SwitchTo _ => False
  end ->
  waiting_for t (step env ev w)
  /\ forall id, id <> t -> slot_state id (step env ev w) = slot_state id w.
Proof.
  intros Hw Hev.
  assert (Hgen : forall w', touches_only t w w' ->
            waiting_for t w' /\ forall id, id <> t -> slot_state id w' = slot_state id w).
  { intros w' Ht. split; [eapply waiting_for_touches; eauto|].
    apply (touches_only_slot t w w' Ht). }
  destruct ev as [page|id button|id| |dt]; cbn [step]; try contradiction.
  - apply Hgen. destruct Hw as [Hp _]. unfold policy in Hp.
    injection Hp as Hprev Hinit.
    destruct (on_tab_switch_stops env page w Hprev) as [-> | ->];
      [rewrite Hinit; exact Hev | apply touches_only_refl
      | apply touches_only_exit_animation].
  - destruct (earliest (timers w)) as [[[due tm] others]|] eqn:E;
      [|apply Hgen, touches_only_refl].
    destruct (earliest_in _ _ _ E) as [Hin Hsub].
    destruct Hw as [Hp Ht].
    set (w1 := with_clock (Z.max (now w) due) others w).
    assert (Hw1 : waiting_for t w1).
    { split; [exact Hp|]. intros tm' id Hin'. apply Ht. apply Hsub. exact Hin'. }
    assert (Hfire : touches_only t w1 (fire env tm w1)).
    { apply touches_only_fire. intros id' Htab. exact (Ht (due, tm) id' Hin Htab). }
    split; [eapply waiting_for_touches; eauto|].
    intros id Hne. rewrite (touches_only_slot t w1 _ Hfire id Hne). reflexivity.
  - apply Hgen. apply touches_only_same_timers; [intros; split|..]; reflexivity.
Qed.

(** Along a passive run every slot other than the initial tab's keeps the
    state it had. *)
Lemma passive_run t evs : forall w,
  waiting_for t w -> passive t evs w ->
  forall id, id <> t -> slot_state id (run evs w) = slot_state id w.
Proof.
  induction evs as [|[ev env] rest IH]; intros w Hw Hpass id Hne; [reflexivity|].
  cbn [run]. destruct Hpass as [Hev Hrest].
  destruct (passive_step t env ev w Hw Hev) as [Hw' Hslot].
  rewrite (IH _ Hw' Hrest id Hne). apply Hslot. exact Hne.
Qed.

(** *** The window at startup *)

Lemma entry_assign id id' v m :
  entry id' (assign id v m) = if String.eqb id id' then v else entry id' m.
Proof.
  unfold entry. destruct (String.eqb id id') eqn:E.
  - apply String.eqb_eq in E. subst id'. rewrite find_assign_same. reflexivity.
  - apply String.eqb_neq in E. rewrite find_assign_other by congruence. reflexivity.
Qed.

Lemma fresh_add_tab id w : fresh w -> fresh (add_tab id w).
Proof.
  intros (Hflags & Herr & Htim). unfold add_tab.
  destruct (append_page PlaceholderBox (notebook_ w)) as [nb page].
  split; [|split; assumption].
  intros id'. cbn. rewrite entry_assign.
  destruct (String.eqb id id'); [split; reflexivity | apply Hflags].
Qed.

Lemma fresh_create_tabs order enabled : forall w,
  fresh w -> fresh (create_tabs order enabled w).
Proof.
  induction order as [|id rest IH]; intros w Hw; [exact Hw|].
  cbn [create_tabs]. apply IH.
  repeat break_match; try exact Hw. apply fresh_add_tab. exact Hw.
Qed.

Lemma fresh_slot w id : fresh w -> slot_state id w = Placeholder.
Proof.
  intros (Hflags & Herr & _). unfold slot_state.
  destruct (Hflags id) as [-> ->]. rewrite Herr, lookup_empty. reflexivity.
Qed.

(** At startup every slot other than the initial tab's is Placeholder, and
    with an initial tab the window is [waiting_for] it. *)
Lemma new_window_startup env initial_tab order enabled :
  (forall id, id <> initial_tab ->
     slot_state id (new_window env initial_tab order enabled) = Placeholder)
  /\ (initial_tab <> EmptyString ->
      waiting_for initial_tab (new_window env initial_tab order enabled)).
Proof.
  pose proof (policy_new_window env initial_tab order enabled) as Hpol.
  unfold new_window in *. cbv zeta in *.
  set (w0 := {| notebook_ := {| pages := []; current_page := -1 |};
                initial_tab_ := initial_tab;
                prevent_auto_loading_ := negb (String.eqb initial_tab EmptyString);
                tab_widgets_ := []; tab_load_errors_ := ∅; switch_guard := false;
                now := 0; timers := []; effects := [] |}) in *.
  assert (Hfresh0 : fresh w0).
  { split; [intros id; split; reflexivity | split; reflexivity]. }
  set (en := fun id => (negb (String.eqb initial_tab EmptyString)
                        && String.eqb id initial_tab) || enabled id) in *.
  pose proof (fresh_create_tabs order en w0 Hfresh0) as Hfresh.
  set (w1 := create_tabs order en w0) in *.
  pose proof (touches_only_switch_to_tab env initial_tab w1) as Htouch.
  split.
  - intros id Hne.
    destruct (negb (String.eqb initial_tab EmptyString)).
    + rewrite (touches_only_slot _ _ _ Htouch id Hne). apply fresh_slot, Hfresh.
    + apply fresh_slot, Hfresh.
  - intros Hchosen. apply String.eqb_neq in Hchosen.
    rewrite Hchosen in *. cbn [negb] in *.
    split; [exact Hpol|].
    destruct Htouch as (_ & _ & ts & Hts & Hfor).
    destruct Hfresh as (_ & _ & Htim). rewrite Hts, Htim. cbn [app].
    intros tm id Hin. apply Hfor. exact Hin.
Qed.

(** A left click on the label of a registered, known tab that is neither
    loaded nor loading starts its load, whatever the policy. *)
Lemma label_press_starts env id info w :
  find id (tab_widgets_ w) = Some info ->
  loaded info = false -> loading info = false ->
  tab_label id <> None ->
  0 <= page_num info < get_n_pages (notebook_ w) ->
  labels env = Returns ->
  let w' := fst (on_label_press env id 1 w) in
  slot_state id w' = Loading
  /\ requests id w' = S (requests id w)
  /\ constructions id w' = constructions id w.
Proof.
  intros Hfind Hloaded Hloading Hknown Hpage Hok. cbv zeta.
  unfold on_label_press. rewrite Z.eqb_refl, Hfind, Hloaded, Hloading.
  cbn [negb andb fst].
  set (wa := with_notebook (set_current_page (page_num info) (notebook_ w)) w).
  assert (Hfa : find id (tab_widgets_ wa) = Some info) by exact Hfind.
  assert (Hpa : 0 <= page_num info < get_n_pages (notebook_ wa)).
  { unfold wa. cbn. rewrite set_current_page_valid by assumption. exact Hpage. }
  destruct (begin_load env id info wa Hfa Hloaded Hloading Hknown Hpa Hok)
    as (Bset & _ & _ & _ & Btimers & Beff).
  split; [|split].
  - destruct Bset as (i1 & Hf1 & Hl1 & Hg1 & _).
    unfold slot_state. rewrite (entry_found _ _ _ Hf1), Hl1, Hg1. reflexivity.
  - unfold requests. rewrite Btimers, List.filter_app, length_app. cbn.
    rewrite String.eqb_refl. cbn. lia.
  - unfold constructions. rewrite Beff, List.filter_app, length_app. cbn. lia.
Qed.

(** C3 (the code at the failing input).  After the click described by
    [click_on_wifi] the wifi slot goes through these states; the last step,
    from Failed to Loaded, is made by the second of the two scheduled
    constructions and is not an edge of the lifecycle. *)
Theorem stale_request_skips_loading :
  map (slot_state "wifi") (states click_on_wifi plain_window)
  = [Placeholder; Placeholder; Loading; Loading; Loading; Failed; Loaded]
  /\ requests "wifi" (run (firstn 3 click_on_wifi) plain_window) = 2%nat
  /\ allowed_edge Failed Loaded = false.
Proof. vm_compute. repeat split; reflexivity. Qed.

End MainWindowProps.

(* ===================================================================== *)
(** ** Further properties of the WiFi manager and its widgets *)
(* ===================================================================== *)

Module WifiExtra.
Import Wifi WifiProps.

Local Arguments String.append !_ _ / : simpl nomatch.

(** *** Texts *)

Lemma str_app_nil_r (s : string) : s ++ EmptyString = s.
Proof. induction s as [|c s IH]; simpl; congruence. Qed.

Lemma str_app_assoc (a b c : string) : (a ++ b) ++ c = a ++ (b ++ c).
Proof. induction a as [|x a IH]; simpl; congruence. Qed.

Lemma occurrences_app c (a b : string) :
  occurrences c (a ++ b) = (occurrences c a + occurrences c b)%nat.
Proof. induction a as [|x a IH]; simpl; [reflexivity | rewrite IH; lia]. Qed.

Lemma split_from_not_nil s d : forall token, split_from s d token <> [].
Proof.
  induction s as [|c s IH]; intros token; cbn; [discriminate|].
  destruct (Ascii.eqb c d); [discriminate | apply IH].
Qed.

Lemma join_cons d t rest :
  rest <> [] -> join d (t :: rest) = t ++ String d (join d rest).
Proof. destruct rest; [congruence | reflexivity]. Qed.

Lemma split_from_join s d : forall token,
  join d (split_from s d token) = token ++ s.
Proof.
  induction s as [|c s IH]; intros token; cbn [split_from].
  - cbn [join]. symmetry. apply str_app_nil_r.
  - destruct (Ascii.eqb c d) eqn:E.
    + apply Ascii.eqb_eq in E. subst c.
      rewrite join_cons by apply split_from_not_nil.
      rewrite IH. reflexivity.
    + rewrite IH, str_app_assoc. reflexivity.
Qed.

Lemma split_from_length s d : forall token,
  length (split_from s d token) = S (occurrences d s).
Proof.
  induction s as [|c s IH]; intros token; cbn [split_from occurrences];
    [reflexivity|].
  destruct (Ascii.eqb c d); cbn [length]; rewrite IH; reflexivity.
Qed.

Lemma split_from_clean s d : forall token,
  occurrences d token = 0%nat ->
  Forall (fun t => occurrences d t = 0%nat) (split_from s d token).
Proof.
  induction s as [|c s IH]; intros token Htoken; cbn [split_from].
  - constructor; [exact Htoken | constructor].
  - destruct (Ascii.eqb c d) eqn:E.
    + constructor; [exact Htoken | apply IH; reflexivity].
    + apply IH. rewrite occurrences_app, Htoken. cbn. rewrite E. reflexivity.
Qed.

Lemma split_from_clean_prefix t d : forall s token,
  occurrences d t = 0%nat ->
  split_from (t ++ s) d token = split_from s d (token ++ t).
Proof.
  induction t as [|c t IH]; intros s token Ht; cbn [append split_from].
  - rewrite str_app_nil_r. reflexivity.
  - cbn [occurrences] in Ht. destruct (Ascii.eqb c d) eqn:E; [discriminate|].
    rewrite IH by exact Ht. rewrite str_app_assoc. reflexivity.
Qed.

(** X1.  [split] loses nothing and finds every delimiter: the tokens
    joined with the delimiter are the input, a text with [k] delimiters
    gives [k + 1] tokens, and no token holds the delimiter. *)
Theorem split_join s d :
  join d (split s d) = s
  /\ length (split s d) = S (occurrences d s)
  /\ Forall (fun t => occurrences d t = 0%nat) (split s d).
Proof.
  unfold split. split; [|split].
  - apply (split_from_join s d EmptyString).
  - apply split_from_length.
  - apply split_from_clean. reflexivity.
Qed.

(** X2.  The other way round: tokens without the delimiter, at least one
    of them, come back from [split] after [join]. *)
Theorem join_split d tokens :
  tokens <> [] ->
  Forall (fun t => occurrences d t = 0%nat) tokens ->
  split (join d tokens) d = tokens.
Proof.
  unfold split. intros Hne Hclean.
  induction tokens as [|t rest IH]; [congruence|].
  inversion Hclean as [|? ? Ht Hrest]; subst.
  destruct rest as [|t' rest'].
  - cbn [join]. rewrite <- (str_app_nil_r t) at 1.
    rewrite split_from_clean_prefix by exact Ht. reflexivity.
  - rewrite join_cons by discriminate.
    rewrite split_from_clean_prefix by exact Ht.
    cbn [split_from]. rewrite Ascii.eqb_refl. cbn [append].
    rewrite IH; [reflexivity | discriminate | exact Hrest].
Qed.

Lemma join_split_witness :
  ["*"; "Home"; "80"; "WPA2"] <> []
  /\ split (join ":"%char ["*"; "Home"; "80"; "WPA2"]) ":"%char
     = ["*"; "Home"; "80"; "WPA2"].
Proof.
  split; [discriminate|].
  apply (join_split ":"%char ["*"; "Home"; "80"; "WPA2"]); [discriminate|].
  repeat constructor.
Defined.

(** *** Lines *)

Lemma lines_from_clean_prefix t : forall s line,
  occurrences newline t = 0%nat ->
  lines_from (t ++ s) line = lines_from s (line ++ t).
Proof.
  induction t as [|c t IH]; intros s line Ht; simpl.
  - rewrite str_app_nil_r. reflexivity.
  - simpl in Ht. destruct (Ascii.eqb c newline) eqn:E; [discriminate|].
    rewrite IH by exact Ht. rewrite str_app_assoc. reflexivity.
Qed.

Lemma lines_from_unlines lines : forall rest,
  Forall (fun l => occurrences newline l = 0%nat) lines ->
  lines_from (unlines lines ++ rest) EmptyString
  = (lines ++ lines_from rest EmptyString)%list.
Proof.
  induction lines as [|l lines IH]; intros rest Hclean; [reflexivity|].
  inversion Hclean as [|? ? Hl Hrest]; subst.
  cbn [unlines]. rewrite str_app_assoc.
  rewrite lines_from_clean_prefix by exact Hl.
  simpl. rewrite ?Ascii.eqb_refl. rewrite IH by exact Hrest. reflexivity.
Qed.

Lemma lines_from_decompose result : forall line,
  unlines (lines_from result line) ++ unterminated_from result line
  = line ++ result.
Proof.
  induction result as [|c result IH]; intros line; simpl.
  - rewrite str_app_nil_r. reflexivity.
  - destruct (Ascii.eqb c newline) eqn:E.
    + apply Ascii.eqb_eq in E. subst c. cbn [unlines].
      rewrite str_app_assoc. simpl. rewrite IH. reflexivity.
    + rewrite IH, str_app_assoc. reflexivity.
Qed.

Lemma lines_from_clean result : forall line,
  occurrences newline line = 0%nat ->
  Forall (fun l => occurrences newline l = 0%nat) (lines_from result line)
  /\ occurrences newline (unterminated_from result line) = 0%nat.
Proof.
  induction result as [|c result IH]; intros line Hline; simpl.
  - split; [constructor | exact Hline].
  - destruct (Ascii.eqb c newline) eqn:E.
    + destruct (IH EmptyString eq_refl) as [Hl Hu].
      split; [constructor; assumption | exact Hu].
    + apply IH. rewrite occurrences_app, Hline. simpl. rewrite E. reflexivity.
Qed.

Lemma lines_from_length result : forall line,
  length (lines_from result line) = occurrences newline result.
Proof.
  induction result as [|c result IH]; intros line; simpl; [reflexivity|].
  destruct (Ascii.eqb c newline); simpl; rewrite IH; reflexivity.
Qed.

Lemma complete_lines_clean t :
  occurrences newline t = 0%nat -> complete_lines t = [].
Proof.
  intros Ht. unfold complete_lines.
  rewrite <- (str_app_nil_r t). rewrite lines_from_clean_prefix by exact Ht.
  reflexivity.
Qed.

Lemma complete_lines_app a b :
  complete_lines (a ++ b)
  = (complete_lines a ++ complete_lines (unterminated a ++ b))%list.
Proof.
  pose proof (lines_from_decompose a EmptyString) as Ha.
  destruct (lines_from_clean a EmptyString eq_refl) as [Hclean _].
  cbn [append] in Ha. fold (complete_lines a) (unterminated a) in Ha, Hclean.
  rewrite <- Ha at 1. rewrite str_app_assoc.
  unfold complete_lines at 1. rewrite lines_from_unlines by exact Hclean.
  reflexivity.
Qed.

(** What the parsing loop makes of a text in two parts. *)
Lemma parse_output_text_app a b :
  (unterminated a = EmptyString ->
   parse_output (a ++ b) = (parse_output a ++ parse_output b)%list)
  /\ (occurrences newline b = 0%nat -> parse_output (a ++ b) = parse_output a).
Proof.
  unfold parse_output. split.
  - intros Hend. rewrite complete_lines_app, Hend. simpl.
    apply omap_app.
  - intros Hb. rewrite complete_lines_app.
    rewrite (complete_lines_clean (unterminated a ++ b)).
    + rewrite app_nil_r. reflexivity.
    + rewrite occurrences_app, Hb. unfold unterminated.
      rewrite (proj2 (lines_from_clean a EmptyString eq_refl)). reflexivity.
Qed.

(** *** The read loop *)

Lemma fgets_after n : forall s, fgets n s ++ after_fgets n s = s.
Proof.
  induction n as [|n IH]; intros [|c s]; cbn; try reflexivity.
  destruct (Ascii.eqb c newline); cbn; [reflexivity | rewrite IH; reflexivity].
Qed.

Lemma after_fgets_length n : forall c s,
  (String.length (after_fgets (S n) (String c s)) <= String.length s)%nat.
Proof.
  induction n as [|n IH]; intros c s; cbn.
  - destruct (Ascii.eqb c newline); reflexivity.
  - destruct (Ascii.eqb c newline); [reflexivity|].
    destruct s as [|c' s']; [cbn; lia|].
    specialize (IH c' s'). cbn in IH |- *.
    destruct (Ascii.eqb c' newline); cbn in *; lia.
Qed.

Lemma read_rounds_enough n : forall r r' s,
  (String.length s <= r)%nat -> (String.length s <= r')%nat ->
  read_rounds r (S n) s = read_rounds r' (S n) s.
Proof.
  induction r as [|r IH]; intros r' s Hr Hr'.
  - destruct s; [|cbn in Hr; lia]. destruct r'; reflexivity.
  - destruct r' as [|r'].
    + destruct s; [reflexivity | cbn in Hr'; lia].
    + destruct s as [|c s]; [reflexivity|].
      cbn [read_rounds]. f_equal.
      pose proof (after_fgets_length n c s).
      cbn [String.length] in Hr, Hr'. apply IH; lia.
Qed.

Lemma read_result_unfold c s :
  read_result (String c s)
  = c_str (fgets 4095 (String c s)) ++ read_result (after_fgets 4095 (String c s)).
Proof.
  unfold read_result. cbn [String.length read_rounds]. f_equal.
  pose proof (after_fgets_length 4094 c s).
  apply read_rounds_enough; lia.
Qed.

Lemma c_str_clean s : occurrences NUL s = 0%nat -> c_str s = s.
Proof.
  induction s as [|c s IH]; cbn; [reflexivity|].
  destruct (Ascii.eqb c NUL); [discriminate|].
  intros H. rewrite (IH H). reflexivity.
Qed.

Lemma c_str_newlines s :
  (occurrences newline (c_str s) <= occurrences newline s)%nat.
Proof.
  induction s as [|c s IH]; cbn; [lia|].
  destruct (Ascii.eqb c NUL); cbn; lia.
Qed.

Lemma c_str_app a b :
  c_str (a ++ b)
  = c_str a ++ (if Nat.eqb (occurrences NUL a) 0 then c_str b else EmptyString).
Proof.
  induction a as [|c a IH]; cbn; [reflexivity|].
  destruct (Ascii.eqb c NUL); cbn; [reflexivity | rewrite IH; reflexivity].
Qed.

(** Properties of [read_result] are shown for every stream no longer than
    the number of rounds. *)
Lemma read_rounds_clean n : forall r s,
  (String.length s <= r)%nat ->
  occurrences NUL s = 0%nat ->
  read_rounds r (S n) s = s.
Proof.
  induction r as [|r IH]; intros s Hr Hs.
  - destruct s; [reflexivity | cbn in Hr; lia].
  - destruct s as [|c s]; [reflexivity|].
    cbn [read_rounds].
    pose proof (after_fgets_length n c s) as Hlen.
    pose proof (fgets_after (S n) (String c s)) as Hsplit.
    rewrite <- Hsplit in Hs. rewrite occurrences_app in Hs.
    rewrite c_str_clean by lia.
    rewrite IH; [exact Hsplit | cbn [String.length] in Hr; lia | lia].
Qed.

Lemma read_rounds_newlines n : forall r s,
  (occurrences newline (read_rounds r (S n) s) <= occurrences newline s)%nat.
Proof.
  induction r as [|r IH]; intros s; [cbn; lia|].
  destruct s as [|c s]; [cbn; lia|].
  cbn [read_rounds].
  assert (Hsplit : occurrences newline (String c s)
                   = (occurrences newline (fgets (S n) (String c s))
                      + occurrences newline (after_fgets (S n) (String c s)))%nat)
    by (rewrite <- occurrences_app, fgets_after; reflexivity).
  rewrite occurrences_app.
  pose proof (c_str_newlines (fgets (S n) (String c s))).
  pose proof (IH (after_fgets (S n) (String c s))). lia.
Qed.

(** A text that is empty or ends with a newline. *)
Lemma unterminated_from_nonempty t : forall line,
  line <> EmptyString -> unterminated_from t line = EmptyString ->
  t <> EmptyString /\ forall line', unterminated_from t line' = EmptyString.
Proof.
  induction t as [|z t IH]; intros line Hne H; cbn in H.
  - contradiction.
  - split; [discriminate|]. intros line'. cbn.
    destruct (Ascii.eqb z newline); [exact H|].
    apply (IH (line ++ String z EmptyString)); [|exact H].
    destruct line; discriminate.
Qed.

Lemma unterminated_from_cons c s line :
  unterminated_from s (line ++ String c EmptyString) = EmptyString ->
  s <> EmptyString /\ unterminated s = EmptyString.
Proof.
  intros H.
  destruct (unterminated_from_nonempty s (line ++ String c EmptyString))
    as [Hne Hall]; [destruct line; discriminate | exact H |].
  split; [exact Hne | apply Hall].
Qed.

Lemma fgets_app n : forall a b,
  a <> EmptyString -> unterminated a = EmptyString ->
  fgets n (a ++ b) = fgets n a
  /\ after_fgets n (a ++ b) = after_fgets n a ++ b
  /\ unterminated (after_fgets n a) = EmptyString.
Proof.
  induction n as [|n IH]; intros a b Hne Hend.
  - destruct a as [|c a]; [congruence|]. cbn. repeat split. exact Hend.
  - destruct a as [|c a]; [congruence|]. cbn.
    destruct (Ascii.eqb c newline) eqn:Ec.
    + repeat split. unfold unterminated in Hend. cbn in Hend.
      rewrite Ec in Hend. exact Hend.
    + unfold unterminated in Hend. cbn in Hend. rewrite Ec in Hend.
      destruct (unterminated_from_cons c a EmptyString Hend) as [Hne' Hend'].
      destruct (IH a b Hne' Hend') as (H1 & H2 & H3).
      rewrite H1, H2. repeat split. exact H3.
Qed.

Lemma read_rounds_app n : forall ra a r rb b,
  (String.length a <= ra)%nat ->
  (String.length (a ++ b) <= r)%nat -> (String.length b <= rb)%nat ->
  unterminated a = EmptyString ->
  read_rounds r (S n) (a ++ b)
  = read_rounds ra (S n) a ++ read_rounds rb (S n) b.
Proof.
  induction ra as [|ra IH]; intros a r rb b Ha Hr Hrb Hend.
  - destruct a; [|cbn in Ha; lia]. cbn. apply read_rounds_enough; assumption.
  - destruct a as [|c a]; [cbn; apply read_rounds_enough; assumption|].
    destruct r as [|r]; [cbn in Hr; lia|].
    destruct (fgets_app (S n) (String c a) b) as (H1 & H2 & H3);
      [discriminate | exact Hend |].
    change (String c a ++ b) with (String c (a ++ b)) in *.
    cbn [read_rounds]. rewrite H1, H2, str_app_assoc. f_equal.
    pose proof (after_fgets_length n c a).
    pose proof (after_fgets_length n c (a ++ b)) as Hl. rewrite H2 in Hl.
    cbn [String.length] in Ha, Hr.
    apply IH; try lia. exact H3.
Qed.

Lemma str_length_app (a b : string) :
  String.length (a ++ b) = (String.length a + String.length b)%nat.
Proof. induction a as [|c a IH]; cbn; [reflexivity | rewrite IH; reflexivity]. Qed.

Lemma read_result_app a b :
  unterminated a = EmptyString ->
  read_result (a ++ b) = read_result a ++ read_result b.
Proof.
  intros Hend. unfold read_result.
  apply read_rounds_app; try lia; try exact Hend; rewrite str_length_app; lia.
Qed.

Lemma read_result_clean s : occurrences NUL s = 0%nat -> read_result s = s.
Proof. intros H. unfold read_result. apply read_rounds_clean; [lia | exact H]. Qed.

Lemma read_result_newlines s :
  (occurrences newline (read_result s) <= occurrences newline s)%nat.
Proof. apply read_rounds_newlines. Qed.

(** X3.  The text that the read loop gathers and the lines that the line
    loop takes from it.  The loop cuts the gathered text at its newlines and
    nowhere else: the lines, each with its newline, followed by the text left
    over after the last newline give back the gathered text; no line and no
    leftover holds a newline; there are as many lines as newlines, and never
    more than the command printed newlines.  The gathered text is what the
    command printed when that holds no NUL byte. *)
Theorem complete_lines_decompose output :
  unlines (complete_lines (read_result output)) ++ unterminated (read_result output)
  = read_result output
  /\ Forall (fun l => occurrences newline l = 0%nat)
       (complete_lines (read_result output))
  /\ occurrences newline (unterminated (read_result output)) = 0%nat
  /\ length (complete_lines (read_result output))
     = occurrences newline (read_result output)
  /\ (length (complete_lines (read_result output))
      <= occurrences newline output)%nat
  /\ (occurrences NUL output = 0%nat -> read_result output = output).
Proof.
  unfold complete_lines, unterminated. split; [|split; [|split; [|split; [|split]]]].
  - apply (lines_from_decompose (read_result output) EmptyString).
  - apply lines_from_clean. reflexivity.
  - apply lines_from_clean. reflexivity.
  - apply lines_from_length.
  - rewrite lines_from_length. apply read_result_newlines.
  - apply read_result_clean.
Qed.

(** X4.  What a listing parses to does not depend on how it is cut up, as
    long as it is cut at line ends and the read loop kept the first part's
    last newline (it does when that part holds no NUL byte): for a first part
    that ends with a newline (or is empty) the networks of the whole are
    those of the first part followed by those of the second.  And text after
    the last newline never gives a network. *)
Theorem parse_output_app a b :
  (unterminated a = EmptyString ->
   unterminated (read_result a) = EmptyString ->
   parse_output (read_result (a ++ b))
   = (parse_output (read_result a) ++ parse_output (read_result b))%list)
  /\ (occurrences newline b = 0%nat ->
      parse_output (read_result (a ++ b)) = parse_output (read_result a)).
Proof.
  split.
  - intros Hend Hkept. rewrite (read_result_app a b Hend).
    apply (proj1 (parse_output_text_app (read_result a) (read_result b))).
    exact Hkept.
  - intros Hb.
    pose proof (lines_from_decompose a EmptyString) as Ha.
    destruct (lines_from_clean a EmptyString eq_refl) as [Hclean Hrest].
    cbn [append] in Ha.
    assert (Hhead : unterminated (unlines (lines_from a EmptyString)) = EmptyString).
    { clear Ha. unfold unterminated.
      induction Hclean as [|l ls Hl _ IH]; [reflexivity|].
      cbn [unlines].
      assert (G : forall t s line, occurrences newline t = 0%nat ->
                  unterminated_from (t ++ s) line = unterminated_from s (line ++ t)).
      { induction t as [|c t IHt]; intros s line Ht; cbn.
        - rewrite str_app_nil_r. reflexivity.
        - cbn in Ht. destruct (Ascii.eqb c newline); [discriminate|].
          rewrite IHt by exact Ht. rewrite str_app_assoc. reflexivity. }
      rewrite G by exact Hl. cbn. rewrite Ascii.eqb_refl. exact IH. }
    set (head := unlines (lines_from a EmptyString)) in *.
    set (rest := unterminated_from a EmptyString) in *.
    rewrite <- Ha. rewrite str_app_assoc.
    rewrite !(read_result_app head _ Hhead).
    rewrite (proj2 (parse_output_text_app (read_result head) (read_result (rest ++ b)))),
            (proj2 (parse_output_text_app (read_result head) (read_result rest)));
      [reflexivity | |].
    + pose proof (read_result_newlines rest). lia.
    + pose proof (read_result_newlines (rest ++ b)) as H.
      rewrite occurrences_app in H. lia.
Qed.

Lemma parse_output_app_witness :
  unterminated home_listing = EmptyString
  /\ parse_output (read_result (home_listing ++ cafe_listing))
     = (parse_output (read_result home_listing)
          ++ parse_output (read_result cafe_listing))%list
  /\ parse_output (read_result (home_listing ++ ":Caf"))
     = parse_output (read_result home_listing).
Proof.
  split; [reflexivity|]. split.
  - apply (proj1 (parse_output_app home_listing cafe_listing));
      vm_compute; reflexivity.
  - apply (proj2 (parse_output_app home_listing ":Caf")). reflexivity.
Defined.

(** *** Networks *)

Lemma stoi_range s v : stoi s = Some v -> (INT_MIN <= v <= INT_MAX)%Z.
Proof.
  unfold stoi.
  destruct (match skip_spaces s with
            | String c rest =>
                if Ascii.eqb c "-"%char then (true, rest)
                else if Ascii.eqb c "+"%char then (false, rest)
                else (false, skip_spaces s)
            | EmptyString => (false, skip_spaces s)
            end) as [negative s2].
  destruct (digits_from s2 None) as [d|]; [|discriminate].
  destruct ((INT_MIN <=? (if negative then (- d)%Z else d))%Z
            && ((if negative then (- d)%Z else d) <=? INT_MAX)%Z) eqn:E;
    [|discriminate].
  intros H. injection H as <-.
  apply andb_true_iff in E. destruct E as [E1 E2].
  apply Z.leb_le in E1. apply Z.leb_le in E2. split; assumption.
Qed.

Lemma parse_line_parsed line net :
  parse_line line = Some net -> parsed_network net.
Proof.
  unfold parse_line.
  pose proof (split_from_clean line ":"%char EmptyString eq_refl) as Hclean.
  fold (split line ":"%char) in Hclean.
  destruct (split line ":"%char) as [|t0 [|t1 [|t2 [|t3 rest]]]]; try discriminate.
  intros H. injection H as <-. unfold parsed_network. cbn.
  split; [reflexivity|]. split.
  - inversion Hclean as [|? ? _ H1]; subst.
    inversion H1 as [|? ? Hssid _]; subst. exact Hssid.
  - destruct (stoi t2) as [v|] eqn:E; [apply (stoi_range _ _ E)|].
    unfold INT_MIN, INT_MAX. lia.
Qed.

(** X5.  A line gives a network exactly when it has at least three
    colons, and every network a line gives is well formed: no BSSID, no colon
    in the SSID, a signal within the range of [int].  The signal is what
    [std::stoi] makes of the third field, and 0 when [std::stoi] throws. *)
Theorem parse_line_fields line :
  (parse_line line = None <-> (occurrences ":"%char line < 3)%nat)
  /\ forall net,
       parse_line line = Some net ->
       parsed_network net
       /\ signal_strength net
          = match stoi (nth 2 (split line ":"%char) EmptyString) with
            | Some v => v
            | None => 0%Z
            end.
Proof.
  split.
  - unfold parse_line.
    pose proof (split_from_length line ":"%char EmptyString) as Hlen.
    fold (split line ":"%char) in Hlen.
    destruct (split line ":"%char) as [|t0 [|t1 [|t2 [|t3 rest]]]];
      cbn [length] in Hlen; split; intros H; try reflexivity; try discriminate; lia.
  - intros net Hnet. split; [apply (parse_line_parsed line net Hnet)|].
    unfold parse_line in Hnet.
    destruct (split line ":"%char) as [|t0 [|t1 [|t2 [|t3 rest]]]];
      try discriminate.
    injection Hnet as <-. reflexivity.
Qed.

Lemma parse_line_fields_witness :
  parse_line "*:Home:x80:WPA2"
  = Some {| ssid := "Home"; bssid := EmptyString; signal_strength := 0;
            connected := true; secured := true |}
  /\ signal_strength {| ssid := "Home"; bssid := EmptyString; signal_strength := 0;
                        connected := true; secured := true |}
     = match stoi (nth 2 (split "*:Home:x80:WPA2" ":"%char) EmptyString) with
       | Some v => v
       | None => 0%Z
       end.
Proof.
  split; [reflexivity|].
  exact (proj2 (proj2 (parse_line_fields "*:Home:x80:WPA2") _ eq_refl)).
Defined.

Lemma parse_output_forall result :
  Forall parsed_network (parse_output result)
  /\ (length (parse_output result) <= occurrences newline result)%nat.
Proof.
  unfold parse_output.
  pose proof (lines_from_length result EmptyString) as Hlen.
  fold (complete_lines result) in Hlen.
  rewrite <- Hlen. clear Hlen.
  induction (complete_lines result) as [|l ls [IH1 IH2]]; cbn.
  - split; [constructor | lia].
  - destruct (parse_line l) as [net|] eqn:E; cbn.
    + split; [|lia]. constructor; [|exact IH1].
      apply (parse_line_parsed l net E).
    + split; [exact IH1 | lia].
Qed.

Lemma scan_networks_list env s :
  networks_ (exec (scan_networks env) s)
  = if wifi_enabled_ s
    then match popen_result env (issued s) scan_command with
         | PipeClosed output _ => parse_output (read_result output)
         | PipeFailed => []
         end
    else [].
Proof.
  destruct (wifi_enabled_ s) eqn:Hen.
  - destruct (popen_result env (issued s) scan_command) as [|result status] eqn:Hp.
    + rewrite (scan_networks_no_pipe env s Hen Hp). reflexivity.
    + rewrite (scan_networks_ran env s result status Hen Hp).
      destruct (update_callback_ s); reflexivity.
  - unfold exec, scan_networks, bind, get. rewrite Hen. simpl.
    unfold notify_update, bind, get. simpl.
    destruct (update_callback_ s); reflexivity.
Qed.

(** X6.  Whatever the manager held before and whatever the command does,
    after [scan_networks] every stored network is well formed, and there are
    at most as many of them as the listing had newlines (none when the radio
    is off or the command could not be started). *)
Theorem scan_networks_stores_parsed env s :
  Forall parsed_network (networks_ (exec (scan_networks env) s))
  /\ (length (networks_ (exec (scan_networks env) s))
      <= match popen_result env (issued s) scan_command with
         | PipeClosed result _ =>
             if wifi_enabled_ s then occurrences newline result else 0
         | PipeFailed => 0
         end)%nat.
Proof.
  rewrite scan_networks_list.
  destruct (wifi_enabled_ s);
    destruct (popen_result env (issued s) scan_command) as [|result status];
    try (split; [constructor | cbn; lia]).
  destruct (parse_output_forall (read_result result)) as [Hall Hlen].
  split; [exact Hall|]. pose proof (read_result_newlines result). lia.
Qed.

(** *** Trimming *)

Lemma is_blank_app a b : is_blank (a ++ b) = is_blank a && is_blank b.
Proof.
  induction a as [|c a IH]; cbn; [reflexivity|].
  rewrite IH. apply andb_assoc.
Qed.

Lemma trim_left_decompose s :
  exists a, s = a ++ trim_left s /\ is_blank a = true.
Proof.
  induction s as [|c s (a & Hs & Ha)]; cbn.
  - exists EmptyString. split; reflexivity.
  - destruct (is_trim_char c) eqn:E.
    + exists (String c a). cbn. rewrite E, Ha. split; [congruence | reflexivity].
    + exists EmptyString. split; reflexivity.
Qed.

Lemma trim_left_head s :
  match trim_left s with
  | String c _ => is_trim_char c = false
  | EmptyString => is_blank s = true
  end.
Proof.
  induction s as [|c s IH]; cbn; [reflexivity|].
  destruct (is_trim_char c) eqn:E; [exact IH | exact E].
Qed.

Lemma trim_right_blank s : is_blank s = true -> trim_right s = EmptyString.
Proof.
  induction s as [|c s IH]; cbn; [reflexivity|].
  intros H. apply andb_true_iff in H. destruct H as [Hc Hs].
  rewrite (IH Hs), Hc. reflexivity.
Qed.

Lemma trim_right_empty s : trim_right s = EmptyString -> is_blank s = true.
Proof.
  induction s as [|c s IH]; cbn; [reflexivity|].
  destruct (trim_right s) eqn:E; [|discriminate].
  destruct (is_trim_char c); [|discriminate].
  intros _. apply IH. reflexivity.
Qed.

Lemma trim_right_decompose s :
  exists b, s = trim_right s ++ b /\ is_blank b = true.
Proof.
  induction s as [|c s (b & Hs & Hb)]; cbn.
  - exists EmptyString. split; reflexivity.
  - destruct (trim_right s) as [|x r] eqn:E.
    + cbn in Hs. subst b. destruct (is_trim_char c) eqn:Ec.
      * exists (String c s). cbn. rewrite Ec, Hb. split; reflexivity.
      * exists s. split; [reflexivity | exact Hb].
    + exists b. split; [cbn in Hs |- *; congruence | exact Hb].
Qed.

Lemma trim_right_last s : forall t c,
  trim_right s = t ++ String c EmptyString -> is_trim_char c = false.
Proof.
  induction s as [|a s IH]; intros t c; cbn.
  - destruct t; discriminate.
  - destruct (trim_right s) as [|x r] eqn:E.
    + destruct (is_trim_char a) eqn:Ea.
      * destruct t; discriminate.
      * destruct t as [|y t]; cbn; intros H.
        -- congruence.
        -- destruct t; discriminate.
    + destruct t as [|y t]; cbn; intros H; [discriminate|].
      apply (IH t c). congruence.
Qed.

Lemma trim_right_head c s :
  is_trim_char c = false ->
  exists r, trim_right (String c s) = String c r.
Proof.
  intros Hc. cbn. destruct (trim_right s); rewrite ?Hc; eexists; reflexivity.
Qed.

Lemma trim_right_idem s : trim_right (trim_right s) = trim_right s.
Proof.
  induction s as [|c s IH]; cbn; [reflexivity|].
  destruct (trim_right s) as [|x r] eqn:E.
  - destruct (is_trim_char c) eqn:Ec; cbn; rewrite ?Ec; reflexivity.
  - change (trim_right (String c (String x r)))
      with (match trim_right (String x r) with
            | EmptyString => if is_trim_char c then EmptyString else String c EmptyString
            | r' => String c r'
            end).
    rewrite IH. reflexivity.
Qed.

Lemma trim_right_app_blank s b :
  is_blank b = true -> trim_right (s ++ b) = trim_right s.
Proof.
  intros Hb. induction s as [|c s IH]; cbn.
  - apply trim_right_blank. exact Hb.
  - rewrite IH. reflexivity.
Qed.

Lemma trim_blank s : trim s = EmptyString <-> is_blank s = true.
Proof.
  unfold trim. destruct (trim_left_decompose s) as (a & Hs & Ha). split.
  - intros H. apply trim_right_empty in H.
    rewrite Hs, is_blank_app, Ha, H. reflexivity.
  - intros H. rewrite Hs, is_blank_app, Ha in H. apply trim_right_blank. exact H.
Qed.

Lemma trim_idem s : trim (trim s) = trim s.
Proof.
  unfold trim. pose proof (trim_left_head s) as Hh.
  destruct (trim_left s) as [|c u] eqn:E; [reflexivity|].
  destruct (trim_right_head c u Hh) as (r & Hr).
  rewrite Hr. cbn [trim_left]. rewrite Hh. rewrite <- Hr.
  apply trim_right_idem.
Qed.

(** X7.  The trimming idiom removes blank text at both ends and nothing
    else: the text is a blank prefix, the result and a blank suffix; the
    result neither starts nor ends with a blank character, so it is empty
    exactly for a blank text, and trimming it again changes nothing. *)
Theorem trim_decompose s :
  (exists a b,
     s = a ++ trim s ++ b /\ is_blank a = true /\ is_blank b = true)
  /\ match trim s with
     | String c _ => is_trim_char c = false
     | EmptyString => is_blank s = true
     end
  /\ (forall t c, trim s = t ++ String c EmptyString -> is_trim_char c = false)
  /\ trim (trim s) = trim s.
Proof.
  split; [|split; [|split]].
  - unfold trim. destruct (trim_left_decompose s) as (a & Hs & Ha).
    destruct (trim_right_decompose (trim_left s)) as (b & Hu & Hb).
    exists a, b. split; [congruence | split; assumption].
  - destruct (trim s) as [|c r] eqn:E; [apply trim_blank; exact E|].
    unfold trim in E. pose proof (trim_left_head s) as Hh.
    destruct (trim_left s) as [|c' u]; [discriminate|].
    destruct (trim_right_head c' u Hh) as (r' & Hr). congruence.
  - intros t c. unfold trim. apply trim_right_last.
  - apply trim_idem.
Qed.

Lemma trim_decompose_witness :
  trim "  wlan0 " = "wlan0" ++ EmptyString
  /\ is_trim_char "0" = false.
Proof.
  split; [reflexivity|].
  apply (proj1 (proj2 (proj2 (trim_decompose "  wlan0 "))) "wlan" "0"%char).
  reflexivity.
Defined.

(** *** The first line of a command's output *)

Lemma fgets_line line rest : forall n,
  occurrences newline line = 0%nat ->
  (String.length line < n)%nat ->
  fgets n (line ++ String newline rest) = line ++ String newline EmptyString.
Proof.
  induction line as [|c line IH]; intros n Hclean Hlen; cbn.
  - destruct n; [cbn in Hlen; lia|]. cbn. rewrite Ascii.eqb_refl. reflexivity.
  - destruct n; [cbn in Hlen; lia|]. cbn in Hclean, Hlen |- *.
    destruct (Ascii.eqb c newline) eqn:E; [discriminate|].
    rewrite IH by (assumption || lia). reflexivity.
Qed.

Lemma fgets_short s : forall n,
  occurrences newline s = 0%nat ->
  (String.length s <= n)%nat ->
  fgets n s = s.
Proof.
  induction s as [|c s IH]; intros n Hclean Hlen; cbn.
  - destruct n; reflexivity.
  - destruct n; [cbn in Hlen; lia|]. cbn in Hclean, Hlen |- *.
    destruct (Ascii.eqb c newline) eqn:E; [discriminate|].
    rewrite IH by (assumption || lia). reflexivity.
Qed.

Lemma trim_left_app_newline line :
  trim_left (line ++ String newline EmptyString)
  = if is_blank line then EmptyString
    else trim_left line ++ String newline EmptyString.
Proof.
  induction line as [|c line IH]; cbn; [reflexivity|].
  destruct (is_trim_char c) eqn:E; cbn; [exact IH | reflexivity].
Qed.

Lemma trim_line line : trim (line ++ String newline EmptyString) = trim line.
Proof.
  unfold trim. rewrite trim_left_app_newline.
  destruct (is_blank line) eqn:E.
  - symmetry. apply (proj2 (trim_blank line)). exact E.
  - apply trim_right_app_blank. reflexivity.
Qed.

Lemma trim_c_str_line line :
  trim (c_str (line ++ String newline EmptyString)) = trim (c_str line).
Proof.
  rewrite c_str_app. destruct (Nat.eqb (occurrences NUL line) 0).
  - apply trim_line.
  - rewrite str_app_nil_r. reflexivity.
Qed.

(** X8.  [get_wifi_interface] and [check_wifi_enabled] look at the first
    line of the command's output only, and of that line at what comes before
    its first NUL byte: whatever follows the first newline, the interface is
    that text trimmed, and the radio counts as enabled exactly when that text
    trimmed is [enabled]. *)
Theorem first_line_only env s line rest status :
  occurrences newline line = 0%nat ->
  (String.length line < 127)%nat ->
  (popen_result env (issued s) interface_command
   = PipeClosed (line ++ String newline rest) status ->
   fst (get_wifi_interface env s) = trim (c_str line))
  /\ (popen_result env (issued s) "nmcli radio wifi"
      = PipeClosed (line ++ String newline rest) status ->
      fst (check_wifi_enabled env s) = String.eqb (trim (c_str line)) "enabled")
  /\ (occurrences NUL line = 0%nat -> c_str line = line).
Proof.
  intros Hclean Hlen.
  split; [|split; [|apply c_str_clean]];
    intros Hp; unfold get_wifi_interface, check_wifi_enabled, bind, popen;
    rewrite Hp; cbn [fst ret];
    rewrite (fgets_line line rest 127 Hclean Hlen), trim_c_str_line; reflexivity.
Qed.

Lemma first_line_only_witness :
  occurrences newline "wlan0" = 0%nat
  /\ fst (get_wifi_interface two_interfaces (enabled_manager [])) = trim (c_str "wlan0").
Proof.
  split; [reflexivity|].
  refine (proj1 (first_line_only two_interfaces (enabled_manager []) "wlan0"
                   ("wlan1" ++ String newline EmptyString) 0 eq_refl _) eq_refl).
  cbn. lia.
Defined.

Local Arguments String.append : simpl never.

(** *** What the methods leave alone *)

Lemma frames_weaken (P Q : Action -> Prop) {A} (m : M A) :
  (forall a, P a -> Q a) -> frames P m -> frames Q m.
Proof.
  intros HPQ Hm s. destruct (Hm s) as (H1 & H2 & H3 & H4 & added & H5 & H6).
  repeat split; try assumption. exists added. split; [exact H5|].
  eapply Forall_impl; eauto.
Qed.

Lemma frames_ret P {A} (a : A) : frames P (ret a).
Proof.
  intros s. repeat split; try reflexivity.
  exists []. split; [symmetry; apply app_nil_r | constructor].
Qed.

Lemma frames_get P {A} (field : State -> A) : frames P (get field).
Proof.
  intros s. repeat split; try reflexivity.
  exists []. split; [symmetry; apply app_nil_r | constructor].
Qed.

Lemma frames_bind P {A B} (m : M A) (k : A -> M B) :
  frames P m -> (forall a, frames P (k a)) -> frames P (bind m k).
Proof.
  intros Hm Hk s. unfold exec, bind.
  specialize (Hm s). unfold exec in Hm.
  destruct (m s) as [a s1]. cbn [snd] in Hm.
  destruct Hm as (A1 & A2 & A3 & A4 & l1 & A5 & A6).
  destruct (Hk a s1) as (B1 & B2 & B3 & B4 & l2 & B5 & B6). unfold exec in *.
  repeat split; try congruence; try lia.
  exists (l1 ++ l2)%list. split.
  - rewrite B5, A5, app_assoc. reflexivity.
  - apply Forall_app. split; assumption.
Qed.

Lemma frames_log (P : Action -> Prop) a : P a -> frames P (log a).
Proof.
  intros Ha s. repeat split; try reflexivity.
  exists [a]. split; [reflexivity | constructor; [exact Ha | constructor]].
Qed.

Lemma frames_set_networks P (f : State -> list Network) :
  frames P (modify (fun s => with_networks (f s) s)).
Proof.
  intros s. repeat split; try reflexivity.
  exists []. split; [symmetry; apply app_nil_r | constructor].
Qed.

Lemma frames_popen (P : Action -> Prop) env cmd :
  P (Popen cmd) -> frames P (popen env cmd).
Proof.
  intros Ha s. repeat split; try reflexivity; [cbn; lia|].
  exists [Popen cmd]. split; [reflexivity | constructor; [exact Ha | constructor]].
Qed.

Lemma frames_system (P : Action -> Prop) env cmd :
  P (System cmd) -> frames P (system env cmd).
Proof.
  intros Ha s. repeat split; try reflexivity; [cbn; lia|].
  exists [System cmd]. split; [reflexivity | constructor; [exact Ha | constructor]].
Qed.

Lemma frames_run_dialog (P : Action -> Prop) env title :
  P (RunDialog title) -> frames P (run_dialog env title).
Proof.
  intros Ha s. repeat split; try reflexivity; [cbn; lia|].
  exists [RunDialog title].
  split; [reflexivity | constructor; [exact Ha | constructor]].
Qed.

Lemma frames_notify_update : frames scan_action notify_update.
Proof.
  unfold notify_update. apply frames_bind; [apply frames_get|].
  intros [f|]; [|apply frames_ret].
  apply frames_bind; [apply frames_get|]. intros nets.
  apply frames_log. exact I.
Qed.

Lemma frames_push_lines lines : frames scan_action (push_lines lines).
Proof.
  induction lines as [|l rest IH]; cbn [push_lines]; [apply frames_ret|].
  apply frames_bind; [|intros _; exact IH].
  destruct (parse_line l); [|apply frames_ret].
  apply (frames_set_networks scan_action (fun s => networks_ s ++ [n])%list).
Qed.

Lemma frames_scan env : frames scan_action (scan_networks env).
Proof.
  unfold scan_networks. apply frames_bind; [apply frames_get|].
  intros enabled.
  destruct (negb enabled).
  - apply frames_bind;
      [apply (frames_set_networks scan_action (fun _ => [])) |].
    intros _. apply frames_notify_update.
  - apply frames_bind;
      [apply (frames_set_networks scan_action (fun _ => [])) |].
    intros _. apply frames_bind; [apply frames_popen; exact I|].
    intros [|result status]; [apply frames_log; exact I|].
    apply frames_bind; [apply frames_push_lines|].
    intros _. apply frames_notify_update.
Qed.

Lemma scan_action_manager a : scan_action a -> manager_action a.
Proof. destruct a; intros H; exact H || exact I. Qed.

Lemma frames_scan_networks env : frames manager_action (scan_networks env).
Proof. exact (frames_weaken _ _ _ scan_action_manager (frames_scan env)). Qed.

Lemma frames_get_wifi_interface env : frames manager_action (get_wifi_interface env).
Proof.
  unfold get_wifi_interface. apply frames_bind; [apply frames_popen; exact I|].
  intros [|out status]; apply frames_ret.
Qed.

Lemma frames_connect env ssid password security_type :
  frames manager_action (connect env ssid password security_type).
Proof.
  unfold connect. apply frames_bind; [apply frames_get|]. intros nets.
  destruct (is_connected_to ssid nets); [apply frames_log; exact I|].
  apply frames_bind; [apply frames_log; exact I|]. intros _.
  destruct (negb (String.eqb password EmptyString)
            && negb (String.eqb security_type EmptyString)).
  - apply frames_bind; [apply frames_get_wifi_interface|]. intros wifi_interface.
    destruct (String.eqb wifi_interface EmptyString);
      [apply frames_log; exact I|].
    cbv zeta.
    apply frames_bind; [apply frames_system; exact I|]. intros _.
    apply frames_bind; [apply frames_system; exact I|]. intros result.
    apply frames_bind; [|intros _; apply frames_scan_networks].
    destruct (Z.eqb result 0); apply frames_log; exact I.
  - cbv zeta.
    apply frames_bind; [apply frames_system; exact I|]. intros result.
    apply frames_bind; [|intros _; apply frames_scan_networks].
    destruct (Z.eqb result 0); apply frames_log; exact I.
Qed.

Lemma frames_disconnect env : frames manager_action (disconnect env).
Proof.
  unfold disconnect.
  apply frames_bind; [apply frames_get_wifi_interface|]. intros wifi_interface.
  destruct (String.eqb wifi_interface EmptyString);
    [apply frames_log; exact I|].
  apply frames_bind; [apply frames_log; exact I|]. intros _.
  apply frames_bind; [apply frames_system; exact I|]. intros _.
  apply frames_scan_networks.
Qed.

Lemma frames_forget_network env ssid : frames manager_action (forget_network env ssid).
Proof.
  unfold forget_network.
  apply frames_bind; [apply frames_log; exact I|]. intros _.
  apply frames_bind; [apply frames_system; exact I|]. intros _.
  apply frames_bind; [apply frames_system; exact I|]. intros _.
  apply frames_bind; [apply frames_log; exact I|]. intros _.
  apply frames_scan_networks.
Qed.

(** X9.  Scanning, connecting, disconnecting and forgetting a network
    never change the enabled flag or the registered callbacks, never show a
    dialog and never sleep; they only add to the trace. *)
Theorem manager_methods_frame env :
  frames manager_action (scan_networks env)
  /\ (forall ssid password security_type,
        frames manager_action (connect env ssid password security_type))
  /\ frames manager_action (disconnect env)
  /\ (forall ssid, frames manager_action (forget_network env ssid)).
Proof.
  split; [apply frames_scan_networks|].
  split; [intros; apply frames_connect|].
  split; [apply frames_disconnect | intros; apply frames_forget_network].
Qed.

(** *** What the methods do *)

Local Arguments scan_networks : simpl never.

(** X10.  A radio command that returns 0.  [disable_wifi] clears the flag
    and the list, tells the state callback and then the update callback, and
    runs no scan; a scan after it runs no command either.  [enable_wifi] sets
    the flag, tells the state callback and only then scans, and the list is
    what that scan gives. *)
Theorem radio_switch_succeeds env s :
  (system_result env (issued s) "nmcli radio wifi off" = 0%Z ->
   let s' := exec (disable_wifi env) s in
   wifi_enabled_ s' = false
   /\ networks_ s' = []
   /\ issued s' = S (issued s)
   /\ trace s'
      = (trace s ++ System "nmcli radio wifi off"
           :: match state_callback_ s with
              | Some f => [CallState f false]
              | None => []
              end
           ++ match update_callback_ s with
              | Some g => [CallUpdate g []]
              | None => []
              end)%list
   /\ forall env2,
        exec (scan_networks env2) s'
        = match update_callback_ s with
          | Some g => record (CallUpdate g []) s'
          | None => s'
          end)
  /\ (system_result env (issued s) "nmcli radio wifi on" = 0%Z ->
      let s' := exec (enable_wifi env) s in
      wifi_enabled_ s' = true
      /\ networks_ s' = scanned env (S (issued s)) true
      /\ issued s' = S (S (issued s))
      /\ exists rest,
           trace s'
           = (trace s ++ System "nmcli radio wifi on"
                :: match state_callback_ s with
                   | Some f => [CallState f true]
                   | None => []
                   end
                ++ Popen scan_command :: rest)%list).
Proof.
  split; intros Hret; cbv zeta.
  - unfold exec, disable_wifi, bind, system. cbn. rewrite Hret. cbn.
    unfold notify_state, notify_update, scan_networks, bind, get, log, modify.
    destruct (state_callback_ s) eqn:Hs, (update_callback_ s) eqn:Hu;
      cbn; rewrite ?Hs, ?Hu; cbn; unfold scan_networks, notify_update, bind, get, modify;
      cbn; rewrite ?Hu; cbn;
      repeat split; try reflexivity;
      rewrite <- ?app_assoc; try reflexivity.
  - unfold exec, enable_wifi, bind, system. cbn. rewrite Hret. cbn.
    unfold notify_state, bind, get, log, modify. cbn.
    unfold scanned.
    destruct (state_callback_ s) as [f|] eqn:Hs; cbn.
    all: match goal with
         | |- context [scan_networks ?e ?st] =>
             change (snd (scan_networks e st)) with (exec (scan_networks e) st);
             destruct (popen_result e (issued st) scan_command)
               as [|result status] eqn:Hp;
             [ rewrite (scan_networks_no_pipe e st eq_refl Hp)
             | rewrite (scan_networks_ran e st result status eq_refl Hp) ]
         end.
    all: cbn in Hp; rewrite Hp.
    all: cbn; try destruct (update_callback_ s); cbn;
      repeat split; eexists; rewrite <- ?app_assoc; cbn; reflexivity.
Qed.

Lemma radio_switch_succeeds_witness :
  system_result (answering home_listing 0) (issued (enabled_manager [home]))
    "nmcli radio wifi off" = 0%Z
  /\ wifi_enabled_ (exec (disable_wifi (answering home_listing 0))
                      (enabled_manager [home])) = false
  /\ networks_ (exec (enable_wifi (answering home_listing 0)) (disabled_manager []))
     = scanned (answering home_listing 0) 1 true.
Proof.
  split; [reflexivity|]. split.
  - exact (proj1 (proj1 (radio_switch_succeeds (answering home_listing 0)
                           (enabled_manager [home])) eq_refl)).
  - exact (proj1 (proj2 (proj2 (radio_switch_succeeds (answering home_listing 0)
                                  (disabled_manager [])) eq_refl))).
Defined.

Local Arguments connect : simpl never.
Local Arguments disconnect : simpl never.
Local Arguments forget_network : simpl never.
Local Arguments get_wifi_interface : simpl never.
Local Arguments is_connected_to : simpl never.

(** *** Reading a trace *)

Lemma dialogs_app a b : dialogs (a ++ b)%list = (dialogs a ++ dialogs b)%list.
Proof. apply omap_app. Qed.

Lemma system_commands_app a b :
  system_commands (a ++ b)%list = (system_commands a ++ system_commands b)%list.
Proof. apply omap_app. Qed.

Lemma sleeps_app a b : sleeps (a ++ b)%list = (sleeps a ++ sleeps b)%list.
Proof. apply omap_app. Qed.

Lemma manager_action_silent l :
  Forall manager_action l -> dialogs l = [] /\ sleeps l = [].
Proof.
  induction 1 as [|a l Ha _ [IH1 IH2]]; [split; reflexivity|].
  destruct a; cbn in Ha |- *; try contradiction; split; assumption.
Qed.

Lemma scan_action_silent l :
  Forall scan_action l -> system_commands l = [].
Proof.
  induction 1 as [|a l Ha _ IH]; [reflexivity|].
  destruct a; cbn in Ha |- *; try contradiction; assumption.
Qed.

(** *** The manager's methods *)

Lemma get_wifi_interface_state env s :
  snd (get_wifi_interface env s) = next_request (record (Popen interface_command) s).
Proof.
  unfold get_wifi_interface, bind, popen.
  destruct (popen_result env (issued s) interface_command); reflexivity.
Qed.

Lemma get_wifi_interface_empty env s :
  fst (get_wifi_interface env s) = EmptyString <-> no_interface env (issued s).
Proof.
  unfold get_wifi_interface, no_interface, bind, popen.
  destruct (popen_result env (issued s) interface_command) as [|out status];
    cbn [fst ret].
  - split; reflexivity || trivial.
  - apply trim_blank.
Qed.

Lemma run_get_wifi_interface env s :
  get_wifi_interface env s
  = (fst (get_wifi_interface env s),
     next_request (record (Popen interface_command) s)).
Proof.
  rewrite <- (get_wifi_interface_state env s).
  destruct (get_wifi_interface env s); reflexivity.
Qed.

Lemma scan_appends env s :
  exists added,
    trace (exec (scan_networks env) s) = (trace s ++ added)%list
    /\ Forall scan_action added.
Proof. destruct (frames_scan env s) as (_ & _ & _ & _ & H). exact H. Qed.

Lemma no_interface_disconnect env s :
  no_interface env (issued s) ->
  let s' := exec (disconnect env) s in
  networks_ s' = networks_ s
  /\ exists msg, trace s' = (trace s ++ [Popen interface_command; Cerr msg])%list.
Proof.
  intros Hno. apply (proj2 (get_wifi_interface_empty env s)) in Hno. cbv zeta.
  unfold exec, disconnect, bind. rewrite run_get_wifi_interface, Hno. cbn.
  split; [reflexivity|]. eexists. rewrite <- app_assoc. reflexivity.
Qed.

Lemma no_interface_connect env s ssid password security_type :
  no_interface env (issued s) ->
  is_connected_to ssid (networks_ s) = false ->
  password <> EmptyString -> security_type <> EmptyString ->
  let s' := exec (connect env ssid password security_type) s in
  networks_ s' = networks_ s
  /\ exists msg1 msg2,
       trace s' = (trace s ++ [Cout msg1; Popen interface_command; Cerr msg2])%list.
Proof.
  intros Hno Hnot Hp Hs. cbv zeta.
  unfold exec, connect, bind, get. rewrite Hnot. cbn.
  apply String.eqb_neq in Hp, Hs. rewrite Hp, Hs. cbn.
  assert (Hno' : no_interface env
                   (issued (record (Cout ("Connecting to WiFi network: " ++ ssid
                                            ++ "..." ++ endl)) s))) by exact Hno.
  apply (proj2 (get_wifi_interface_empty env _)) in Hno'.
  rewrite run_get_wifi_interface, Hno'. cbn.
  split; [reflexivity|]. do 2 eexists. rewrite <- !app_assoc. reflexivity.
Qed.

(** X11.  When no interface is found, [disconnect] and [connect] with a
    password give up after the lookup: a line on the error stream, no command
    run, no scan, the list as it was. *)
Theorem no_interface_no_command env s :
  no_interface env (issued s) ->
  (let s' := exec (disconnect env) s in
   networks_ s' = networks_ s
   /\ exists msg, trace s' = (trace s ++ [Popen interface_command; Cerr msg])%list)
  /\ forall ssid password security_type,
       is_connected_to ssid (networks_ s) = false ->
       password <> EmptyString -> security_type <> EmptyString ->
       let s' := exec (connect env ssid password security_type) s in
       networks_ s' = networks_ s
       /\ exists msg1 msg2,
            trace s'
            = (trace s ++ [Cout msg1; Popen interface_command; Cerr msg2])%list.
Proof.
  intros Hno. split.
  - apply no_interface_disconnect. exact Hno.
  - intros. apply no_interface_connect; assumption.
Qed.

Lemma connect_already env s ssid password security_type :
  is_connected_to ssid (networks_ s) = true ->
  exec (connect env ssid password security_type) s
  = record (Cout ("Already connected to " ++ ssid ++ endl)) s.
Proof.
  intros H. unfold exec, connect, bind, get. rewrite H. reflexivity.
Qed.

Lemma connect_open env s ssid password security_type :
  is_connected_to ssid (networks_ s) = false ->
  password = EmptyString \/ security_type = EmptyString ->
  let s' := exec (connect env ssid password security_type) s in
  networks_ s' = scanned env (S (issued s)) (wifi_enabled_ s)
  /\ exists added cmd,
       trace s' = (trace s ++ added)%list
       /\ system_commands added = [cmd]
       /\ Forall manager_action added.
Proof.
  intros Hnot Hopen. cbv zeta.
  assert (Hcond : negb (String.eqb password EmptyString)
                  && negb (String.eqb security_type EmptyString) = false).
  { destruct Hopen as [-> | ->]; cbn; [reflexivity | apply andb_false_r]. }
  unfold exec, connect, bind, get. rewrite Hnot. cbn. rewrite Hcond.
  cbv zeta. unfold system. cbn.
  set (cmd := if negb (String.eqb password EmptyString) then _ else _).
  destruct (Z.eqb _ 0); unfold log, modify; cbn [fst snd].
  all: match goal with
       | |- context [scan_networks ?e ?st] =>
           change (snd (scan_networks e st)) with (exec (scan_networks e) st);
           destruct (scan_appends e st) as (added & Ht & Ha);
           rewrite Ht, scan_networks_list
       end.
  all: cbn; split; [reflexivity|].
  all: eexists; exists cmd; split; [rewrite <- !app_assoc; reflexivity|].
  all: split;
    [ cbn [app]; unfold system_commands at 1; cbn [omap list_omap];
      fold (system_commands added); rewrite (scan_action_silent added Ha); reflexivity
    | repeat (constructor; [exact I|]);
      eapply Forall_impl; [exact Ha | apply scan_action_manager] ].
Qed.

Lemma exec_pair {A} (m : M A) s : m s = (fst (m s), exec m s).
Proof. unfold exec. destruct (m s); reflexivity. Qed.

Lemma connect_secured env s ssid password security_type :
  is_connected_to ssid (networks_ s) = false ->
  password <> EmptyString -> security_type <> EmptyString ->
  ~ no_interface env (issued s) ->
  let s' := exec (connect env ssid password security_type) s in
  networks_ s' = scanned env (S (S (S (issued s)))) (wifi_enabled_ s)
  /\ exists added c1 c2,
       trace s' = (trace s ++ added)%list
       /\ system_commands added = [c1; c2]
       /\ Forall manager_action added.
Proof.
  intros Hnot Hp Hs Hfound. cbv zeta.
  unfold exec, connect, bind, get. rewrite Hnot. cbn.
  apply String.eqb_neq in Hp, Hs. rewrite Hp, Hs. cbn.
  rewrite run_get_wifi_interface.
  set (wifi_interface := fst (get_wifi_interface env _)).
  assert (Hi : String.eqb wifi_interface EmptyString = false).
  { apply String.eqb_neq. intros H. apply Hfound.
    apply (proj1 (get_wifi_interface_empty env _) H). }
  rewrite Hi. cbv zeta. unfold system. cbn.
  set (c1 := "nmcli con delete " ++ _).
  set (c2 := "nmcli con add type wifi con-name " ++ _).
  destruct (Z.eqb _ 0); unfold log, modify; cbn [fst snd].
  all: match goal with
       | |- context [scan_networks ?e ?st] =>
           change (snd (scan_networks e st)) with (exec (scan_networks e) st);
           destruct (scan_appends e st) as (added & Ht & Ha);
           rewrite Ht, scan_networks_list
       end.
  all: cbn; split; [reflexivity|].
  all: eexists; exists c1, c2; split; [rewrite <- !app_assoc; reflexivity|].
  all: split;
    [ cbn [app]; unfold system_commands at 1; cbn [omap list_omap];
      fold (system_commands added); rewrite (scan_action_silent added Ha); reflexivity
    | repeat (constructor; [exact I|]);
      eapply Forall_impl; [exact Ha | apply scan_action_manager] ].
Qed.

Lemma no_interface_no_command_witness :
  no_interface unavailable (issued (enabled_manager [home]))
  /\ networks_ (exec (disconnect unavailable) (enabled_manager [home]))
     = networks_ (enabled_manager [home]).
Proof.
  split; [exact I|].
  exact (proj1 (proj1 (no_interface_no_command unavailable (enabled_manager [home]) I))).
Defined.

(** X12.  [connect] to the network the list shows as connected runs
    nothing.  Otherwise, once it runs its command (one for the plain path, two
    when a password and a security type are given and an interface is found),
    it scans, and the list afterwards is what that scan gives: the result of
    the command is not consulted. *)
Theorem connect_rescans env s ssid password security_type :
  let s' := exec (connect env ssid password security_type) s in
  (is_connected_to ssid (networks_ s) = true ->
   networks_ s' = networks_ s /\ issued s' = issued s)
  /\ (is_connected_to ssid (networks_ s) = false ->
      password = EmptyString \/ security_type = EmptyString ->
      networks_ s' = scanned env (S (issued s)) (wifi_enabled_ s)
      /\ exists added cmd,
           trace s' = (trace s ++ added)%list /\ system_commands added = [cmd])
  /\ (is_connected_to ssid (networks_ s) = false ->
      password <> EmptyString -> security_type <> EmptyString ->
      ~ no_interface env (issued s) ->
      networks_ s' = scanned env (S (S (S (issued s)))) (wifi_enabled_ s)
      /\ exists added c1 c2,
           trace s' = (trace s ++ added)%list /\ system_commands added = [c1; c2]).
Proof.
  cbv zeta. split; [|split].
  - intros H. rewrite (connect_already env s ssid password security_type H).
    split; reflexivity.
  - intros Hnot Hopen.
    destruct (connect_open env s ssid password security_type Hnot Hopen)
      as (Hn & added & cmd & Ht & Hc & _).
    split; [exact Hn|]. exists added, cmd. split; assumption.
  - intros Hnot Hp Hs Hfound.
    destruct (connect_secured env s ssid password security_type Hnot Hp Hs Hfound)
      as (Hn & added & c1 & c2 & Ht & Hc & _).
    split; [exact Hn|]. exists added, c1, c2. split; assumption.
Qed.

Lemma connect_rescans_witness :
  is_connected_to "Cafe" (networks_ (enabled_manager [home])) = false
  /\ networks_ (exec (connect cafe_in_use "Cafe" EmptyString EmptyString)
                  (enabled_manager [home]))
     = scanned cafe_in_use 1 true.
Proof.
  split; [reflexivity|].
  exact (proj1 (proj1 (proj2 (connect_rescans cafe_in_use (enabled_manager [home])
                                "Cafe" EmptyString EmptyString))
                  eq_refl (or_introl eq_refl))).
Defined.

(** *** The widget's buttons *)




(** *** The order of the list shown *)

(** X15.  The comparator handed to [std::sort] is a strict weak ordering, as
    the algorithm requires: no network comes before itself, the order is
    transitive, and so is being tied.  A connected network comes before every
    network that is not. *)
Theorem network_before_strict_weak_order :
  (forall a, network_before a a = false)
  /\ (forall a b c,
        network_before a b = true -> network_before b c = true ->
        network_before a c = true)
  /\ (forall a b c,
        network_before a b = false -> network_before b a = false ->
        network_before b c = false -> network_before c b = false ->
        network_before a c = false /\ network_before c a = false)
  /\ (forall a b,
        connected a = true -> connected b = false ->
        network_before a b = true /\ network_before b a = false).
Proof.
  unfold network_before. repeat split.
  - intros a. destruct (connected a); cbn; apply Z.ltb_irrefl.
  - intros a b c.
    destruct (connected a), (connected b), (connected c); cbn;
      rewrite ?Z.ltb_lt; try congruence; lia.
  - revert H H0 H1 H2.
    destruct (connected a), (connected b), (connected c); cbn;
      rewrite ?Z.ltb_ge; try congruence; lia.
  - revert H H0 H1 H2.
    destruct (connected a), (connected b), (connected c); cbn;
      rewrite ?Z.ltb_ge; try congruence; lia.
  - rewrite H, H0. reflexivity.
  - rewrite H, H0. reflexivity.
Qed.

Lemma network_before_strict_weak_order_witness :
  network_before home cafe = true /\ network_before cafe home = false.
Proof.
  destruct network_before_strict_weak_order as (_ & _ & _ & H).
  apply (H home cafe); reflexivity.
Defined.

End WifiExtra.

(* ===================================================================== *)
(** ** More about the tab loader *)
(* ===================================================================== *)

Module MainWindowExtra.
Import MainWindow MainWindowProps.
Local Open Scope Z_scope.

Local Arguments insert_page : simpl never.
Local Arguments remove_page : simpl never.
Local Arguments set_current_page : simpl never.
Local Arguments get_nth_page : simpl never.
Local Arguments get_n_pages : simpl never.
Local Arguments update : simpl never.
Local Arguments touch : simpl never.
Local Arguments entry : simpl never.
Local Arguments tab_label : simpl never.
Local Arguments layout : simpl never.
Local Arguments page_of : simpl never.

(** *** The map and its layout *)

Lemma find_in_keys id m v : find id m = Some v -> In id (map fst m).
Proof.
  induction m as [|[k x] rest IH]; cbn; [discriminate|].
  destruct (String.eqb k id) eqn:E.
  - apply String.eqb_eq in E. intros _. left. exact E.
  - intros H. right. apply IH. exact H.
Qed.

Lemma find_none_keys id m : find id m = None -> ~ In id (map fst m).
Proof.
  induction m as [|[k x] rest IH]; cbn; [intros _ []|].
  destruct (String.eqb k id) eqn:E; [discriminate|].
  apply String.eqb_neq in E. intros H [Hk|Hin]; [congruence | exact (IH H Hin)].
Qed.

Lemma layout_replace id v m v0 :
  find id m = Some v0 -> page_num v = page_num v0 ->
  layout (replace id v m) = layout m.
Proof.
  intros Hfind Hpage. unfold layout.
  induction m as [|[k x] rest IH]; cbn in *; [reflexivity|].
  destruct (String.eqb k id) eqn:E; cbn.
  - injection Hfind as <-. rewrite Hpage. reflexivity.
  - rewrite (IH Hfind). reflexivity.
Qed.

Lemma layout_update id f m v0 :
  find id m = Some v0 -> page_num (f v0) = page_num v0 ->
  layout (update id f m) = layout m.
Proof.
  intros Hfind Hpage. unfold update, assign.
  rewrite (entry_found _ _ _ Hfind), Hfind.
  apply (layout_replace id (f v0) m v0 Hfind Hpage).
Qed.

Lemma find_layout id : forall m m',
  layout m' = layout m ->
  option_map page_num (find id m') = option_map page_num (find id m).
Proof.
  induction m as [|[k x] rest IH]; intros [|[k' x'] rest'] H; cbn in *;
    try discriminate; [reflexivity|].
  injection H as Hk Hp Hrest. subst k'.
  destruct (String.eqb k id); cbn; [congruence | apply IH; exact Hrest].
Qed.

Lemma keys_layout m : map fst (layout m) = map fst m.
Proof. unfold layout. rewrite map_map. reflexivity. Qed.

Lemma tab_at_page_layout page : forall m m',
  layout m' = layout m -> tab_at_page page m' = tab_at_page page m.
Proof.
  induction m as [|[k x] rest IH]; intros [|[k' x'] rest'] H; cbn in *;
    try discriminate; [reflexivity|].
  injection H as Hk Hp Hrest. subst k'. rewrite Hp.
  destruct (page_num x =? page); [reflexivity | apply IH; exact Hrest].
Qed.

Lemma tab_at_page_key page m :
  tab_at_page page m = EmptyString \/ In (tab_at_page page m) (map fst m).
Proof.
  induction m as [|[k x] rest IH]; cbn; [left; reflexivity|].
  destruct (page_num x =? page); [right; left; reflexivity|].
  destruct IH as [IH|IH]; [left | right; right]; exact IH.
Qed.

Lemma tab_to_load_found page m id :
  List.NoDup (map fst m) ->
  tab_to_load page m = id -> id <> EmptyString ->
  exists info,
    find id m = Some info /\ page_num info = page
    /\ loaded info = false /\ loading info = false.
Proof.
  intros Hnd Hid Hne. induction m as [|[k x] rest IH]; cbn in *; [congruence|].
  inversion Hnd as [|? ? Hk Hrest]; subst.
  destruct ((page_num x =? page) && negb (loaded x) && negb (loading x)) eqn:E.
  - rewrite String.eqb_refl. exists x.
    apply andb_true_iff in E. destruct E as [E E3].
    apply andb_true_iff in E. destruct E as [E1 E2].
    apply Z.eqb_eq in E1. apply negb_true_iff in E2, E3. auto.
  - destruct (IH Hrest eq_refl) as (info & Hf & Hrest').
    exists info. split; [|exact Hrest'].
    destruct (String.eqb k (tab_to_load page rest)) eqn:Ek; [|exact Hf].
    apply String.eqb_eq in Ek. exfalso. apply Hk. rewrite Ek.
    eapply find_in_keys. exact Hf.
Qed.

(** *** Keeping the layout *)

Lemma page_of_found id w p :
  page_of id w = Some p ->
  exists info, find id (tab_widgets_ w) = Some info /\ page_num info = p.
Proof.
  unfold page_of. destruct (find id (tab_widgets_ w)) as [info|]; cbn; [|discriminate].
  intros H. injection H as <-. exists info. split; reflexivity.
Qed.

Lemma page_of_registered id w :
  page_of id w <> None -> exists info, find id (tab_widgets_ w) = Some info.
Proof.
  unfold page_of. destruct (find id (tab_widgets_ w)) as [info|]; cbn; [|congruence].
  intros _. exists info. reflexivity.
Qed.

Lemma same_layout_refl w : same_layout w w.
Proof. split; reflexivity. Qed.

Lemma same_layout_trans w1 w2 w3 :
  same_layout w1 w2 -> same_layout w2 w3 -> same_layout w1 w3.
Proof. intros [A1 A2] [B1 B2]. split; congruence. Qed.

Lemma same_layout_page_of w w' id :
  same_layout w w' -> page_of id w' = page_of id w.
Proof. intros [H _]. apply find_layout. exact H. Qed.

Lemma keeps_refl w : keeps w w.
Proof.
  split; [apply same_layout_refl|]. exists [].
  split; [symmetry; apply app_nil_r|]. split; intros ? ? ? [].
Qed.

Lemma keeps_trans w1 w2 w3 : keeps w1 w2 -> keeps w2 w3 -> keeps w1 w3.
Proof.
  intros (A & ts1 & At & As & Ac) (B & ts2 & Bt & Bs & Bc).
  split; [eapply same_layout_trans; eauto|].
  exists (ts1 ++ ts2)%list. split; [rewrite Bt, At, app_assoc; reflexivity|].
  split; intros due id page Hin; apply in_app_or in Hin; destruct Hin as [Hin|Hin].
  - eapply As; eauto.
  - rewrite <- (same_layout_page_of w1 w2 id A). eapply Bs; eauto.
  - eapply Ac; eauto.
  - rewrite <- (same_layout_page_of w1 w2 id A). eapply Bc; eauto.
Qed.

(** A step that keeps the tabs, the number of pages and the load timers. *)
Lemma keeps_quiet w w' :
  tab_widgets_ w' = tab_widgets_ w ->
  get_n_pages (notebook_ w') = get_n_pages (notebook_ w) ->
  (exists ts, timers w' = (timers w ++ ts)%list
              /\ List.filter is_load_timer ts = []) ->
  keeps w w'.
Proof.
  intros Ht Hn (ts & Hts & Hnone).
  split; [split; [rewrite Ht; reflexivity | exact Hn]|].
  exists ts. split; [exact Hts|].
  assert (Hno : forall tm, In tm ts -> is_load_timer tm = false).
  { intros tm Hin. destruct (is_load_timer tm) eqn:E; [|reflexivity].
    assert (Hf : In tm (List.filter is_load_timer ts))
      by (apply filter_In; split; assumption).
    rewrite Hnone in Hf. destruct Hf. }
  split; intros due id page Hin; apply Hno in Hin; discriminate.
Qed.

Lemma placed_keeps w w' : placed w -> keeps w w' -> placed w'.
Proof.
  intros (Hnd & Hval & Hs & Hc) (Hl & ts & Hts & Hs' & Hc').
  assert (Hp : forall id, page_of id w' = page_of id w)
    by (intros id; apply same_layout_page_of; exact Hl).
  destruct Hl as [Hlay Hn].
  split; [|split; [|split]].
  - rewrite <- keys_layout, Hlay, keys_layout. exact Hnd.
  - intros id p. rewrite Hp, Hn. apply Hval.
  - intros due id page Hin. rewrite Hp. rewrite Hts in Hin.
    apply in_app_or in Hin. destruct Hin; eauto.
  - intros due id page Hin. rewrite Hp. rewrite Hts in Hin.
    apply in_app_or in Hin. destruct Hin; eauto.
Qed.

Lemma set_current_page_pages p nb : pages (set_current_page p nb) = pages nb.
Proof. unfold set_current_page. destruct (resolve p nb); reflexivity. Qed.

Lemma set_current_page_n_pages p nb :
  get_n_pages (set_current_page p nb) = get_n_pages nb.
Proof. unfold get_n_pages. rewrite set_current_page_pages. reflexivity. Qed.

Lemma keeps_set_current_page p w :
  keeps w (with_notebook (set_current_page p (notebook_ w)) w).
Proof.
  apply keeps_quiet; [reflexivity | apply set_current_page_n_pages|].
  exists []. split; [symmetry; apply app_nil_r | reflexivity].
Qed.

Lemma keeps_exit_animation d p w : keeps w (exit_animation d p w).
Proof.
  destruct (exit_animation_frame d p w)
    as (Hnb & _ & (Htabs & _) & ts & es & Hts & _ & Hts0 & _).
  apply keeps_quiet; [exact Htabs | rewrite Hnb; reflexivity|].
  exists ts. split; assumption.
Qed.

Lemma keeps_entrance_animation target msg w :
  keeps w (entrance_animation target msg w).
Proof.
  apply keeps_quiet; [reflexivity | reflexivity|].
  eexists [_]. split; reflexivity.
Qed.

Lemma keeps_show_loading_indicator env id page w :
  page_of id w = Some page ->
  keeps w (show_loading_indicator env id page w).
Proof.
  intros Hp. destruct (page_of_found id w page Hp) as (info & Hfind & Hpage).
  unfold show_loading_indicator.
  rewrite (touch_found _ _ _ Hfind), with_tabs_same, (entry_found _ _ _ Hfind), Hfind.
  destruct (loaded info || loading info); [apply keeps_refl|].
  destruct ((page <? 0) || (get_n_pages (notebook_ w) <=? page)) eqn:Echk;
    [apply keeps_refl|].
  apply orb_false_iff in Echk. destruct Echk as [E1 E2].
  apply Z.ltb_ge in E1. apply Z.leb_gt in E2.
  cbv zeta. cbn [tab_widgets_ with_tabs notebook_ effect].
  set (m1 := update id (set_loading true) (tab_widgets_ w)).
  assert (Hf1 : find id m1 = Some (set_loading true info)).
  { unfold m1. rewrite find_update_same, (entry_found _ _ _ Hfind). reflexivity. }
  assert (Hl1 : layout m1 = layout (tab_widgets_ w))
    by (apply (layout_update id _ _ info Hfind); reflexivity).
  assert (Hquiet : forall f es,
            page_num (f (set_loading true info)) = page ->
            keeps w (with_tabs (update id f m1)
                       {| notebook_ := notebook_ w; initial_tab_ := initial_tab_ w;
                          prevent_auto_loading_ := prevent_auto_loading_ w;
                          tab_widgets_ := m1; tab_load_errors_ := tab_load_errors_ w;
                          switch_guard := switch_guard w; now := now w;
                          timers := timers w; effects := es |})).
  { intros f es Hf. split.
    - split; [|reflexivity]. cbn.
      rewrite (layout_update id f m1 _ Hf1); [exact Hl1|].
      rewrite Hf. cbn. symmetry. exact Hpage.
    - exists []. split; [symmetry; apply app_nil_r|]. split; intros ? ? ? []. }
  destruct (tab_label id) as [lbl|].
  - destruct (labels env).
    + pose proof (swap_page page LoadingIndicator (notebook_ w) (conj E1 E2)) as [Hq Hn].
      destruct (insert_page LoadingIndicator page (remove_page page (notebook_ w)))
        as [nb q] eqn:Eins.
      cbn [fst snd] in Hq, Hn. subst q.
      cbn [tab_widgets_ with_tabs notebook_ with_notebook].
      assert (Hl2 : layout (update id (set_widget_page LoadingIndicator page) m1)
                    = layout (tab_widgets_ w)).
      { rewrite (layout_update id _ m1 _ Hf1); [exact Hl1|].
        cbn. symmetry. exact Hpage. }
      destruct (current_page nb =? page).
      * split; [split; [exact Hl2 | exact Hn]|].
        exists []. split; [symmetry; apply app_nil_r|]. split; intros ? ? ? [].
      * split; [split; [exact Hl2 | cbn; rewrite set_current_page_n_pages; exact Hn]|].
        exists []. split; [symmetry; apply app_nil_r|]. split; intros ? ? ? [].
    + apply Hquiet. cbn. exact Hpage.
    + apply Hquiet. cbn. exact Hpage.
  - apply Hquiet. cbn. exact Hpage.
Qed.

Lemma keeps_load_tab_content_async id page w :
  page_of id w <> None ->
  keeps w (load_tab_content_async id page w).
Proof.
  intros Hp. destruct (page_of_registered id w Hp) as (info & Hfind).
  unfold load_tab_content_async.
  rewrite (touch_found _ _ _ Hfind), with_tabs_same, (entry_found _ _ _ Hfind), Hfind.
  destruct (loaded info); [apply keeps_refl|].
  assert (H : forall d, keeps w (connect_once (CreateContent id page) d w)).
  { intros d. split; [split; reflexivity|].
    eexists [_]. split; [reflexivity|].
    split; intros due id' page' [Heq|[]]; [discriminate|].
    injection Heq as _ <- _. exact Hp. }
  destruct (String.eqb id "power"); apply H.
Qed.

Lemma keeps_create_tab_content env id page w :
  placed w -> page_of id w <> None ->
  keeps w (create_tab_content env id page w).
Proof.
  intros (_ & Hval & _) Hp. destruct (page_of_registered id w Hp) as (info & Hfind).
  assert (Hpage : 0 <= page_num info < get_n_pages (notebook_ w)).
  { apply (Hval id). unfold page_of. rewrite Hfind. reflexivity. }
  unfold create_tab_content.
  rewrite (touch_found _ _ _ Hfind), with_tabs_same, (entry_found _ _ _ Hfind), Hfind.
  destruct (loaded info); [apply keeps_refl|].
  assert (Hl : forall f, page_num (f info) = page_num info ->
                         layout (update id f (tab_widgets_ w)) = layout (tab_widgets_ w))
    by (intros f Hf; apply (layout_update id f _ info Hfind Hf)).
  destruct (tab_label id) as [lbl|].
  - cbv zeta. destruct (factory env).
    + cbn [tab_widgets_ with_tabs notebook_ effect].
      rewrite (entry_found _ _ _ Hfind).
      pose proof (swap_page (page_num info) (TabContent id) (notebook_ w) Hpage)
        as [Hq Hn].
      destruct (insert_page (TabContent id) (page_num info)
                  (remove_page (page_num info) (notebook_ w))) as [nb q] eqn:Eins.
      cbn [fst snd] in Hq, Hn. subst q.
      cbn [tab_widgets_ with_tabs notebook_ with_notebook effect].
      destruct (current_page nb =? page_num info).
      * split; [split; [apply Hl; reflexivity | exact Hn]|].
        eexists [_]. split; [reflexivity|].
        split; intros due id' page' [Heq|[]]; discriminate.
      * split; [split; [apply Hl; reflexivity
                       | cbn; rewrite set_current_page_n_pages; exact Hn]|].
        eexists [_]. split; [reflexivity|].
        split; intros due id' page' [Heq|[]]; discriminate.
    + split; [split; [apply Hl; reflexivity | reflexivity]|].
      exists []. split; [symmetry; apply app_nil_r|]. split; intros ? ? ? [].
    + split; [split; [apply Hl; reflexivity | reflexivity]|].
      exists []. split; [symmetry; apply app_nil_r|]. split; intros ? ? ? [].
  - split; [split; [apply Hl; reflexivity | reflexivity]|].
    exists []. split; [symmetry; apply app_nil_r|]. split; intros ? ? ? [].
Qed.

Lemma page_of_some id w info :
  find id (tab_widgets_ w) = Some info -> page_of id w = Some (page_num info).
Proof. intros H. unfold page_of. rewrite H. reflexivity. Qed.

Lemma keeps_page_of w w' id : keeps w w' -> page_of id w' = page_of id w.
Proof. intros [H _]. apply same_layout_page_of. exact H. Qed.

(** Showing the spinner and scheduling the construction, as the label
    handler, [switch_to_tab] and the deferred callback do. *)
Lemma keeps_show_and_load env id page page' w :
  page_of id w = Some page ->
  keeps w (load_tab_content_async id page'
             (show_loading_indicator env id page w)).
Proof.
  intros Hp.
  pose proof (keeps_show_loading_indicator env id page w Hp) as H1.
  eapply keeps_trans; [exact H1|].
  apply keeps_load_tab_content_async.
  rewrite (keeps_page_of _ _ id H1), Hp. discriminate.
Qed.

Lemma keeps_switch_to_tab env id w : keeps w (switch_to_tab env id w).
Proof.
  unfold switch_to_tab.
  destruct (find id (tab_widgets_ w)) as [it|] eqn:Hfind; [|apply keeps_refl].
  cbv zeta.
  pose proof (keeps_exit_animation 200 (page_num it) w) as H1.
  set (w1 := exit_animation 200 (page_num it) w) in *.
  pose proof (keeps_set_current_page (page_num it) w1) as H2.
  set (w2 := with_notebook (set_current_page (page_num it) (notebook_ w1)) w1) in *.
  assert (H12 : keeps w w2) by (eapply keeps_trans; eauto).
  eapply keeps_trans; [exact H12|].
  assert (Hp2 : page_of id w2 = Some (page_num it)).
  { rewrite (keeps_page_of _ _ id H12). apply page_of_some. exact Hfind. }
  destruct (negb (loaded it) && negb (loading it)).
  - apply keeps_show_and_load. exact Hp2.
  - destruct (loaded it); [|apply keeps_refl].
    destruct (is_null (widget it)); [apply keeps_refl|].
    apply keeps_entrance_animation.
Qed.

Lemma keeps_on_label_press env id button w :
  keeps w (fst (on_label_press env id button w)).
Proof.
  unfold on_label_press.
  destruct (button =? 1); [|apply keeps_refl].
  destruct (find id (tab_widgets_ w)) as [it|] eqn:Hfind; [|apply keeps_refl].
  cbv zeta.
  pose proof (keeps_set_current_page (page_num it) w) as H1.
  set (w1 := with_notebook (set_current_page (page_num it) (notebook_ w)) w) in *.
  assert (Hp1 : page_of id w1 = Some (page_num it)).
  { rewrite (keeps_page_of _ _ id H1). apply page_of_some. exact Hfind. }
  destruct (negb (loaded it) && negb (loading it)); cbn [fst]; [|exact H1].
  eapply keeps_trans; [exact H1|].
  apply keeps_show_and_load. exact Hp1.
Qed.

Lemma keeps_with_guard b w : keeps w (with_guard b w).
Proof.
  apply keeps_quiet; [reflexivity | reflexivity|].
  exists []. split; [symmetry; apply app_nil_r | reflexivity].
Qed.

Lemma keeps_release w : keeps w (connect_once ReleaseGuard 100 w).
Proof.
  apply keeps_quiet; [reflexivity | reflexivity|].
  eexists [_]. split; reflexivity.
Qed.

Lemma keeps_on_tab_switch env page w :
  placed w -> keeps w (on_tab_switch env page w).
Proof.
  intros Hw. unfold on_tab_switch.
  destruct (switch_guard w); [apply keeps_refl|]. cbv zeta.
  pose proof (keeps_exit_animation 250 page w) as H1.
  set (w1 := exit_animation 250 page w) in *.
  destruct (prevent_auto_loading_ w1
            && negb (String.eqb (tab_at_page page (tab_widgets_ w1)) (initial_tab_ w1)));
    [exact H1|].
  eapply keeps_trans; [exact H1|].
  pose proof (placed_keeps w w1 Hw H1) as Hw1.
  destruct (String.eqb (tab_to_load page (tab_widgets_ w1)) EmptyString) eqn:Eid;
    cbn [negb].
  - destruct (is_null (get_nth_page page (notebook_ w1))); [apply keeps_refl|].
    destruct (negb (String.eqb (tab_at_page page (tab_widgets_ w1)) EmptyString)
              && loaded (entry (tab_at_page page (tab_widgets_ w1)) (tab_widgets_ w1)));
      [apply keeps_entrance_animation | apply keeps_refl].
  - apply String.eqb_neq in Eid.
    destruct Hw1 as (Hnd & _).
    destruct (tab_to_load_found page (tab_widgets_ w1) _ Hnd eq_refl Eid)
      as (info & Hfind & Hpage & _).
    set (id := tab_to_load page (tab_widgets_ w1)) in *.
    pose proof (keeps_with_guard true w1) as H2.
    set (w2 := with_guard true w1) in *.
    assert (Hp2 : page_of id w2 = Some page).
    { rewrite (keeps_page_of _ _ id H2), (page_of_some _ _ _ Hfind), Hpage.
      reflexivity. }
    eapply keeps_trans; [exact H2|].
    eapply keeps_trans; [|apply keeps_release].
    destruct (String.eqb id "power").
    + apply keeps_show_and_load. exact Hp2.
    + split; [split; reflexivity|].
      eexists [_]. split; [reflexivity|].
      split; intros due id' page' [Heq|[]]; [|discriminate].
      injection Heq as _ <- <-. exact Hp2.
Qed.

Lemma keeps_fire env tm w :
  placed w ->
  (forall id page, tm = ShowAndLoad id page -> page_of id w = Some page) ->
  (forall id page, tm = CreateContent id page -> page_of id w <> None) ->
  keeps w (fire env tm w).
Proof.
  intros Hw Hs Hc. destruct tm as [id page|id page| |target|target msg]; cbn [fire].
  - apply keeps_show_and_load. apply (Hs id page eq_refl).
  - apply keeps_create_tab_content; [exact Hw | apply (Hc id page eq_refl)].
  - apply keeps_with_guard.
  - apply keeps_quiet; [reflexivity | reflexivity|].
    exists []. split; [symmetry; apply app_nil_r | reflexivity].
  - apply keeps_quiet; [reflexivity | reflexivity|].
    exists []. split; [symmetry; apply app_nil_r | reflexivity].
Qed.

(** Every event keeps the layout and the order of the bookkeeping. *)
Lemma placed_step env ev w :
  placed w -> placed (step env ev w) /\ same_layout w (step env ev w).
Proof.
  intros Hw.
  assert (Hgen : forall w', keeps w w' -> placed w' /\ same_layout w w').
  { intros w' Hk. split; [eapply placed_keeps; eauto | apply Hk]. }
  destruct ev as [page|id button|id| |dt]; cbn [step].
  - apply Hgen, keeps_on_tab_switch, Hw.
  - apply Hgen, keeps_on_label_press.
  - apply Hgen, keeps_switch_to_tab.
  - destruct (earliest (timers w)) as [[[due tm] others]|] eqn:E;
      [|apply Hgen, keeps_refl].
    destruct (earliest_in _ _ _ E) as [Hin Hsub].
    set (w1 := with_clock (Z.max (now w) due) others w).
    destruct Hw as (Hnd & Hval & Hs & Hc).
    assert (Hw1 : placed w1).
    { split; [exact Hnd|]. split; [exact Hval|].
      split; intros due' id page Hin'; [eapply Hs | eapply Hc]; apply Hsub; exact Hin'. }
    assert (Hk : keeps w1 (fire env tm w1)).
    { apply keeps_fire; [exact Hw1|..].
      - intros id page ->. exact (Hs due id page Hin).
      - intros id page ->. exact (Hc due id page Hin). }
    split; [eapply placed_keeps; eauto|].
    destruct Hk as [Hl _]. exact Hl.
  - split; [|split; reflexivity].
    destruct Hw as (Hnd & Hval & Hs & Hc). split; [exact Hnd|].
    split; [exact Hval|]. split; assumption.
Qed.

Lemma placed_run evs : forall w,
  placed w -> placed (run evs w) /\ same_layout w (run evs w).
Proof.
  induction evs as [|[ev env] rest IH]; intros w Hw; cbn [run].
  - split; [exact Hw | apply same_layout_refl].
  - destruct (placed_step env ev w Hw) as [Hw' Hl].
    destruct (IH _ Hw') as [Hw'' Hl'].
    split; [exact Hw'' | eapply same_layout_trans; eauto].
Qed.

(** *** The window at startup *)

Lemma keys_replace id v m : map fst (replace id v m) = map fst m.
Proof.
  induction m as [|[k x] rest IH]; cbn; [reflexivity|].
  destruct (String.eqb k id); cbn; [reflexivity | rewrite IH; reflexivity].
Qed.

Lemma keys_insert_sorted id v m k :
  In k (map fst (insert_sorted id v m)) <-> k = id \/ In k (map fst m).
Proof.
  induction m as [|[k' x] rest IH]; cbn.
  - split; [intros [H|[]]; left; congruence | intros [H|[]]; left; congruence].
  - destruct (String.ltb id k'); cbn.
    + split; [intros [H|H]; [left; congruence | right; exact H]
             | intros [H|H]; [left; congruence | right; exact H]].
    + rewrite IH. split; [intros [H|[H|H]] | intros [H|[H|H]]]; auto.
Qed.

Lemma nodup_insert_sorted id v m :
  ~ In id (map fst m) -> List.NoDup (map fst m) ->
  List.NoDup (map fst (insert_sorted id v m)).
Proof.
  induction m as [|[k x] rest IH]; cbn; intros Hnot Hnd.
  - constructor; [intros [] | constructor].
  - destruct (String.ltb id k); cbn.
    + constructor; [exact Hnot | exact Hnd].
    + inversion Hnd as [|? ? Hk Hrest]; subst. constructor.
      * rewrite keys_insert_sorted. intros [H|H]; [|exact (Hk H)].
        apply Hnot. left. exact H.
      * apply IH; [|exact Hrest]. intros H. apply Hnot. right. exact H.
Qed.

Lemma nodup_assign id v m :
  List.NoDup (map fst m) -> List.NoDup (map fst (assign id v m)).
Proof.
  intros Hnd. unfold assign. destruct (find id m) eqn:E.
  - rewrite keys_replace. exact Hnd.
  - apply nodup_insert_sorted; [apply find_none_keys; exact E | exact Hnd].
Qed.

Lemma append_page_spec c nb :
  snd (append_page c nb) = get_n_pages nb
  /\ get_n_pages (fst (append_page c nb)) = get_n_pages nb + 1.
Proof.
  unfold append_page, insert_page, get_n_pages. cbn.
  split; [reflexivity|].
  rewrite length_app. cbn. rewrite length_take, length_drop. lia.
Qed.

Lemma page_of_add_tab id id' w :
  page_of id' (add_tab id w)
  = if String.eqb id id' then Some (get_n_pages (notebook_ w)) else page_of id' w.
Proof.
  unfold add_tab. pose proof (append_page_spec PlaceholderBox (notebook_ w)) as [Hq _].
  destruct (append_page PlaceholderBox (notebook_ w)) as [nb q]. cbn [snd] in Hq.
  subst q. unfold page_of. cbn [tab_widgets_ with_tabs with_notebook].
  destruct (String.eqb id id') eqn:E.
  - apply String.eqb_eq in E. subst id'. rewrite find_assign_same. reflexivity.
  - apply String.eqb_neq in E. rewrite find_assign_other by congruence. reflexivity.
Qed.

Lemma placed_add_tab id w :
  tab_label id <> None ->
  placed w /\ labelled w /\ timers w = [] ->
  placed (add_tab id w) /\ labelled (add_tab id w) /\ timers (add_tab id w) = [].
Proof.
  intros Hlabel ((Hnd & Hval & _) & Hlab & Htim).
  assert (Hn : get_n_pages (notebook_ (add_tab id w)) = get_n_pages (notebook_ w) + 1
               /\ timers (add_tab id w) = timers w
               /\ List.NoDup (map fst (tab_widgets_ (add_tab id w)))).
  { unfold add_tab.
    pose proof (append_page_spec PlaceholderBox (notebook_ w)) as [_ Hn].
    destruct (append_page PlaceholderBox (notebook_ w)) as [nb q]. cbn [fst] in Hn.
    cbn [tab_widgets_ with_tabs with_notebook notebook_ timers].
    split; [exact Hn|]. split; [reflexivity | apply nodup_assign; exact Hnd]. }
  destruct Hn as (Hn & Ht & Hnd').
  assert (H0 : 0 <= get_n_pages (notebook_ w)) by (unfold get_n_pages; lia).
  split; [|split].
  - split; [exact Hnd'|]. split; [|rewrite Ht, Htim; split; intros ? ? ? []].
    intros id' p. rewrite page_of_add_tab, Hn.
    destruct (String.eqb id id').
    + intros H. injection H as <-. lia.
    + intros H. apply Hval in H. lia.
  - intros id'. rewrite page_of_add_tab.
    destruct (String.eqb id id') eqn:E; [|apply Hlab].
    apply String.eqb_eq in E. subst id'. intros _. exact Hlabel.
  - rewrite Ht. exact Htim.
Qed.

Lemma placed_create_tabs order enabled : forall w,
  placed w /\ labelled w /\ timers w = [] ->
  placed (create_tabs order enabled w)
  /\ labelled (create_tabs order enabled w)
  /\ timers (create_tabs order enabled w) = [].
Proof.
  induction order as [|id rest IH]; intros w Hw; [exact Hw|].
  cbn [create_tabs]. apply IH.
  destruct (enabled id); [|exact Hw].
  destruct (tab_label id) eqn:E; [|exact Hw].
  apply placed_add_tab; [congruence | exact Hw].
Qed.

Lemma placed_empty_window initial_tab :
  placed (empty_window initial_tab)
  /\ labelled (empty_window initial_tab)
  /\ timers (empty_window initial_tab) = [].
Proof.
  split; [|split; [|reflexivity]].
  - split; [constructor|]. split; [intros id p H; discriminate|].
    split; intros ? ? ? [].
  - intros id H. exfalso. apply H. reflexivity.
Qed.

Lemma labelled_keeps w w' : labelled w -> keeps w w' -> labelled w'.
Proof.
  intros Hlab Hk id. rewrite (keeps_page_of _ _ id Hk). apply Hlab.
Qed.

Lemma new_window_unfold env initial_tab order enabled :
  new_window env initial_tab order enabled
  = let chosen := negb (String.eqb initial_tab EmptyString) in
    let w := create_tabs order
               (fun id => (chosen && String.eqb id initial_tab) || enabled id)
               (empty_window initial_tab) in
    if chosen then switch_to_tab env initial_tab w else w.
Proof. reflexivity. Qed.

Lemma placed_new_window env initial_tab order enabled :
  placed (new_window env initial_tab order enabled)
  /\ labelled (new_window env initial_tab order enabled).
Proof.
  rewrite new_window_unfold. cbv zeta.
  set (en := fun id => _).
  destruct (placed_create_tabs order en (empty_window initial_tab)
              (placed_empty_window initial_tab)) as (Hp & Hl & _).
  destruct (negb (String.eqb initial_tab EmptyString)); [|split; assumption].
  pose proof (keeps_switch_to_tab env initial_tab (create_tabs order en (empty_window initial_tab)))
    as Hk.
  split; [eapply placed_keeps; eauto | eapply labelled_keeps; eauto].
Qed.

(** *** A loaded tab stays as it is *)

Lemma spares_refl id w : spares id w w.
Proof. split; reflexivity. Qed.

Lemma spares_trans id w1 w2 w3 : spares id w1 w2 -> spares id w2 w3 -> spares id w1 w3.
Proof. intros [A1 A2] [B1 B2]. split; congruence. Qed.

Lemma spares_cosmetic id w w' : cosmetic w w' -> spares id w w'.
Proof.
  intros Hc. split; [destruct Hc as (-> & _); reflexivity|].
  apply (cosmetic_counts w w' Hc id).
Qed.

Lemma loaded_registered id w :
  loaded (entry id (tab_widgets_ w)) = true ->
  exists info, find id (tab_widgets_ w) = Some info /\ loaded info = true.
Proof.
  unfold entry. destruct (find id (tab_widgets_ w)) as [info|]; [|discriminate].
  intros H. exists info. split; [reflexivity | exact H].
Qed.

Lemma loaded_slot id w :
  loaded (entry id (tab_widgets_ w)) = true -> slot_state id w = Loaded.
Proof. intros H. unfold slot_state. rewrite H. reflexivity. Qed.

Lemma load_tab_content_async_guard id p w :
  loaded (entry id (tab_widgets_ w)) = true -> load_tab_content_async id p w = w.
Proof.
  intros H. destruct (loaded_registered id w H) as (info & Hfind & Hl).
  unfold load_tab_content_async.
  rewrite (touch_found _ _ _ Hfind), with_tabs_same, (entry_found _ _ _ Hfind), Hl.
  reflexivity.
Qed.

Lemma show_loading_indicator_effects env id p w :
  List.filter is_any_construct (effects (show_loading_indicator env id p w))
  = List.filter is_any_construct (effects w).
Proof.
  unfold show_loading_indicator. cbv zeta.
  repeat break_match; cbn [effects with_tabs with_notebook effect];
    rewrite ?List.filter_app; cbn; rewrite ?app_nil_r; reflexivity.
Qed.

Lemma load_tab_content_async_effects id p w :
  effects (load_tab_content_async id p w) = effects w.
Proof. unfold load_tab_content_async. cbv zeta. repeat break_match; reflexivity. Qed.

Lemma create_tab_content_effects env id' p w id :
  id <> id' ->
  constructions id (create_tab_content env id' p w) = constructions id w.
Proof.
  intros Hne. apply String.eqb_neq in Hne.
  unfold constructions, create_tab_content. cbv zeta.
  repeat break_match;
    cbn [effects with_tabs with_notebook with_errors effect connect_once with_clock];
    rewrite ?List.filter_app, ?length_app; cbn;
    rewrite ?(String.eqb_sym id' id), ?Hne; cbn; lia.
Qed.

Lemma constructions_any id w w' :
  List.filter is_any_construct (effects w') = List.filter is_any_construct (effects w) ->
  constructions id w' = constructions id w.
Proof.
  intros H. unfold constructions.
  rewrite (filter_construct_any id (effects w')), H, <- filter_construct_any.
  reflexivity.
Qed.

Lemma spares_show_and_load env id id' page page' w :
  loaded (entry id (tab_widgets_ w)) = true ->
  spares id w (load_tab_content_async id' page'
                 (show_loading_indicator env id' page w)).
Proof.
  intros Hl. destruct (String.eqb id id') eqn:E.
  - apply String.eqb_eq in E. subst id'.
    rewrite (show_loading_indicator_guard env id page w)
      by (right; apply loaded_slot; exact Hl).
    rewrite (load_tab_content_async_guard id page' w Hl). apply spares_refl.
  - apply String.eqb_neq in E.
    pose proof (touches_only_show_loading_indicator env id' page w) as H1.
    set (w1 := show_loading_indicator env id' page w) in *.
    pose proof (touches_only_load_tab_content_async id' page' w1) as H2.
    destruct H1 as (H1 & _). destruct H2 as (H2 & _).
    split.
    + rewrite (proj1 (H2 id E)), (proj1 (H1 id E)). reflexivity.
    + apply constructions_any. rewrite load_tab_content_async_effects.
      apply show_loading_indicator_effects.
Qed.

Lemma spares_create_tab_content env id id' page w :
  loaded (entry id (tab_widgets_ w)) = true ->
  spares id w (create_tab_content env id' page w).
Proof.
  intros Hl. destruct (String.eqb id id') eqn:E.
  - apply String.eqb_eq in E. subst id'.
    rewrite (create_tab_content_guard env id page w) by (apply loaded_slot; exact Hl).
    apply spares_refl.
  - apply String.eqb_neq in E.
    destruct (touches_only_create_tab_content env id' page w) as (H1 & _).
    split; [exact (proj1 (H1 id E)) | apply create_tab_content_effects; exact E].
Qed.

Lemma spares_loaded id w w' :
  loaded (entry id (tab_widgets_ w)) = true -> spares id w w' ->
  loaded (entry id (tab_widgets_ w')) = true.
Proof. intros Hl [He _]. rewrite He. exact Hl. Qed.

Lemma spares_switch_to_tab env id id' w :
  loaded (entry id (tab_widgets_ w)) = true ->
  spares id w (switch_to_tab env id' w).
Proof.
  intros Hl. unfold switch_to_tab.
  destruct (find id' (tab_widgets_ w)) as [it|] eqn:Hfind; [|apply spares_refl].
  cbv zeta.
  destruct (exit_animation_frame 200 (page_num it) w) as (_ & _ & Hc1 & _).
  set (w1 := exit_animation 200 (page_num it) w) in *.
  pose proof (with_notebook_cosmetic (set_current_page (page_num it) (notebook_ w1)) w1)
    as Hc2.
  set (w2 := with_notebook _ w1) in *.
  assert (H12 : spares id w w2).
  { eapply spares_trans; apply spares_cosmetic; eassumption. }
  eapply spares_trans; [exact H12|].
  pose proof (spares_loaded id w w2 Hl H12) as Hl2.
  destruct (negb (loaded it) && negb (loading it)).
  - apply spares_show_and_load. exact Hl2.
  - destruct (loaded it); [|apply spares_refl].
    destruct (is_null (widget it)); [apply spares_refl|].
    apply spares_cosmetic, entrance_animation_cosmetic.
Qed.

Lemma spares_on_label_press env id id' button w :
  loaded (entry id (tab_widgets_ w)) = true ->
  spares id w (fst (on_label_press env id' button w)).
Proof.
  intros Hl. unfold on_label_press.
  destruct (button =? 1); [|apply spares_refl].
  destruct (find id' (tab_widgets_ w)) as [it|]; [|apply spares_refl].
  cbv zeta.
  pose proof (with_notebook_cosmetic (set_current_page (page_num it) (notebook_ w)) w)
    as Hc.
  set (w1 := with_notebook _ w) in *.
  pose proof (spares_cosmetic id w w1 Hc) as H1.
  destruct (negb (loaded it) && negb (loading it)); cbn [fst]; [|exact H1].
  eapply spares_trans; [exact H1|].
  apply spares_show_and_load. apply (spares_loaded id w w1 Hl H1).
Qed.

Lemma spares_on_tab_switch env id page w :
  loaded (entry id (tab_widgets_ w)) = true ->
  spares id w (on_tab_switch env page w).
Proof.
  intros Hl. unfold on_tab_switch.
  destruct (switch_guard w); [apply spares_refl|]. cbv zeta.
  destruct (exit_animation_frame 250 page w) as (_ & _ & Hc1 & _).
  set (w1 := exit_animation 250 page w) in *.
  pose proof (spares_cosmetic id w w1 Hc1) as H1.
  destruct (prevent_auto_loading_ w1 && _); [exact H1|].
  eapply spares_trans; [exact H1|].
  pose proof (spares_loaded id w w1 Hl H1) as Hl1.
  destruct (negb (String.eqb (tab_to_load page (tab_widgets_ w1)) EmptyString)).
  - set (id' := tab_to_load page (tab_widgets_ w1)).
    assert (Hg : spares id w1 (with_guard true w1)) by (split; reflexivity).
    assert (Hr : forall w', spares id w' (connect_once ReleaseGuard 100 w'))
      by (intros w'; split; reflexivity).
    eapply spares_trans; [exact Hg|].
    eapply spares_trans; [|apply Hr].
    destruct (String.eqb id' "power").
    + apply spares_show_and_load. exact Hl1.
    + split; reflexivity.
  - destruct (is_null (get_nth_page page (notebook_ w1))); [apply spares_refl|].
    destruct (negb _ && _); [|apply spares_refl].
    apply spares_cosmetic, entrance_animation_cosmetic.
Qed.

Lemma spares_fire env id tm w :
  loaded (entry id (tab_widgets_ w)) = true -> spares id w (fire env tm w).
Proof.
  intros Hl. destruct tm as [id' page|id' page| |target|target msg]; cbn [fire].
  - apply spares_show_and_load. exact Hl.
  - apply spares_create_tab_content. exact Hl.
  - split; reflexivity.
  - split; [reflexivity|]. unfold constructions. cbn.
    rewrite List.filter_app, length_app. cbn. lia.
  - split; [reflexivity|]. unfold constructions. cbn.
    rewrite !List.filter_app, !length_app. cbn. lia.
Qed.

Lemma spares_step env ev id w :
  loaded (entry id (tab_widgets_ w)) = true -> spares id w (step env ev w).
Proof.
  intros Hl. destruct ev as [page|id' button|id'| |dt]; cbn [step].
  - apply spares_on_tab_switch. exact Hl.
  - apply spares_on_label_press. exact Hl.
  - apply spares_switch_to_tab. exact Hl.
  - destruct (earliest (timers w)) as [[[due tm] others]|]; [|apply spares_refl].
    apply (spares_fire env id tm (with_clock (Z.max (now w) due) others w)). exact Hl.
  - split; reflexivity.
Qed.

(** X17.  A loaded tab is final: once [loaded] is set for a tab, no event
    changes its entry (widget, page, flags) and its constructor is never
    called again. *)
Theorem loaded_is_final id evs : forall w,
  loaded (entry id (tab_widgets_ w)) = true ->
  entry id (tab_widgets_ (run evs w)) = entry id (tab_widgets_ w)
  /\ constructions id (run evs w) = constructions id w
  /\ slot_state id (run evs w) = Loaded.
Proof.
  induction evs as [|[ev env] rest IH]; intros w Hl; cbn [run].
  - split; [reflexivity|]. split; [reflexivity | apply loaded_slot; exact Hl].
  - pose proof (spares_step env ev id w Hl) as Hs.
    destruct (IH _ (spares_loaded id w _ Hl Hs)) as (He & Hc & Hslot).
    destruct Hs as [He' Hc'].
    split; [congruence|]. split; [congruence | exact Hslot].
Qed.

Lemma loaded_is_final_witness :
  loaded (entry "wifi" (tab_widgets_ loaded_wifi_window)) = true
  /\ constructions "wifi" (run click_on_wifi loaded_wifi_window)
     = constructions "wifi" loaded_wifi_window.
Proof.
  split; [reflexivity|].
  exact (proj1 (proj2 (loaded_is_final "wifi" click_on_wifi loaded_wifi_window eq_refl))).
Defined.

(** *** Nothing is taken back *)

Lemma grows_refl w : grows w w.
Proof.
  split; [lia|]. split; [exists []; symmetry; apply app_nil_r|].
  split; [eauto | reflexivity].
Qed.

Lemma grows_trans w1 w2 w3 : grows w1 w2 -> grows w2 w3 -> grows w1 w3.
Proof.
  intros (A1 & (es1 & A2) & A3 & A4) (B1 & (es2 & B2) & B3 & B4).
  split; [lia|]. split; [|split; [|congruence]].
  - exists (es1 ++ es2)%list. rewrite B2, A2, app_assoc. reflexivity.
  - intros id e H. destruct (A3 id e H) as (e' & H'). eauto.
Qed.

(** A step that leaves the clock, the errors and the policy and adds
    effects. *)
Lemma grows_effects w w' es :
  now w' = now w -> tab_load_errors_ w' = tab_load_errors_ w ->
  policy w' = policy w -> effects w' = (effects w ++ es)%list ->
  grows w w'.
Proof.
  intros Hn He Hp Hf. split; [lia|]. split; [eauto|].
  split; [|exact Hp]. intros id e H. rewrite He. eauto.
Qed.

Lemma grows_quiet w w' :
  now w' = now w -> tab_load_errors_ w' = tab_load_errors_ w ->
  policy w' = policy w -> effects w' = effects w -> grows w w'.
Proof.
  intros Hn He Hp Hf. apply (grows_effects w w' []); try assumption.
  rewrite app_nil_r. exact Hf.
Qed.

Lemma grows_show_loading_indicator env id p w :
  grows w (show_loading_indicator env id p w).
Proof.
  unfold show_loading_indicator. cbv zeta.
  repeat break_match; try apply grows_refl;
    eapply grows_effects; try reflexivity;
    cbn [effects with_tabs with_notebook effect];
    rewrite <- ?app_assoc; try reflexivity; symmetry; apply app_nil_r.
Qed.

Lemma grows_load_tab_content_async id p w :
  grows w (load_tab_content_async id p w).
Proof.
  unfold load_tab_content_async. cbv zeta.
  repeat break_match; try apply grows_refl;
    eapply (grows_effects _ _ []); try reflexivity; symmetry; apply app_nil_r.
Qed.

Lemma grows_create_tab_content env id p w :
  grows w (create_tab_content env id p w).
Proof.
  assert (Hins : forall (m : gmap string string) what id0 e,
            m !! id0 = Some e -> exists e', <[id := what]> m !! id0 = Some e').
  { intros m what id0 e H. destruct (decide (id = id0)) as [->|Hne].
    - rewrite lookup_insert_eq. eauto.
    - rewrite lookup_insert_ne by exact Hne. eauto. }
  unfold create_tab_content. cbv zeta.
  repeat break_match; try apply grows_refl;
    try (apply grows_quiet; reflexivity);
    try (eapply grows_effects; try reflexivity;
         cbn [effects with_tabs with_notebook with_errors effect connect_once with_clock];
         rewrite <- ?app_assoc; reflexivity);
    (split; [cbn; lia|];
     split; [first [ eexists; cbn [effects with_tabs with_notebook with_errors effect];
                             rewrite <- ?app_assoc; reflexivity
                   | exists []; symmetry; apply app_nil_r]|];
     split; [apply Hins | reflexivity]).
Qed.

Lemma grows_exit_animation d p w : grows w (exit_animation d p w).
Proof.
  destruct (exit_animation_frame d p w)
    as (_ & Hn & (_ & He & _) & ts & es & _ & Hes & _).
  eapply grows_effects; eauto. apply policy_exit_animation.
Qed.

Lemma grows_entrance_animation target msg w :
  grows w (entrance_animation target msg w).
Proof.
  eapply grows_effects; try reflexivity.
  unfold entrance_animation. cbn. rewrite <- app_assoc. reflexivity.
Qed.

Lemma grows_show_and_load env id page page' w :
  grows w (load_tab_content_async id page' (show_loading_indicator env id page w)).
Proof.
  eapply grows_trans;
    [apply grows_show_loading_indicator | apply grows_load_tab_content_async].
Qed.

Lemma grows_switch_to_tab env id w : grows w (switch_to_tab env id w).
Proof.
  unfold switch_to_tab. destruct (find id (tab_widgets_ w)) as [it|]; [|apply grows_refl].
  cbv zeta.
  pose proof (grows_exit_animation 200 (page_num it) w) as H1.
  set (w1 := exit_animation 200 (page_num it) w) in *.
  set (w2 := with_notebook _ w1).
  assert (H2 : grows w1 w2) by (apply grows_quiet; reflexivity).
  eapply grows_trans; [eapply grows_trans; [exact H1 | exact H2]|].
  repeat break_match; try apply grows_refl.
  - apply grows_show_and_load.
  - apply grows_entrance_animation.
Qed.

Lemma grows_on_label_press env id button w :
  grows w (fst (on_label_press env id button w)).
Proof.
  unfold on_label_press. cbv zeta.
  destruct (button =? 1); [|apply grows_refl].
  destruct (find id (tab_widgets_ w)) as [it|]; [|apply grows_refl].
  set (w1 := with_notebook _ w).
  assert (H1 : grows w w1) by (apply grows_quiet; reflexivity).
  destruct (negb (loaded it) && negb (loading it)); cbn [fst]; [|exact H1].
  eapply grows_trans; [exact H1 | apply grows_show_and_load].
Qed.

Lemma grows_on_tab_switch env page w : grows w (on_tab_switch env page w).
Proof.
  unfold on_tab_switch. destruct (switch_guard w); [apply grows_refl|]. cbv zeta.
  pose proof (grows_exit_animation 250 page w) as H1.
  set (w1 := exit_animation 250 page w) in *.
  destruct (prevent_auto_loading_ w1 && _); [exact H1|].
  eapply grows_trans; [exact H1|].
  destruct (negb (String.eqb (tab_to_load page (tab_widgets_ w1)) EmptyString)).
  - set (w2 := with_guard true w1).
    assert (H2 : grows w1 w2) by (apply grows_quiet; reflexivity).
    assert (Hr : forall w', grows w' (connect_once ReleaseGuard 100 w'))
      by (intros w'; apply grows_quiet; reflexivity).
    eapply grows_trans; [exact H2|].
    eapply grows_trans; [|apply Hr].
    destruct (String.eqb _ "power"); [apply grows_show_and_load|].
    apply grows_quiet; reflexivity.
  - destruct (is_null _); [apply grows_refl|].
    destruct (negb _ && _); [apply grows_entrance_animation | apply grows_refl].
Qed.

Lemma grows_fire env tm w : grows w (fire env tm w).
Proof.
  destruct tm as [id page|id page| |target|target msg]; cbn [fire].
  - apply grows_show_and_load.
  - apply grows_create_tab_content.
  - apply grows_quiet; reflexivity.
  - eapply grows_effects; reflexivity.
  - eapply grows_effects; try reflexivity. cbn. rewrite <- !app_assoc. reflexivity.
Qed.

Lemma grows_step env ev w : grows w (step env ev w).
Proof.
  destruct ev as [page|id button|id| |dt]; cbn [step].
  - apply grows_on_tab_switch.
  - apply grows_on_label_press.
  - apply grows_switch_to_tab.
  - destruct (earliest (timers w)) as [[[due tm] others]|]; [|apply grows_refl].
    eapply grows_trans; [|apply grows_fire].
    split; [cbn; lia|]. split; [exists []; symmetry; apply app_nil_r|].
    split; [eauto | reflexivity].
  - split; [cbn; lia|]. split; [exists []; symmetry; apply app_nil_r|].
    split; [eauto | reflexivity].
Qed.

(** X18.  Nothing is taken back along a run: the clock never goes back,
    effects are only added, a tab for which an error was recorded keeps an
    error for ever, also after it has loaded, and the startup policy never
    changes. *)
Theorem nothing_is_taken_back evs : forall w,
  now w <= now (run evs w)
  /\ (exists es, effects (run evs w) = (effects w ++ es)%list)
  /\ (forall id e, tab_load_errors_ w !! id = Some e ->
                   exists e', tab_load_errors_ (run evs w) !! id = Some e')
  /\ prevent_auto_loading_ (run evs w) = prevent_auto_loading_ w
  /\ initial_tab_ (run evs w) = initial_tab_ w.
Proof.
  assert (H : forall w, grows w (run evs w)).
  { induction evs as [|[ev env] rest IH]; intros w; cbn [run]; [apply grows_refl|].
    eapply grows_trans; [apply grows_step | apply IH]. }
  intros w. destruct (H w) as (H1 & H2 & H3 & H4).
  unfold policy in H4. injection H4 as H4 H5. auto.
Qed.

Lemma nothing_is_taken_back_witness :
  tab_load_errors_ (run (firstn 5 click_on_wifi) plain_window) !! "wifi"
  = Some "no adapter"
  /\ exists e',
       tab_load_errors_ (run [(Tick, quiet)] (run (firstn 5 click_on_wifi) plain_window))
         !! "wifi" = Some e'.
Proof.
  assert (H : tab_load_errors_ (run (firstn 5 click_on_wifi) plain_window) !! "wifi"
              = Some "no adapter") by (vm_compute; reflexivity).
  split; [exact H|].
  destruct (nothing_is_taken_back [(Tick, quiet)]
              (run (firstn 5 click_on_wifi) plain_window)) as (_ & _ & Herr & _).
  exact (Herr "wifi" "no adapter" H).
Defined.

(** *** The outcome of a construction *)

(** The pages after a page was taken out and a widget put in at the same
    position. *)
Lemma swap_page_pages p content nb :
  0 <= p < get_n_pages nb ->
  pages (fst (insert_page content p (remove_page p nb)))
  = (firstn (Z.to_nat p) (pages nb) ++ content :: skipn (S (Z.to_nat p)) (pages nb))%list.
Proof.
  intros H. unfold remove_page. rewrite resolve_valid by assumption.
  unfold insert_page, get_n_pages in *. cbn [pages fst].
  set (k := Z.to_nat p) in *.
  assert (Hk : (k < length (pages nb))%nat) by lia.
  assert (Hlen : length (firstn k (pages nb) ++ skipn (S k) (pages nb))
                 = (length (pages nb) - 1)%nat).
  { rewrite length_app, length_take, length_drop. lia. }
  rewrite Hlen.
  assert (Hpos : ((p <? 0) || (Z.of_nat (length (pages nb) - 1) <? p)) = false).
  { apply orb_false_iff. split; apply Z.ltb_ge; lia. }
  rewrite Hpos. fold k.
  assert (Hk' : length (firstn k (pages nb)) = k) by (rewrite length_take; lia).
  symmetry in Hk'.
  rewrite (take_app_length' _ _ _ Hk'), (drop_app_length' _ _ _ Hk'). reflexivity.
Qed.

Lemma get_nth_page_valid p nb :
  0 <= p < get_n_pages nb -> get_nth_page p nb = nth (Z.to_nat p) (pages nb) NullWidget.
Proof. intros H. unfold get_nth_page. rewrite resolve_valid by exact H. reflexivity. Qed.

Lemma swap_page_nth p content nb p' :
  0 <= p < get_n_pages nb -> 0 <= p' < get_n_pages nb ->
  get_nth_page p' (fst (insert_page content p (remove_page p nb)))
  = if p' =? p then content else get_nth_page p' nb.
Proof.
  intros Hp Hp'.
  destruct (swap_page p content nb Hp) as [_ Hn].
  rewrite !get_nth_page_valid by (rewrite ?Hn; assumption).
  rewrite (swap_page_pages p content nb Hp).
  unfold get_n_pages in *.
  set (k := Z.to_nat p). set (k' := Z.to_nat p'). set (l := pages nb) in *.
  assert (Hk : length (firstn k l) = k) by (rewrite length_take; lia).
  destruct (p' =? p) eqn:E.
  - apply Z.eqb_eq in E. assert (k' = k) as -> by (unfold k, k'; congruence).
    rewrite <- Hk at 1. apply nth_middle.
  - apply Z.eqb_neq in E. assert (Hne : k' <> k) by (unfold k, k'; lia).
    destruct (Nat.lt_ge_cases k' k) as [Hlt|Hge].
    + rewrite app_nth1 by lia. rewrite nth_firstn.
      apply Nat.ltb_lt in Hlt. rewrite Hlt. reflexivity.
    + rewrite app_nth2 by lia. rewrite Hk.
      destruct (k' - k)%nat as [|d] eqn:Ed; [lia|].
      cbn [nth]. rewrite nth_skipn. f_equal. lia.
Qed.

Lemma get_nth_page_set_current p q nb :
  get_nth_page p (set_current_page q nb) = get_nth_page p nb.
Proof.
  unfold get_nth_page, resolve, get_n_pages.
  rewrite set_current_page_pages. reflexivity.
Qed.

(** [create_tab_content] on a registered tab that is not loaded and is one
    of the five panels, by outcome of the constructor. *)
Lemma create_tab_content_returns env id page info w :
  find id (tab_widgets_ w) = Some info -> loaded info = false ->
  tab_label id <> None ->
  0 <= page_num info < get_n_pages (notebook_ w) ->
  factory env = Returns ->
  let w' := create_tab_content env id page w in
  tab_widgets_ w'
  = update id (set_content (TabContent id) (page_num info)) (tab_widgets_ w)
  /\ pages (notebook_ w')
     = pages (fst (insert_page (TabContent id) (page_num info)
                     (remove_page (page_num info) (notebook_ w))))
  /\ current_page (notebook_ w') = page_num info
  /\ tab_load_errors_ w' = tab_load_errors_ w
  /\ switch_guard w' = switch_guard w
  /\ now w' = now w
  /\ timers w'
     = (timers w ++ [(now w + 50,
                      EndAnimateIn (TabContent id) "Starting tab animation")])%list
  /\ effects w'
     = (effects w
          ++ [Construct id; AddClass (TabContent id) "tab-content";
              SetOpacity (TabContent id) 0; AddClass (TabContent id) "animate-in";
              EmitLoaded id;
              Cout ("Tab " ++ id ++ " loaded and selected successfully")])%list.
Proof.
  intros Hfind Hloaded Hknown Hpage Hok. cbv zeta.
  unfold create_tab_content.
  rewrite (touch_found _ _ _ Hfind), with_tabs_same, (entry_found _ _ _ Hfind),
    Hloaded, Hfind.
  destruct (tab_label id) as [lbl|]; [|congruence].
  rewrite Hok. cbv zeta. cbn [tab_widgets_ with_tabs notebook_ effect].
  rewrite (entry_found _ _ _ Hfind).
  pose proof (swap_page (page_num info) (TabContent id) (notebook_ w) Hpage) as [Hq Hn].
  destruct (insert_page (TabContent id) (page_num info)
              (remove_page (page_num info) (notebook_ w))) as [nb q] eqn:Eins.
  cbn [fst snd] in Hq, Hn |- *. subst q.
  cbn [tab_widgets_ with_tabs notebook_ with_notebook effect].
  destruct (current_page nb =? page_num info) eqn:Ecur.
  - apply Z.eqb_eq in Ecur. cbn. rewrite <- !app_assoc.
    repeat split; assumption || reflexivity.
  - cbn. rewrite set_current_page_valid by lia. cbn. rewrite <- !app_assoc.
    repeat split; reflexivity.
Qed.

Lemma create_tab_content_throws env id page info w :
  find id (tab_widgets_ w) = Some info -> loaded info = false ->
  tab_label id <> None ->
  factory env <> Returns ->
  let w' := create_tab_content env id page w in
  tab_widgets_ w' = update id (set_loading false) (tab_widgets_ w)
  /\ tab_load_errors_ w'
     = <[id := match factory env with
               | Throws what => what
               | _ => "Unknown error"
               end]> (tab_load_errors_ w)
  /\ notebook_ w' = notebook_ w
  /\ timers w' = timers w
  /\ exists msg, effects w' = (effects w ++ [Construct id; Cerr msg])%list.
Proof.
  intros Hfind Hloaded Hknown Hfail. cbv zeta.
  unfold create_tab_content.
  rewrite (touch_found _ _ _ Hfind), with_tabs_same, (entry_found _ _ _ Hfind),
    Hloaded, Hfind.
  destruct (tab_label id) as [lbl|]; [|congruence].
  cbv zeta. destruct (factory env); [congruence|..];
    cbn; rewrite <- !app_assoc; repeat split; eexists; reflexivity.
Qed.

(** *** The error map is only written *)

Ltac window_fields :=
  cbn [notebook_ initial_tab_ prevent_auto_loading_ tab_widgets_ tab_load_errors_
       switch_guard now timers effects
       with_notebook with_tabs with_errors with_guard with_clock effect connect_once].

Ltac same_up_to_errors :=
  cbv zeta; window_fields;
  repeat (break_match; window_fields);
  eexists; reflexivity.

Lemma errors_show_loading_indicator env id p e w :
  exists e', show_loading_indicator env id p (with_errors e w)
             = with_errors e' (show_loading_indicator env id p w).
Proof. unfold show_loading_indicator. same_up_to_errors. Qed.

Lemma errors_load_tab_content_async id p e w :
  exists e', load_tab_content_async id p (with_errors e w)
             = with_errors e' (load_tab_content_async id p w).
Proof. unfold load_tab_content_async. same_up_to_errors. Qed.

Lemma errors_create_tab_content env id p e w :
  exists e', create_tab_content env id p (with_errors e w)
             = with_errors e' (create_tab_content env id p w).
Proof. unfold create_tab_content. same_up_to_errors. Qed.

Lemma errors_exit_animation d p e w :
  exit_animation d p (with_errors e w) = with_errors e (exit_animation d p w).
Proof.
  unfold exit_animation. cbv zeta. window_fields.
  repeat (break_match; window_fields); reflexivity.
Qed.

Lemma errors_show_and_load env id page page' e w :
  exists e', load_tab_content_async id page'
               (show_loading_indicator env id page (with_errors e w))
             = with_errors e' (load_tab_content_async id page'
                                 (show_loading_indicator env id page w)).
Proof.
  destruct (errors_show_loading_indicator env id page e w) as (e1 & ->).
  apply errors_load_tab_content_async.
Qed.

Lemma errors_switch_to_tab env id e w :
  exists e', switch_to_tab env id (with_errors e w)
             = with_errors e' (switch_to_tab env id w).
Proof.
  unfold switch_to_tab. window_fields.
  destruct (find id (tab_widgets_ w)) as [it|]; [|eexists; reflexivity].
  cbv zeta. rewrite errors_exit_animation.
  set (w1 := exit_animation 200 (page_num it) w).
  change (with_notebook (set_current_page (page_num it) (notebook_ (with_errors e w1)))
            (with_errors e w1))
    with (with_errors e (with_notebook (set_current_page (page_num it) (notebook_ w1)) w1)).
  set (w2 := with_notebook _ w1).
  destruct (negb (loaded it) && negb (loading it)).
  - destruct (errors_show_loading_indicator env id (page_num it) e w2) as (e1 & ->).
    window_fields. apply errors_load_tab_content_async.
  - repeat break_match; eexists; reflexivity.
Qed.

Lemma errors_on_label_press env id button e w :
  exists e', fst (on_label_press env id button (with_errors e w))
             = with_errors e' (fst (on_label_press env id button w)).
Proof.
  unfold on_label_press. window_fields.
  destruct (button =? 1); [|eexists; reflexivity].
  destruct (find id (tab_widgets_ w)) as [it|]; [|eexists; reflexivity].
  cbv zeta.
  change (with_notebook (set_current_page (page_num it) (notebook_ w))
            (with_errors e w))
    with (with_errors e (with_notebook (set_current_page (page_num it) (notebook_ w)) w)).
  set (w1 := with_notebook _ w).
  destruct (negb (loaded it) && negb (loading it)); cbn [fst]; [|eexists; reflexivity].
  destruct (errors_show_loading_indicator env id (page_num it) e w1) as (e1 & ->).
  window_fields. apply errors_load_tab_content_async.
Qed.

Lemma errors_on_tab_switch env page e w :
  exists e', on_tab_switch env page (with_errors e w)
             = with_errors e' (on_tab_switch env page w).
Proof.
  unfold on_tab_switch. window_fields.
  destruct (switch_guard w); [eexists; reflexivity|].
  cbv zeta. rewrite errors_exit_animation.
  set (w1 := exit_animation 250 page w). window_fields.
  destruct (prevent_auto_loading_ w1 && _); [eexists; reflexivity|].
  destruct (negb (String.eqb (tab_to_load page (tab_widgets_ w1)) EmptyString)).
  - set (id := tab_to_load page (tab_widgets_ w1)).
    change (with_guard true (with_errors e w1)) with (with_errors e (with_guard true w1)).
    destruct (String.eqb id "power").
    + destruct (errors_show_and_load env id page page e (with_guard true w1)) as (e1 & ->).
      generalize (load_tab_content_async id page
                    (show_loading_indicator env id page (with_guard true w1))).
      intros w2. exists e1. reflexivity.
    + eexists. reflexivity.
  - repeat break_match; eexists; reflexivity.
Qed.

Lemma errors_step env ev e w :
  exists e', step env ev (with_errors e w) = with_errors e' (step env ev w).
Proof.
  destruct ev as [page|id button|id| |dt]; cbn [step].
  - apply errors_on_tab_switch.
  - apply errors_on_label_press.
  - apply errors_switch_to_tab.
  - window_fields.
    destruct (earliest (timers w)) as [[[due tm] others]|]; [|eexists; reflexivity].
    change (with_clock (Z.max (now w) due) others (with_errors e w))
      with (with_errors e (with_clock (Z.max (now w) due) others w)).
    set (w1 := with_clock _ others w).
    destruct tm as [id page|id page| |target|target msg]; cbn [fire].
    + apply errors_show_and_load.
    + apply errors_create_tab_content.
    + eexists. reflexivity.
    + eexists. reflexivity.
    + eexists. reflexivity.
  - eexists. reflexivity.
Qed.

(** X21.  The error map is written and never read: started from a window
    that differs in [tab_load_errors_] only, a run goes through the same
    windows up to that map.  So no decision depends on whether a tab has
    failed before; a failed tab is handled as one that was never loaded. *)
Theorem errors_are_never_read evs : forall e w,
  exists e', run evs (with_errors e w) = with_errors e' (run evs w).
Proof.
  induction evs as [|[ev env] rest IH]; intros e w; cbn [run].
  - exists e. reflexivity.
  - destruct (errors_step env ev e w) as (e1 & ->). apply IH.
Qed.

(** *** The guard of [on_tab_switch] *)

Lemma holds_guard_refl w : holds_guard w w.
Proof.
  split; [reflexivity|]. split; [reflexivity|].
  exists []. symmetry. apply app_nil_r.
Qed.

Lemma holds_guard_trans w1 w2 w3 :
  holds_guard w1 w2 -> holds_guard w2 w3 -> holds_guard w1 w3.
Proof.
  intros (A1 & A2 & ts1 & A3) (B1 & B2 & ts2 & B3).
  split; [congruence|]. split; [congruence|].
  exists (ts1 ++ ts2)%list. rewrite B3, A3, app_assoc. reflexivity.
Qed.

Lemma holds_guard_same w w' :
  switch_guard w' = switch_guard w -> now w' = now w -> timers w' = timers w ->
  holds_guard w w'.
Proof.
  intros H1 H2 H3. split; [exact H1|]. split; [exact H2|].
  exists []. rewrite app_nil_r. exact H3.
Qed.

Lemma holds_guard_show_loading_indicator env id p w :
  holds_guard w (show_loading_indicator env id p w).
Proof.
  unfold show_loading_indicator. cbv zeta.
  repeat break_match; apply holds_guard_same; reflexivity.
Qed.

Lemma holds_guard_load_tab_content_async id p w :
  holds_guard w (load_tab_content_async id p w).
Proof.
  unfold load_tab_content_async. cbv zeta.
  repeat break_match; try (apply holds_guard_same; reflexivity);
    (split; [reflexivity|]; split; [reflexivity|]; eexists; reflexivity).
Qed.

Lemma holds_guard_create_tab_content env id p w :
  holds_guard w (create_tab_content env id p w).
Proof.
  unfold create_tab_content. cbv zeta.
  repeat break_match; try (apply holds_guard_same; reflexivity);
    (split; [reflexivity|]; split; [reflexivity|]; eexists; reflexivity).
Qed.

Lemma holds_guard_exit_animation d p w : holds_guard w (exit_animation d p w).
Proof.
  destruct (exit_animation_frame d p w)
    as (_ & Hn & (_ & _ & _ & _ & Hg & _) & ts & es & Hts & _).
  split; [exact Hg|]. split; [exact Hn|]. exists ts. exact Hts.
Qed.

Lemma holds_guard_entrance_animation target msg w :
  holds_guard w (entrance_animation target msg w).
Proof. split; [reflexivity|]. split; [reflexivity|]. eexists. reflexivity. Qed.

Lemma holds_guard_show_and_load env id page page' w :
  holds_guard w (load_tab_content_async id page'
                   (show_loading_indicator env id page w)).
Proof.
  eapply holds_guard_trans;
    [apply holds_guard_show_loading_indicator
    | apply holds_guard_load_tab_content_async].
Qed.

Lemma holds_guard_switch_to_tab env id w : holds_guard w (switch_to_tab env id w).
Proof.
  unfold switch_to_tab.
  destruct (find id (tab_widgets_ w)) as [it|]; [|apply holds_guard_refl].
  cbv zeta.
  pose proof (holds_guard_exit_animation 200 (page_num it) w) as H1.
  set (w1 := exit_animation 200 (page_num it) w) in *.
  set (w2 := with_notebook _ w1).
  assert (H2 : holds_guard w1 w2) by (apply holds_guard_same; reflexivity).
  eapply holds_guard_trans; [eapply holds_guard_trans; [exact H1 | exact H2]|].
  repeat break_match; try apply holds_guard_refl.
  - apply holds_guard_show_and_load.
  - apply holds_guard_entrance_animation.
Qed.

Lemma holds_guard_on_label_press env id button w :
  holds_guard w (fst (on_label_press env id button w)).
Proof.
  unfold on_label_press.
  destruct (button =? 1); [|apply holds_guard_refl].
  destruct (find id (tab_widgets_ w)) as [it|]; [|apply holds_guard_refl].
  cbv zeta. set (w1 := with_notebook _ w).
  assert (H1 : holds_guard w w1) by (apply holds_guard_same; reflexivity).
  destruct (negb (loaded it) && negb (loading it)); cbn [fst]; [|exact H1].
  eapply holds_guard_trans; [exact H1 | apply holds_guard_show_and_load].
Qed.

Lemma guarded_holds w w' : guarded w -> holds_guard w w' -> guarded w'.
Proof.
  intros Hg (H1 & H2 & ts & H3) Hset. rewrite H1 in Hset.
  destruct (Hg Hset) as (due & Hin & Hdue).
  exists due. rewrite H3, H2. split; [apply in_or_app; left; exact Hin | exact Hdue].
Qed.

Lemma guarded_on_tab_switch env page w :
  guarded w -> guarded (on_tab_switch env page w).
Proof.
  intros Hg. unfold on_tab_switch.
  destruct (switch_guard w) eqn:Eg; [exact Hg|]. cbv zeta.
  pose proof (holds_guard_exit_animation 250 page w) as H1.
  set (w1 := exit_animation 250 page w) in *.
  pose proof (guarded_holds w w1 Hg H1) as Hg1.
  destruct (prevent_auto_loading_ w1 && _); [exact Hg1|].
  destruct (negb (String.eqb (tab_to_load page (tab_widgets_ w1)) EmptyString)).
  - intros _.
    set (w2 := if String.eqb _ "power" then _ else _).
    assert (H2 : now w2 = now w).
    { destruct H1 as (_ & Hn & _). unfold w2.
      destruct (String.eqb _ "power").
      - destruct (holds_guard_show_and_load env
                    (tab_to_load page (tab_widgets_ w1)) page page (with_guard true w1))
          as (_ & -> & _). exact Hn.
      - exact Hn. }
    exists (now w2 + 100). split; [|unfold connect_once; cbn [now with_clock]; lia].
    unfold connect_once. cbn [timers with_clock]. apply in_or_app. right. left.
    reflexivity.
  - destruct (is_null _); [exact Hg1|].
    destruct (negb _ && _); [|exact Hg1].
    apply (guarded_holds w1 _ Hg1), holds_guard_entrance_animation.
Qed.

Lemma earliest_none l : earliest l = None -> l = [].
Proof.
  destruct l as [|t l]; [reflexivity|]. cbn [earliest].
  destruct (earliest l) as [[t' others]|]; [|discriminate].
  destruct (fst t' <? fst t); discriminate.
Qed.

Lemma earliest_others l : forall x rest y,
  earliest l = Some (x, rest) -> In y l -> y = x \/ In y rest.
Proof.
  induction l as [|t l IH]; intros x rest y H Hy; [discriminate|].
  cbn [earliest] in H.
  destruct (earliest l) as [[t' others]|] eqn:E.
  - destruct (fst t' <? fst t); injection H as <- <-.
    + destruct Hy as [<-|Hy]; [right; left; reflexivity|].
      destruct (IH t' others y eq_refl Hy) as [->|Hin];
        [left; reflexivity | right; right; exact Hin].
    + destruct Hy as [<-|Hy]; [left; reflexivity | right; exact Hy].
  - injection H as <- <-. rewrite (earliest_none l E) in Hy.
    destruct Hy as [<-|[]]. left. reflexivity.
Qed.

Lemma guarded_step env ev w : guarded w -> guarded (step env ev w).
Proof.
  intros Hg. destruct ev as [page|id button|id| |dt]; cbn [step].
  - apply guarded_on_tab_switch. exact Hg.
  - apply (guarded_holds w _ Hg), holds_guard_on_label_press.
  - apply (guarded_holds w _ Hg), holds_guard_switch_to_tab.
  - destruct (earliest (timers w)) as [[[due tm] others]|] eqn:E; [|exact Hg].
    set (w1 := with_clock (Z.max (now w) due) others w).
    assert (Hg1 : tm <> ReleaseGuard -> guarded w1).
    { intros Hne Hset. destruct (Hg Hset) as (due' & Hin & Hdue).
      destruct (earliest_others _ _ _ _ E Hin) as [Heq|Hin']; [congruence|].
      exists due'. split; [exact Hin'|]. cbn [now w1 with_clock]. lia. }
    destruct tm as [id page|id page| |target|target msg]; cbn [fire].
    + apply (guarded_holds w1); [apply Hg1; discriminate|].
      apply holds_guard_show_and_load.
    + apply (guarded_holds w1); [apply Hg1; discriminate|].
      apply holds_guard_create_tab_content.
    + intros Hset. discriminate.
    + apply (guarded_holds w1); [apply Hg1; discriminate|].
      apply holds_guard_same; reflexivity.
    + apply (guarded_holds w1); [apply Hg1; discriminate|].
      apply holds_guard_same; reflexivity.
  - intros Hset. destruct (Hg Hset) as (due & Hin & Hdue).
    exists due. split; [exact Hin|]. cbn [now with_clock]. lia.
Qed.

Lemma switch_guard_create_tabs order enabled : forall w,
  switch_guard (create_tabs order enabled w) = switch_guard w.
Proof.
  induction order as [|id rest IH]; intros w; [reflexivity|].
  cbn [create_tabs]. rewrite IH.
  unfold add_tab. repeat break_match; reflexivity.
Qed.

Lemma guarded_new_window env initial_tab order enabled :
  guarded (new_window env initial_tab order enabled).
Proof.
  rewrite new_window_unfold. cbv zeta.
  set (en := fun id => _).
  assert (H : guarded (create_tabs order en (empty_window initial_tab))).
  { intros Hset. rewrite switch_guard_create_tabs in Hset. discriminate. }
  destruct (negb (String.eqb initial_tab EmptyString)); [|exact H].
  apply (guarded_holds _ _ H), holds_guard_switch_to_tab.
Qed.

(** *** Loading on a change of page *)

(** X23.  A [switch_page] that finds a tab to load (guard off, policy
    allowing it).  The guard is set and its release scheduled 100 ms later,
    so further [switch_page] signals are dropped until then.  The power tab
    is started at once: its slot is Loading and its construction is due in
    10 ms.  Any other tab is only scheduled: nothing about it changes yet,
    and showing the spinner and scheduling the construction are due in
    50 ms. *)
Theorem switch_page_loads env page w :
  placed w -> switch_guard w = false ->
  prevent_auto_loading_ w = false
  \/ tab_at_page page (tab_widgets_ w) = initial_tab_ w ->
  tab_to_load page (tab_widgets_ w) <> EmptyString ->
  let id := tab_to_load page (tab_widgets_ w) in
  let w' := on_tab_switch env page w in
  switch_guard w' = true
  /\ In (now w + 100, ReleaseGuard) (timers w')
  /\ (forall env2 page2, on_tab_switch env2 page2 w' = w')
  /\ (id <> "power" ->
      tab_widgets_ w' = tab_widgets_ w
      /\ In (now w + 50, ShowAndLoad id page) (timers w')
      /\ requests id w' = requests id w)
  /\ (id = "power" -> labels env = Returns ->
      slot_state id w' = Loading
      /\ In (now w + 10, CreateContent id page) (timers w')).
Proof.
  intros Hw Hguard Hallowed Hfound. cbv zeta.
  destruct (exit_animation_frame 250 page w)
    as (Hnb & Hnow & (Htabs & Herr & Hprev & Hinit & Hg & Hload & _) & ts & es & Hts & _).
  assert (Hon : on_tab_switch env page w
                = connect_once ReleaseGuard 100
                    (if String.eqb (tab_to_load page (tab_widgets_ w)) "power"
                     then load_tab_content_async (tab_to_load page (tab_widgets_ w)) page
                            (show_loading_indicator env
                               (tab_to_load page (tab_widgets_ w)) page
                               (with_guard true (exit_animation 250 page w)))
                     else connect_once
                            (ShowAndLoad (tab_to_load page (tab_widgets_ w)) page) 50
                            (with_guard true (exit_animation 250 page w)))).
  { unfold on_tab_switch. rewrite Hguard. cbv zeta. rewrite Hprev, Htabs, Hinit.
    assert (Hpol : prevent_auto_loading_ w
                   && negb (String.eqb (tab_at_page page (tab_widgets_ w)) (initial_tab_ w))
                   = false).
    { destruct Hallowed as [-> | ->]; [reflexivity|].
      rewrite String.eqb_refl. apply andb_false_r. }
    rewrite Hpol. apply String.eqb_neq in Hfound. rewrite Hfound. reflexivity. }
  rewrite Hon. set (id := tab_to_load page (tab_widgets_ w)) in *.
  set (w1 := exit_animation 250 page w) in *.
  set (w2 := with_guard true w1).
  destruct Hw as (Hnd & Hval & _).
  destruct (tab_to_load_found page (tab_widgets_ w) id Hnd eq_refl Hfound)
    as (info & Hfind & Hpage & Hloaded & Hloading).
  assert (Hsame : forall w3, holds_guard w2 w3 ->
            switch_guard (connect_once ReleaseGuard 100 w3) = true
            /\ In (now w + 100, ReleaseGuard) (timers (connect_once ReleaseGuard 100 w3))
            /\ forall env2 page2,
                 on_tab_switch env2 page2 (connect_once ReleaseGuard 100 w3)
                 = connect_once ReleaseGuard 100 w3).
  { intros w3 (H1 & H2 & ts3 & H3).
    assert (Hg3 : switch_guard (connect_once ReleaseGuard 100 w3) = true) by exact H1.
    split; [exact Hg3|]. split.
    - unfold connect_once. cbn [timers with_clock]. apply in_or_app. right. left.
      rewrite H2. cbn. rewrite Hnow. reflexivity.
    - intros env2 page2. unfold on_tab_switch. rewrite Hg3. reflexivity. }
  destruct (String.eqb id "power") eqn:Epower.
  - pose proof Epower as Eb. apply String.eqb_eq in Epower.
    destruct (Hsame _ (holds_guard_show_and_load env id page page w2)) as (A & B & C).
    split; [exact A|]. split; [exact B|]. split; [exact C|].
    split; [intros Hne; congruence|]. intros _ Hok.
    assert (Hf2 : find id (tab_widgets_ w2) = Some info) by (cbn; rewrite Htabs; exact Hfind).
    assert (Hp2 : 0 <= page < get_n_pages (notebook_ w2)).
    { cbn. rewrite Hnb, <- Hpage. apply (Hval id). apply page_of_some. exact Hfind. }
    assert (Hknown : tab_label id <> None) by (rewrite Epower; discriminate).
    destruct (show_loading_indicator_starts env id page w2 info Hf2 Hloaded Hloading
                Hknown Hp2 Hok)
      as (Htabs' & _ & _ & _ & _ & _ & _ & Hnow' & Htim' & _).
    set (wb := show_loading_indicator env id page w2) in *.
    assert (Hfb : find id (tab_widgets_ wb)
                  = Some (set_widget_page LoadingIndicator page (set_loading true info))).
    { rewrite Htabs', find_update_same, entry_update_same.
      rewrite (entry_found _ _ _ Hf2). reflexivity. }
    rewrite (load_tab_content_async_schedules id page wb _ Hfb Hloaded).
    rewrite Eb. split.
    + unfold slot_state, connect_once. cbn [tab_widgets_ with_clock].
      rewrite (entry_found _ _ _ Hfb). cbn. rewrite Hloaded. reflexivity.
    + unfold connect_once. cbn [timers with_clock]. apply in_or_app. left.
      apply in_or_app. right. left. rewrite Hnow'. cbn. rewrite Hnow. reflexivity.
  - apply String.eqb_neq in Epower.
    assert (Hh : holds_guard w2 (connect_once (ShowAndLoad id page) 50 w2)).
    { split; [reflexivity|]. split; [reflexivity|]. eexists. reflexivity. }
    destruct (Hsame _ Hh) as (A & B & C).
    split; [exact A|]. split; [exact B|]. split; [exact C|].
    split; [|intros Heq; congruence]. intros _.
    split; [exact Htabs|]. split.
    + unfold connect_once. cbn [timers with_clock]. apply in_or_app. left.
      apply in_or_app. right. left. cbn. rewrite Hnow. reflexivity.
    + unfold requests, connect_once. cbn [timers with_clock w2 with_guard].
      rewrite !List.filter_app. cbn. rewrite !app_nil_r.
      rewrite (filter_request_load_timers id (timers w1)), Hload,
        <- filter_request_load_timers. reflexivity.
Qed.

Lemma switch_page_loads_witness :
  tab_to_load 1 (tab_widgets_ (new_window quiet EmptyString all_tabs (fun _ => true)))
  = "wifi"
  /\ switch_guard (on_tab_switch quiet 1
                     (new_window quiet EmptyString all_tabs (fun _ => true))) = true.
Proof.
  split; [reflexivity|].
  refine (proj1 (switch_page_loads quiet 1
                   (new_window quiet EmptyString all_tabs (fun _ => true))
                   (proj1 (placed_new_window quiet EmptyString all_tabs (fun _ => true)))
                   eq_refl (or_introl eq_refl) _)).
  vm_compute. discriminate.
Defined.

(** *** An initial tab that is not a panel *)

Lemma idle_refl w : idle w w.
Proof. repeat split. Qed.

Lemma idle_trans w1 w2 w3 : idle w1 w2 -> idle w2 w3 -> idle w1 w3.
Proof.
  intros (A1 & A2 & A3 & A4 & A5) (B1 & B2 & B3 & B4 & B5).
  repeat split; congruence.
Qed.

Lemma idle_cosmetic w w' : cosmetic w w' -> idle w w'.
Proof.
  intros (H1 & H2 & H3 & H4 & _ & H6 & H7). unfold idle, policy.
  repeat split; congruence.
Qed.

Lemma idle_counts w w' :
  idle w w' ->
  forall id, slot_state id w' = slot_state id w
             /\ requests id w' = requests id w
             /\ constructions id w' = constructions id w.
Proof.
  intros (H1 & H2 & _ & H4 & H5) id. split; [|split].
  - unfold slot_state. rewrite H1, H2. reflexivity.
  - unfold requests.
    rewrite (filter_request_load_timers id (timers w')), H4,
      <- filter_request_load_timers. reflexivity.
  - apply constructions_any. exact H5.
Qed.

Lemma filter_nil_in {A} (f : A -> bool) l x :
  List.filter f l = [] -> In x l -> f x = false.
Proof.
  intros Hnil Hin. destruct (f x) eqn:E; [|reflexivity].
  assert (H : In x (List.filter f l)) by (apply filter_In; split; assumption).
  rewrite Hnil in H. destruct H.
Qed.

Lemma filter_nil_sub {A} (f : A -> bool) l l' :
  List.filter f l = [] -> (forall x, In x l' -> In x l) -> List.filter f l' = [].
Proof.
  intros Hnil Hsub. induction l' as [|x l' IH]; [reflexivity|]. cbn.
  rewrite (filter_nil_in f l x Hnil) by (apply Hsub; left; reflexivity).
  apply IH. intros y Hy. apply Hsub. right. exact Hy.
Qed.

(** With the policy on for an initial tab that is no key of the map and no
    load pending, an unattended event changes nothing that bears on
    loading. *)
Lemma idle_step t env ev w :
  policy w = (true, t) -> t <> EmptyString ->
  ~ In t (map fst (tab_widgets_ w)) ->
  List.filter is_load_timer (timers w) = [] ->
  match ev with
  | SwitchPage _ | Tick | Elapse _ => True
  | LabelPress _ _ | SwitchTo _ => False
  end ->
  idle w (step env ev w).
Proof.
  intros Hpol Hne Hkey Hnone Hev. unfold policy in Hpol. injection Hpol as Hprev Hinit.
  destruct ev as [page|id button|id| |dt]; cbn [step]; try contradiction.
  - apply idle_cosmetic, on_tab_switch_suppressed; [exact Hprev|].
    rewrite Hinit. intros Heq.
    destruct (tab_at_page_key page (tab_widgets_ w)) as [H|H]; congruence.
  - destruct (earliest (timers w)) as [[[due tm] others]|] eqn:E; [|apply idle_refl].
    destruct (earliest_in _ _ _ E) as [Hin Hsub].
    pose proof (filter_nil_in _ _ _ Hnone Hin) as Htm.
    pose proof (filter_nil_sub _ _ others Hnone Hsub) as Hothers.
    destruct tm as [id page|id page| |target|target msg]; try discriminate;
      cbn [fire]; unfold idle, policy; cbn; rewrite ?List.filter_app; cbn;
      rewrite ?app_nil_r, Hothers, Hnone; repeat split; reflexivity.
  - repeat split; reflexivity.
Qed.

Lemma effects_create_tabs order enabled : forall w,
  effects (create_tabs order enabled w) = effects w.
Proof.
  induction order as [|id rest IH]; intros w; [reflexivity|].
  cbn [create_tabs]. rewrite IH.
  unfold add_tab. repeat break_match; reflexivity.
Qed.

(** X24.  Started with an initial tab that is not one of the five panels
    (as [main] does for the settings option given alone), the window never
    loads a tab by itself: no tab is registered under that name, the policy
    stays on, and along every unattended run every slot stays Placeholder, no
    construction is requested and no constructor is called. *)
Theorem unknown_initial_tab_loads_nothing env0 t order enabled evs :
  tab_label t = None -> t <> EmptyString ->
  unattended evs ->
  let w := run evs (new_window env0 t order enabled) in
  find t (tab_widgets_ w) = None
  /\ prevent_auto_loading_ w = true
  /\ forall id, slot_state id w = Placeholder
                /\ requests id w = 0%nat
                /\ constructions id w = 0%nat.
Proof.
  intros Hnolabel Hne Hevs. cbv zeta.
  set (w0 := new_window env0 t order enabled).
  destruct (placed_new_window env0 t order enabled) as [_ Hlab]. fold w0 in Hlab.
  assert (Hnokey : forall w, tab_widgets_ w = tab_widgets_ w0 ->
                             find t (tab_widgets_ w) = None).
  { intros w ->. destruct (find t (tab_widgets_ w0)) as [info|] eqn:E; [|reflexivity].
    exfalso. apply (Hlab t); [|exact Hnolabel].
    unfold page_of. rewrite E. discriminate. }
  assert (Hw0 : w0 = create_tabs order
                       (fun id => (negb (String.eqb t EmptyString) && String.eqb id t)
                                  || enabled id)
                       (empty_window t)).
  { pose proof (Hnokey w0 eq_refl) as Hf. unfold w0 in *.
    rewrite new_window_unfold in *. cbv zeta in *.
    destruct (negb (String.eqb t EmptyString)); [|reflexivity].
    set (w1 := create_tabs _ _ _) in *.
    assert (Hf1 : find t (tab_widgets_ w1) = None).
    { destruct (find t (tab_widgets_ w1)) as [info|] eqn:E; [|reflexivity].
      exfalso.
      destruct (placed_create_tabs order
                  (fun id => true && String.eqb id t || enabled id)
                  (empty_window t) (placed_empty_window t)) as (_ & Hl1 & _).
      apply (Hl1 t); [|exact Hnolabel]. unfold page_of. fold w1. rewrite E. discriminate. }
    unfold switch_to_tab. rewrite Hf1. reflexivity. }
  assert (Hfresh : fresh w0).
  { rewrite Hw0. apply fresh_create_tabs.
    split; [intros id; split; reflexivity | split; reflexivity]. }
  assert (Heff : effects w0 = []) by (rewrite Hw0, effects_create_tabs; reflexivity).
  assert (Hpol : policy w0 = (true, t)).
  { unfold w0. rewrite policy_new_window.
    apply String.eqb_neq in Hne. rewrite Hne. reflexivity. }
  assert (Hrun : forall evs w,
            unattended evs -> idle w0 w ->
            idle w0 (run evs w)).
  { clear Hevs evs. intros evs. induction evs as [|[ev env] rest IH];
      intros w Hevs Hidle; cbn [run]; [exact Hidle|].
    inversion Hevs as [|? ? Hev Hrest]; subst. cbn [fst] in Hev.
    apply IH; [exact Hrest|]. eapply idle_trans; [exact Hidle|].
    destruct Hidle as (H1 & _ & H3 & H4 & _).
    destruct Hfresh as (_ & _ & Htim).
    apply (idle_step t env ev w); [congruence | exact Hne | | | exact Hev].
    - intros Hin. apply in_map_iff in Hin. destruct Hin as ([k v] & Hk & Hin).
      cbn in Hk. subst k.
      assert (Hsome : find t (tab_widgets_ w) <> None).
      { clear - Hin. induction (tab_widgets_ w) as [|[k x] rest IH]; [destruct Hin|].
        cbn. destruct (String.eqb k t) eqn:E; [discriminate|].
        destruct Hin as [Heq|Hin]; [|exact (IH Hin)].
        injection Heq as -> _. rewrite String.eqb_refl in E. discriminate. }
      apply Hsome. apply Hnokey. exact H1.
    - rewrite H4, Htim. reflexivity. }
  pose proof (Hrun evs w0 Hevs (idle_refl w0)) as Hidle.
  split; [apply Hnokey; apply Hidle|]. split.
  - destruct Hidle as (_ & _ & H3 & _). rewrite Hpol in H3.
    unfold policy in H3. congruence.
  - intros id. destruct (idle_counts _ _ Hidle id) as (-> & -> & ->).
    split; [apply fresh_slot; exact Hfresh|].
    destruct Hfresh as (_ & _ & Htim).
    unfold requests, constructions. rewrite Htim, Heff. split; reflexivity.
Qed.

Lemma unknown_initial_tab_loads_nothing_witness :
  tab_label (initial_tab_option false false false false false true) = None
  /\ slot_state "wifi"
       (run [(SwitchPage 1, quiet); (Tick, quiet); (Elapse 500, quiet)]
          (new_window quiet (initial_tab_option false false false false false true)
             all_tabs (fun _ => true)))
     = Placeholder.
Proof.
  split; [reflexivity|].
  refine (proj1 (proj2 (proj2 (unknown_initial_tab_loads_nothing quiet
                                 (initial_tab_option false false false false false true)
                                 all_tabs (fun _ => true)
                                 [(SwitchPage 1, quiet); (Tick, quiet); (Elapse 500, quiet)]
                                 eq_refl _ _)) "wifi")).
  - discriminate.
  - repeat constructor.
Defined.

(** *** The notebook shows what the map records *)

Lemma get_nth_page_pages p nb nb' :
  pages nb' = pages nb -> get_nth_page p nb' = get_nth_page p nb.
Proof.
  intros H. unfold get_nth_page, resolve, get_n_pages. rewrite H. reflexivity.
Qed.

Lemma shown_quiet w w' :
  tab_widgets_ w' = tab_widgets_ w ->
  pages (notebook_ w') = pages (notebook_ w) ->
  shown w -> shown w'.
Proof.
  intros Ht Hp Hs id info Hfind. rewrite Ht in Hfind.
  rewrite (get_nth_page_pages _ _ _ Hp). apply (Hs id info Hfind).
Qed.

(** Only flags of the entry of [id] change. *)
Lemma shown_flags id w w' :
  (forall id', id' <> id -> find id' (tab_widgets_ w') = find id' (tab_widgets_ w)) ->
  (forall info', find id (tab_widgets_ w') = Some info' ->
     exists info, find id (tab_widgets_ w) = Some info
                  /\ widget info' = widget info /\ page_num info' = page_num info) ->
  pages (notebook_ w') = pages (notebook_ w) ->
  shown w -> shown w'.
Proof.
  intros Hother Hid Hp Hs id' info' Hfind.
  rewrite (get_nth_page_pages _ _ _ Hp).
  destruct (String.eqb id' id) eqn:E.
  - apply String.eqb_eq in E. subst id'.
    destruct (Hid info' Hfind) as (info & Hf & -> & ->). exact (Hs _ _ Hf).
  - apply String.eqb_neq in E. rewrite (Hother id' E) in Hfind. exact (Hs _ _ Hfind).
Qed.

(** The page of [id] gets the widget [c], recorded in its entry. *)
Lemma shown_swap id p c w w' :
  placed w -> distinct_pages w -> shown w ->
  page_of id w = Some p ->
  (forall id', id' <> id -> find id' (tab_widgets_ w') = find id' (tab_widgets_ w)) ->
  (forall info', find id (tab_widgets_ w') = Some info' ->
     widget info' = c /\ page_num info' = p) ->
  pages (notebook_ w')
  = pages (fst (insert_page c p (remove_page p (notebook_ w)))) ->
  shown w'.
Proof.
  intros (_ & Hval & _) Hd Hs Hp Hother Hid Hpages id' info' Hfind.
  pose proof (Hval id p Hp) as Hvalid.
  rewrite (get_nth_page_pages _ _ _ Hpages).
  destruct (String.eqb id' id) eqn:E.
  - apply String.eqb_eq in E. subst id'.
    destruct (Hid info' Hfind) as [-> ->].
    rewrite (swap_page_nth p c _ p Hvalid Hvalid), Z.eqb_refl. reflexivity.
  - apply String.eqb_neq in E. rewrite (Hother id' E) in Hfind.
    assert (Hp' : page_of id' w = Some (page_num info')) by (apply page_of_some; exact Hfind).
    rewrite (swap_page_nth p c _ (page_num info') Hvalid (Hval id' _ Hp')).
    destruct (page_num info' =? p) eqn:Ep; [|exact (Hs _ _ Hfind)].
    apply Z.eqb_eq in Ep. rewrite Ep in Hp'. exfalso. apply E.
    apply (Hd id' id p Hp' Hp).
Qed.

Lemma shown_show_loading_indicator env id page w :
  placed w -> distinct_pages w -> shown w ->
  page_of id w = Some page ->
  shown (show_loading_indicator env id page w).
Proof.
  intros Hw Hd Hs Hp.
  destruct (page_of_found id w page Hp) as (info & Hfind & Hpage).
  unfold show_loading_indicator.
  rewrite (touch_found _ _ _ Hfind), with_tabs_same, (entry_found _ _ _ Hfind), Hfind.
  destruct (loaded info || loading info); [exact Hs|].
  destruct ((page <? 0) || (get_n_pages (notebook_ w) <=? page)) eqn:Echk; [exact Hs|].
  apply orb_false_iff in Echk. destruct Echk as [E1 E2].
  apply Z.ltb_ge in E1. apply Z.leb_gt in E2.
  cbv zeta. cbn [tab_widgets_ with_tabs notebook_ effect].
  set (m1 := update id (set_loading true) (tab_widgets_ w)).
  assert (Hflags : forall f es,
            (forall i, widget (f i) = widget i /\ page_num (f i) = page_num i) ->
            shown (with_tabs (update id f m1)
                     {| notebook_ := notebook_ w; initial_tab_ := initial_tab_ w;
                        prevent_auto_loading_ := prevent_auto_loading_ w;
                        tab_widgets_ := m1; tab_load_errors_ := tab_load_errors_ w;
                        switch_guard := switch_guard w; now := now w;
                        timers := timers w; effects := es |})).
  { intros f es Hf. apply (shown_flags id w); [| |reflexivity|exact Hs].
    - intros id' Hne. cbn. unfold m1. rewrite !find_update_other by exact Hne.
      reflexivity.
    - intros info'. cbn. unfold m1.
      rewrite find_update_same, entry_update_same, (entry_found _ _ _ Hfind).
      intros H. injection H as <-. exists info. split; [exact Hfind|].
      destruct (Hf (set_loading true info)) as [-> ->]. split; reflexivity. }
  destruct (tab_label id) as [lbl|].
  - destruct (labels env).
    + destruct (insert_page LoadingIndicator page (remove_page page (notebook_ w)))
        as [nb q] eqn:Eins.
      pose proof (swap_page page LoadingIndicator (notebook_ w) (conj E1 E2)) as [Hq _].
      rewrite Eins in Hq. cbn [snd] in Hq. subst q.
      cbn [tab_widgets_ with_tabs notebook_ with_notebook].
      assert (Hgen : forall nb',
                pages nb' = pages nb ->
                shown {| notebook_ := nb'; initial_tab_ := initial_tab_ w;
                         prevent_auto_loading_ := prevent_auto_loading_ w;
                         tab_widgets_ := update id (set_widget_page LoadingIndicator page) m1;
                         tab_load_errors_ := tab_load_errors_ w;
                         switch_guard := switch_guard w; now := now w;
                         timers := timers w;
                         effects := (effects w ++ [MakeLoadingIndicator])%list |}).
      { intros nb' Hnb'.
        apply (shown_swap id page LoadingIndicator w); try assumption.
        - intros id' Hne. cbn. unfold m1. rewrite !find_update_other by exact Hne.
          reflexivity.
        - intros info'. cbn. rewrite find_update_same. intros H. injection H as <-.
          split; reflexivity.
        - cbn. rewrite Hnb', Eins. reflexivity. }
      destruct (current_page nb =? page).
      * apply Hgen. reflexivity.
      * apply Hgen. apply set_current_page_pages.
    + apply Hflags. intros i. split; reflexivity.
    + apply Hflags. intros i. split; reflexivity.
  - apply Hflags. intros i. split; reflexivity.
Qed.

Lemma shown_load_tab_content_async id page w :
  page_of id w <> None -> shown w -> shown (load_tab_content_async id page w).
Proof.
  intros Hp Hs. destruct (page_of_registered id w Hp) as (info & Hfind).
  unfold load_tab_content_async.
  rewrite (touch_found _ _ _ Hfind), with_tabs_same, (entry_found _ _ _ Hfind), Hfind.
  repeat break_match; try exact Hs; apply (shown_quiet w); try reflexivity; exact Hs.
Qed.

Lemma shown_create_tab_content env id page w :
  placed w -> distinct_pages w -> shown w ->
  page_of id w <> None ->
  shown (create_tab_content env id page w).
Proof.
  intros Hw Hd Hs Hp. destruct (page_of_registered id w Hp) as (info & Hfind).
  destruct (loaded info) eqn:Hloaded.
  { unfold create_tab_content.
    rewrite (touch_found _ _ _ Hfind), with_tabs_same, (entry_found _ _ _ Hfind), Hloaded.
    exact Hs. }
  assert (Hflags : forall w',
            tab_widgets_ w' = update id (set_loading false) (tab_widgets_ w) ->
            notebook_ w' = notebook_ w -> shown w').
  { intros w' Ht Hn. apply (shown_flags id w); [| |rewrite Hn; reflexivity|exact Hs].
    - intros id' Hne. rewrite Ht, find_update_other by exact Hne. reflexivity.
    - intros info'. rewrite Ht, find_update_same, (entry_found _ _ _ Hfind).
      intros H. injection H as <-. exists info. repeat split. exact Hfind. }
  destruct (tab_label id) as [lbl|] eqn:Hlabel.
  - destruct (factory env) eqn:Hfac.
    + assert (Hpage : 0 <= page_num info < get_n_pages (notebook_ w)).
      { destruct Hw as (_ & Hval & _). apply (Hval id). apply page_of_some. exact Hfind. }
      assert (Hknown : tab_label id <> None) by congruence.
      destruct (create_tab_content_returns env id page info w Hfind Hloaded Hknown Hpage Hfac)
        as (Htabs & Hpages & _).
      apply (shown_swap id (page_num info) (TabContent id) w); try assumption.
      * apply page_of_some. exact Hfind.
      * intros id' Hne. rewrite Htabs, find_update_other by exact Hne. reflexivity.
      * intros info'. rewrite Htabs, find_update_same. intros H. injection H as <-.
        split; reflexivity.
    + assert (Hknown : tab_label id <> None) by congruence.
      assert (Hfail : factory env <> Returns) by congruence.
      destruct (create_tab_content_throws env id page info w Hfind Hloaded Hknown Hfail)
        as (Htabs & _ & Hnb & _).
      apply Hflags; assumption.
    + assert (Hknown : tab_label id <> None) by congruence.
      assert (Hfail : factory env <> Returns) by congruence.
      destruct (create_tab_content_throws env id page info w Hfind Hloaded Hknown Hfail)
        as (Htabs & _ & Hnb & _).
      apply Hflags; assumption.
  - apply Hflags; unfold create_tab_content;
      rewrite (touch_found _ _ _ Hfind), with_tabs_same, (entry_found _ _ _ Hfind),
        Hloaded, Hfind, Hlabel; reflexivity.
Qed.

Lemma distinct_keeps w w' : distinct_pages w -> keeps w w' -> distinct_pages w'.
Proof.
  intros Hd Hk id id' p. rewrite !(keeps_page_of _ _ _ Hk). apply Hd.
Qed.

Lemma in_order_keeps w w' :
  in_order w -> keeps w w' -> shown w' -> in_order w'.
Proof.
  intros (Hp & Hd & _) Hk Hs.
  split; [eapply placed_keeps; eauto|]. split; [eapply distinct_keeps; eauto | exact Hs].
Qed.

Lemma in_order_cosmetic_step w w' :
  in_order w -> keeps w w' ->
  tab_widgets_ w' = tab_widgets_ w -> pages (notebook_ w') = pages (notebook_ w) ->
  in_order w'.
Proof.
  intros Hw Hk Ht Hp. apply (in_order_keeps w w' Hw Hk).
  apply (shown_quiet w w' Ht Hp). apply Hw.
Qed.

Lemma in_order_show_and_load env id page page' w :
  in_order w -> page_of id w = Some page ->
  in_order (load_tab_content_async id page' (show_loading_indicator env id page w)).
Proof.
  intros Hw Hp. apply (in_order_keeps w _ Hw (keeps_show_and_load env id page page' w Hp)).
  destruct Hw as (Hpl & Hd & Hs).
  apply shown_load_tab_content_async.
  - rewrite (keeps_page_of _ _ id (keeps_show_loading_indicator env id page w Hp)), Hp.
    discriminate.
  - apply shown_show_loading_indicator; assumption.
Qed.

Lemma in_order_exit_animation d p w : in_order w -> in_order (exit_animation d p w).
Proof.
  intros Hw.
  destruct (exit_animation_frame d p w) as (Hnb & _ & (Htabs & _) & _).
  apply (in_order_cosmetic_step w _ Hw (keeps_exit_animation d p w) Htabs).
  rewrite Hnb. reflexivity.
Qed.

Lemma in_order_set_current_page p w :
  in_order w -> in_order (with_notebook (set_current_page p (notebook_ w)) w).
Proof.
  intros Hw.
  apply (in_order_cosmetic_step w _ Hw (keeps_set_current_page p w)); [reflexivity|].
  apply set_current_page_pages.
Qed.

Lemma in_order_entrance_animation target msg w :
  in_order w -> in_order (entrance_animation target msg w).
Proof.
  intros Hw.
  apply (in_order_cosmetic_step w _ Hw (keeps_entrance_animation target msg w));
    reflexivity.
Qed.

Lemma in_order_switch_to_tab env id w : in_order w -> in_order (switch_to_tab env id w).
Proof.
  intros Hw. unfold switch_to_tab.
  destruct (find id (tab_widgets_ w)) as [it|] eqn:Hfind; [|exact Hw].
  cbv zeta.
  pose proof (in_order_exit_animation 200 (page_num it) w Hw) as H1.
  pose proof (keeps_exit_animation 200 (page_num it) w) as K1.
  set (w1 := exit_animation 200 (page_num it) w) in *.
  pose proof (in_order_set_current_page (page_num it) w1 H1) as H2.
  pose proof (keeps_set_current_page (page_num it) w1) as K2.
  set (w2 := with_notebook _ w1) in *.
  assert (Hp2 : page_of id w2 = Some (page_num it)).
  { rewrite (keeps_page_of _ _ id K2), (keeps_page_of _ _ id K1).
    apply page_of_some. exact Hfind. }
  destruct (negb (loaded it) && negb (loading it)).
  - apply in_order_show_and_load; assumption.
  - destruct (loaded it); [|exact H2].
    destruct (is_null (widget it)); [exact H2|].
    apply in_order_entrance_animation. exact H2.
Qed.

Lemma in_order_on_label_press env id button w :
  in_order w -> in_order (fst (on_label_press env id button w)).
Proof.
  intros Hw. unfold on_label_press.
  destruct (button =? 1); [|exact Hw].
  destruct (find id (tab_widgets_ w)) as [it|] eqn:Hfind; [|exact Hw].
  cbv zeta.
  pose proof (in_order_set_current_page (page_num it) w Hw) as H1.
  pose proof (keeps_set_current_page (page_num it) w) as K1.
  set (w1 := with_notebook _ w) in *.
  assert (Hp1 : page_of id w1 = Some (page_num it)).
  { rewrite (keeps_page_of _ _ id K1). apply page_of_some. exact Hfind. }
  destruct (negb (loaded it) && negb (loading it)); cbn [fst]; [|exact H1].
  apply in_order_show_and_load; assumption.
Qed.

Lemma in_order_on_tab_switch env page w :
  in_order w -> in_order (on_tab_switch env page w).
Proof.
  intros Hw. unfold on_tab_switch.
  destruct (switch_guard w); [exact Hw|]. cbv zeta.
  pose proof (in_order_exit_animation 250 page w Hw) as H1.
  set (w1 := exit_animation 250 page w) in *.
  destruct (prevent_auto_loading_ w1 && _); [exact H1|].
  destruct (String.eqb (tab_to_load page (tab_widgets_ w1)) EmptyString) eqn:Eid;
    cbn [negb].
  - destruct (is_null _); [exact H1|].
    destruct (negb _ && _); [|exact H1].
    apply in_order_entrance_animation. exact H1.
  - apply String.eqb_neq in Eid.
    destruct H1 as ((Hnd & Hrest) & Hd1 & Hs1).
    destruct (tab_to_load_found page (tab_widgets_ w1) _ Hnd eq_refl Eid)
      as (info & Hfind & Hpage & _).
    set (id := tab_to_load page (tab_widgets_ w1)) in *.
    assert (H2 : in_order (with_guard true w1)).
    { apply (in_order_cosmetic_step w1); try reflexivity.
      - split; [split; assumption | split; assumption].
      - apply keeps_with_guard. }
    assert (Hp2 : page_of id (with_guard true w1) = Some page).
    { rewrite <- Hpage. apply page_of_some. exact Hfind. }
    assert (Hrel : forall w', in_order w' -> in_order (connect_once ReleaseGuard 100 w')).
    { intros w' Hw'. apply (in_order_cosmetic_step w' _ Hw' (keeps_release w'));
        reflexivity. }
    apply Hrel.
    destruct (String.eqb id "power").
    + apply in_order_show_and_load; assumption.
    + apply (in_order_keeps (with_guard true w1)); [exact H2| |].
      * split; [split; reflexivity|].
        eexists [_]. split; [reflexivity|].
        split; intros due id' page' [Heq|[]]; [|discriminate].
        injection Heq as _ <- <-. exact Hp2.
      * apply (shown_quiet (with_guard true w1)); try reflexivity. apply H2.
Qed.

Lemma in_order_step env ev w : in_order w -> in_order (step env ev w).
Proof.
  intros Hw. destruct ev as [page|id button|id| |dt]; cbn [step].
  - apply in_order_on_tab_switch. exact Hw.
  - apply in_order_on_label_press. exact Hw.
  - apply in_order_switch_to_tab. exact Hw.
  - destruct (earliest (timers w)) as [[[due tm] others]|] eqn:E; [|exact Hw].
    destruct (earliest_in _ _ _ E) as [Hin Hsub].
    set (w1 := with_clock (Z.max (now w) due) others w).
    destruct Hw as ((Hnd & Hval & Hsl & Hcc) & Hd & Hs).
    assert (Hw1 : in_order w1).
    { split; [|split; [exact Hd | exact Hs]].
      split; [exact Hnd|]. split; [exact Hval|].
      split; intros due' id page Hin'; [eapply Hsl | eapply Hcc]; apply Hsub; exact Hin'. }
    destruct tm as [id page|id page| |target|target msg]; cbn [fire].
    + apply in_order_show_and_load; [exact Hw1|]. exact (Hsl due id page Hin).
    + pose proof (Hcc due id page Hin) as Hp.
      apply (in_order_keeps w1); [exact Hw1| |].
      * apply keeps_create_tab_content; [apply Hw1 | exact Hp].
      * apply shown_create_tab_content; try apply Hw1. exact Hp.
    + apply (in_order_cosmetic_step w1 _ Hw1 (keeps_with_guard false w1)); reflexivity.
    + apply (in_order_cosmetic_step w1); try reflexivity; [exact Hw1|].
      apply keeps_quiet; try reflexivity.
      exists []. split; [symmetry; apply app_nil_r | reflexivity].
    + apply (in_order_cosmetic_step w1); try reflexivity; [exact Hw1|].
      apply keeps_quiet; try reflexivity.
      exists []. split; [symmetry; apply app_nil_r | reflexivity].
  - destruct Hw as ((Hnd & Hval & Hsl & Hcc) & Hd & Hs).
    split; [|split; [exact Hd | exact Hs]].
    split; [exact Hnd|]. split; [exact Hval|]. split; assumption.
Qed.

Lemma append_page_pages c nb :
  pages (fst (append_page c nb)) = (pages nb ++ [c])%list.
Proof.
  unfold append_page, insert_page, get_n_pages. cbn.
  rewrite Nat2Z.id, firstn_all, skipn_all. reflexivity.
Qed.

Lemma in_order_add_tab id w :
  in_order w -> placed (add_tab id w) -> in_order (add_tab id w).
Proof.
  intros ((_ & Hval & _) & Hd & Hs) Hplaced.
  assert (H0 : 0 <= get_n_pages (notebook_ w)) by (unfold get_n_pages; lia).
  split; [exact Hplaced|]. split.
  - intros id1 id2 p. rewrite !page_of_add_tab.
    destruct (String.eqb id id1) eqn:E1, (String.eqb id id2) eqn:E2.
    + apply String.eqb_eq in E1, E2. congruence.
    + intros H1 H2. injection H1 as <-. apply Hval in H2. lia.
    + intros H1 H2. injection H2 as <-. apply Hval in H1. lia.
    + apply Hd.
  - intros id' info' Hfind.
    assert (Hp : page_of id' (add_tab id w) = Some (page_num info'))
      by (apply page_of_some; exact Hfind).
    rewrite page_of_add_tab in Hp.
    unfold add_tab in *.
    pose proof (append_page_pages PlaceholderBox (notebook_ w)) as Hpages.
    pose proof (append_page_spec PlaceholderBox (notebook_ w)) as [Hq Hn].
    destruct (append_page PlaceholderBox (notebook_ w)) as [nb q].
    cbn [fst snd] in Hpages, Hq, Hn. subst q.
    cbn [tab_widgets_ with_tabs with_notebook notebook_] in Hfind |- *.
    destruct (String.eqb id id') eqn:E.
    + apply String.eqb_eq in E. subst id'. rewrite find_assign_same in Hfind.
      injection Hfind as <-. cbn [page_num widget].
      rewrite get_nth_page_valid by lia. rewrite Hpages.
      unfold get_n_pages. rewrite Nat2Z.id. apply nth_middle.
    + apply String.eqb_neq in E. rewrite find_assign_other in Hfind by congruence.
      pose proof (Hval id' _ Hp) as Hvalid.
      rewrite get_nth_page_valid by lia. rewrite Hpages.
      rewrite app_nth1 by (unfold get_n_pages in Hvalid; lia).
      rewrite <- get_nth_page_valid by exact Hvalid. exact (Hs _ _ Hfind).
Qed.

Lemma in_order_create_tabs order enabled : forall w,
  in_order w /\ labelled w /\ timers w = [] ->
  in_order (create_tabs order enabled w).
Proof.
  induction order as [|id rest IH]; intros w Hw; [apply Hw|].
  cbn [create_tabs]. apply IH.
  destruct (enabled id); [|exact Hw].
  destruct (tab_label id) eqn:E; [|exact Hw].
  destruct Hw as (Hord & Hlab & Htim).
  destruct (placed_add_tab id w) as (Hp & Hl & Ht);
    [congruence | split; [apply Hord | split; assumption]|].
  split; [apply in_order_add_tab; assumption | split; assumption].
Qed.

Lemma in_order_new_window env initial_tab order enabled :
  in_order (new_window env initial_tab order enabled).
Proof.
  rewrite new_window_unfold. cbv zeta.
  set (en := fun id => _).
  assert (H : in_order (create_tabs order en (empty_window initial_tab))).
  { apply in_order_create_tabs.
    destruct (placed_empty_window initial_tab) as (Hp & Hl & Ht).
    split; [|split; assumption].
    split; [exact Hp|]. split.
    - intros id id' p H. discriminate.
    - intros id info H. discriminate. }
  destruct (negb (String.eqb initial_tab EmptyString)); [|exact H].
  apply in_order_switch_to_tab. exact H.
Qed.

Lemma find_in id m v : find id m = Some v -> In (id, v) m.
Proof.
  induction m as [|[k x] rest IH]; cbn; [discriminate|].
  destruct (String.eqb k id) eqn:E.
  - apply String.eqb_eq in E. intros H. injection H as <-. left. congruence.
  - intros H. right. apply IH. exact H.
Qed.

Lemma in_find id m v :
  List.NoDup (map fst m) -> In (id, v) m -> find id m = Some v.
Proof.
  induction m as [|[k x] rest IH]; cbn; intros Hnd Hin; [destruct Hin|].
  inversion Hnd as [|? ? Hk Hrest]; subst.
  destruct Hin as [Heq|Hin].
  - injection Heq as -> ->. rewrite String.eqb_refl. reflexivity.
  - destruct (String.eqb k id) eqn:E; [|apply IH; assumption].
    apply String.eqb_eq in E. subst k. exfalso. apply Hk.
    apply in_map_iff. exists (id, v). split; [reflexivity | exact Hin].
Qed.

Lemma tab_at_page_of id w info :
  List.NoDup (map fst (tab_widgets_ w)) -> distinct_pages w ->
  find id (tab_widgets_ w) = Some info ->
  tab_at_page (page_num info) (tab_widgets_ w) = id.
Proof.
  intros Hnd Hd Hfind.
  assert (H : forall m,
            (forall k v, In (k, v) m -> find k (tab_widgets_ w) = Some v) ->
            (exists v, In (id, v) m /\ page_num v = page_num info) ->
            tab_at_page (page_num info) m = id).
  { induction m as [|[k x] rest IH]; intros Hall (v & Hin & Hv); [destruct Hin|].
    cbn. destruct (page_num x =? page_num info) eqn:E.
    - apply Z.eqb_eq in E.
      apply (Hd k id (page_num info)).
      + rewrite <- E. apply page_of_some. apply Hall. left. reflexivity.
      + apply page_of_some. exact Hfind.
    - apply IH.
      + intros k' v' Hin'. apply Hall. right. exact Hin'.
      + destruct Hin as [Heq|Hin].
        * injection Heq as -> ->. apply Z.eqb_neq in E. congruence.
        * exists v. split; assumption. }
  apply H.
  - intros k v Hin. apply in_find; assumption.
  - exists info. split; [apply find_in; exact Hfind | reflexivity].
Qed.

(** *** The lifecycle of a slot *)

(** [create_tab_content] always settles the slot it is called for. *)
Lemma create_tab_content_settles env id p w :
  slot_state id (create_tab_content env id p w) = Loaded
  \/ slot_state id (create_tab_content env id p w) = Failed.
Proof.
  unfold create_tab_content. cbv zeta.
  destruct (loaded (entry id (tab_widgets_ (with_tabs (touch id (tab_widgets_ w)) w))))
    eqn:Hl.
  { left. apply loaded_slot. exact Hl. }
  cbn [tab_widgets_ with_tabs] in Hl. rewrite entry_touch in Hl.
  assert (Hfailed : forall what es,
            slot_state id
              {| notebook_ := notebook_ w; initial_tab_ := initial_tab_ w;
                 prevent_auto_loading_ := prevent_auto_loading_ w;
                 tab_widgets_ := update id (set_loading false) (touch id (tab_widgets_ w));
                 tab_load_errors_ := <[id := what]> (tab_load_errors_ w);
                 switch_guard := switch_guard w; now := now w; timers := timers w;
                 effects := es |} = Failed).
  { intros what es. unfold slot_state. cbn [tab_widgets_ tab_load_errors_].
    rewrite entry_update_same, entry_touch. cbn. rewrite Hl, lookup_insert_eq.
    reflexivity. }
  cbn [tab_widgets_ with_tabs].
  destruct (find id (touch id (tab_widgets_ w))) as [info|] eqn:Hf.
  - repeat break_match; try (right; apply Hfailed);
      left; apply loaded_slot; cbn; rewrite entry_update_same; reflexivity.
  - exfalso. unfold touch in Hf.
    destruct (find id (tab_widgets_ w)) eqn:E; [congruence|].
    rewrite find_assign_same in Hf. discriminate.
Qed.

Lemma left_placeholder id w :
  slot_state id w <> Placeholder <->
  loaded (entry id (tab_widgets_ w)) = true
  \/ loading (entry id (tab_widgets_ w)) = true
  \/ tab_load_errors_ w !! id <> None.
Proof.
  unfold slot_state.
  destruct (loaded (entry id (tab_widgets_ w)));
    [split; [auto | discriminate]|].
  destruct (loading (entry id (tab_widgets_ w)));
    [split; [auto | discriminate]|].
  destruct (tab_load_errors_ w !! id) eqn:E.
  - split; [intros _; right; right; discriminate | discriminate].
  - split; [congruence | intros [H|[H|H]]; congruence].
Qed.

(** A handler that acts for [id'] keeps a slot away from Placeholder. *)
Lemma away_touches id id' w w' :
  touches_only id' w w' -> grows w w' ->
  (id' = id -> slot_state id w = Loading \/ slot_state id w = Loaded ->
   slot_state id w' <> Placeholder) ->
  slot_state id w <> Placeholder -> slot_state id w' <> Placeholder.
Proof.
  intros Ht (_ & _ & Herr & _) Hsame Hleft.
  destruct (String.eqb id id') eqn:E.
  - apply String.eqb_eq in E. subst id'.
    destruct (slot_state id w) eqn:Es; try congruence.
    + apply Hsame; auto.
    + apply Hsame; auto.
    + unfold slot_state in Es.
      destruct (loaded (entry id (tab_widgets_ w))); [discriminate|].
      destruct (loading (entry id (tab_widgets_ w))); [discriminate|].
      destruct (tab_load_errors_ w !! id) as [e|] eqn:Ee; [|discriminate].
      destruct (Herr id e Ee) as (e' & He').
      apply left_placeholder. right. right. rewrite He'. discriminate.
  - apply String.eqb_neq in E.
    rewrite (touches_only_slot id' w w' Ht id E). exact Hleft.
Qed.

Lemma away_show_and_load env id id' page page' w :
  slot_state id w <> Placeholder ->
  slot_state id (load_tab_content_async id' page'
                   (show_loading_indicator env id' page w)) <> Placeholder.
Proof.
  apply (away_touches id id').
  - eapply touches_only_trans;
      [apply touches_only_show_loading_indicator
      | apply touches_only_load_tab_content_async].
  - apply grows_show_and_load.
  - intros -> Hbusy.
    rewrite (show_loading_indicator_guard env id page w Hbusy).
    destruct (busy_slot_registered id w Hbusy) as (info & Hfind & Hflags).
    assert (Htabs : tab_widgets_ (load_tab_content_async id page' w) = tab_widgets_ w).
    { unfold load_tab_content_async.
      rewrite (touch_found _ _ _ Hfind), with_tabs_same.
      repeat break_match; reflexivity. }
    apply left_placeholder. rewrite Htabs, (entry_found _ _ _ Hfind).
    apply orb_true_iff in Hflags. destruct Hflags; auto.
Qed.

Lemma away_create_tab_content env id id' page w :
  slot_state id w <> Placeholder ->
  slot_state id (create_tab_content env id' page w) <> Placeholder.
Proof.
  apply (away_touches id id').
  - apply touches_only_create_tab_content.
  - apply grows_create_tab_content.
  - intros -> _. destruct (create_tab_content_settles env id page w) as [-> | ->];
      discriminate.
Qed.

Lemma away_cosmetic id w w' :
  cosmetic w w' -> slot_state id w <> Placeholder -> slot_state id w' <> Placeholder.
Proof. intros Hc. rewrite (proj1 (cosmetic_counts w w' Hc id)). auto. Qed.

Lemma away_step env ev id w :
  slot_state id w <> Placeholder -> slot_state id (step env ev w) <> Placeholder.
Proof.
  intros Hleft. destruct ev as [page|id' button|id'| |dt]; cbn [step].
  - unfold on_tab_switch. destruct (switch_guard w); [exact Hleft|]. cbv zeta.
    destruct (exit_animation_frame 250 page w) as (_ & _ & Hc1 & _).
    set (w1 := exit_animation 250 page w) in *.
    pose proof (away_cosmetic id w w1 Hc1 Hleft) as H1.
    destruct (prevent_auto_loading_ w1 && _); [exact H1|].
    destruct (negb (String.eqb (tab_to_load page (tab_widgets_ w1)) EmptyString)).
    + assert (Hrel : forall w', slot_state id w' <> Placeholder ->
                slot_state id (connect_once ReleaseGuard 100 w') <> Placeholder)
        by (intros w' H; exact H).
      apply Hrel. destruct (String.eqb _ "power").
      * apply away_show_and_load. exact H1.
      * exact H1.
    + destruct (is_null _); [exact H1|].
      destruct (negb _ && _); [|exact H1].
      apply (away_cosmetic id w1); [apply entrance_animation_cosmetic | exact H1].
  - unfold on_label_press. destruct (button =? 1); [|exact Hleft].
    destruct (find id' (tab_widgets_ w)) as [it|]; [|exact Hleft]. cbv zeta.
    set (w1 := with_notebook _ w).
    assert (H1 : slot_state id w1 <> Placeholder) by exact Hleft.
    destruct (negb (loaded it) && negb (loading it)); cbn [fst]; [|exact H1].
    apply away_show_and_load. exact H1.
  - unfold switch_to_tab.
    destruct (find id' (tab_widgets_ w)) as [it|]; [|exact Hleft]. cbv zeta.
    destruct (exit_animation_frame 200 (page_num it) w) as (_ & _ & Hc1 & _).
    set (w1 := exit_animation 200 (page_num it) w) in *.
    pose proof (away_cosmetic id w w1 Hc1 Hleft) as H1.
    set (w2 := with_notebook _ w1).
    assert (H2 : slot_state id w2 <> Placeholder) by exact H1.
    destruct (negb (loaded it) && negb (loading it)).
    + apply away_show_and_load. exact H2.
    + destruct (loaded it); [|exact H2].
      destruct (is_null (widget it)); [exact H2|].
      apply (away_cosmetic id w2); [apply entrance_animation_cosmetic | exact H2].
  - destruct (earliest (timers w)) as [[[due tm] others]|]; [|exact Hleft].
    set (w1 := with_clock _ others w).
    assert (H1 : slot_state id w1 <> Placeholder) by exact Hleft.
    destruct tm as [id' page|id' page| |target|target msg]; cbn [fire].
    + apply away_show_and_load. exact H1.
    + apply away_create_tab_content. exact H1.
    + exact H1.
    + exact H1.
    + exact H1.
  - exact Hleft.
Qed.

(** X26.  A slot never goes back to Placeholder: once a tab is loading,
    loaded or failed, no event makes it a tab that was never asked for.  And
    [create_tab_content] never leaves the slot it is called for in between:
    afterwards the slot is Loaded or Failed, whatever it was before. *)
Theorem placeholder_is_never_reentered id evs : forall w,
  slot_state id w <> Placeholder ->
  slot_state id (run evs w) <> Placeholder
  /\ forall env page,
       slot_state id (create_tab_content env id page (run evs w)) = Loaded
       \/ slot_state id (create_tab_content env id page (run evs w)) = Failed.
Proof.
  induction evs as [|[ev env] rest IH]; intros w Hleft; cbn [run].
  - split; [exact Hleft | intros; apply create_tab_content_settles].
  - apply IH, away_step, Hleft.
Qed.

Lemma placeholder_is_never_reentered_witness :
  slot_state "wifi" (run (firstn 5 click_on_wifi) plain_window) = Failed
  /\ slot_state "wifi"
       (run [(SwitchPage 0, quiet); (Tick, quiet)]
          (run (firstn 5 click_on_wifi) plain_window))
     <> Placeholder.
Proof.
  split; [reflexivity|].
  refine (proj1 (placeholder_is_never_reentered "wifi"
                   [(SwitchPage 0, quiet); (Tick, quiet)]
                   (run (firstn 5 click_on_wifi) plain_window) _)).
  vm_compute. discriminate.
Defined.

(** *** The pages at startup *)

Lemma index_of_absent id l : ~ In id l -> index_of id l = None.
Proof.
  induction l as [|x rest IH]; intros Hnot; [reflexivity|]. cbn.
  destruct (String.eqb x id) eqn:E.
  - apply String.eqb_eq in E. exfalso. apply Hnot. left. exact E.
  - rewrite IH; [reflexivity|]. intros H. apply Hnot. right. exact H.
Qed.

Lemma n_pages_add_tab id w :
  get_n_pages (notebook_ (add_tab id w)) = get_n_pages (notebook_ w) + 1.
Proof.
  unfold add_tab. pose proof (append_page_spec PlaceholderBox (notebook_ w)) as [_ Hn].
  destruct (append_page PlaceholderBox (notebook_ w)) as [nb q]. exact Hn.
Qed.

Lemma create_tabs_pages order enabled : forall w id,
  List.NoDup order ->
  page_of id (create_tabs order enabled w)
  = match index_of id (visible order enabled) with
    | Some i => Some (get_n_pages (notebook_ w) + i)
    | None => page_of id w
    end
  /\ get_n_pages (notebook_ (create_tabs order enabled w))
     = get_n_pages (notebook_ w) + Z.of_nat (length (visible order enabled)).
Proof.
  induction order as [|x rest IH]; intros w id Hnd.
  - cbn. split; [reflexivity | lia].
  - inversion Hnd as [|? ? Hx Hrest]; subst.
    cbn [create_tabs]. unfold visible in *. cbn [List.filter].
    destruct (enabled x); cbn [andb]; [|apply IH; exact Hrest].
    destruct (tab_label x) as [lbl|]; [|apply IH; exact Hrest].
    destruct (IH (add_tab x w) id Hrest) as [Hp Hn].
    rewrite Hp, Hn, n_pages_add_tab, page_of_add_tab. cbn [index_of length].
    split; [|lia].
    destruct (String.eqb x id) eqn:E.
    + apply String.eqb_eq in E. subst x.
      rewrite index_of_absent; [f_equal; lia|].
      intros Hin. apply Hx. apply filter_In in Hin. apply Hin.
    + destruct (index_of id _) as [i|]; cbn; [f_equal; lia | reflexivity].
Qed.

(** X27.  The pages at startup follow the configured order: with no tab
    listed twice, the enabled tabs that are panels (the initial tab counts as
    enabled) get the pages 0, 1, 2, ... in the order of the settings, the
    notebook has exactly these pages, and no other tab is registered. *)
Theorem startup_pages_follow_order env initial_tab order enabled :
  List.NoDup order ->
  let w := new_window env initial_tab order enabled in
  (forall id,
     page_of id w = index_of id (visible order (enabled_with initial_tab enabled)))
  /\ get_n_pages (notebook_ w)
     = Z.of_nat (length (visible order (enabled_with initial_tab enabled))).
Proof.
  intros Hnd. cbv zeta. rewrite new_window_unfold. cbv zeta.
  fold (enabled_with initial_tab enabled).
  set (w1 := create_tabs order (enabled_with initial_tab enabled)
               (empty_window initial_tab)).
  assert (H1 : (forall id, page_of id w1
                  = index_of id (visible order (enabled_with initial_tab enabled)))
               /\ get_n_pages (notebook_ w1)
                  = Z.of_nat (length (visible order (enabled_with initial_tab enabled)))).
  { split.
    - intros id.
      destruct (create_tabs_pages order (enabled_with initial_tab enabled)
                  (empty_window initial_tab) id Hnd) as [Hp _].
      fold w1 in Hp. rewrite Hp.
      destruct (index_of id _) as [i|]; [|reflexivity]. reflexivity.
    - destruct (create_tabs_pages order (enabled_with initial_tab enabled)
                  (empty_window initial_tab) EmptyString Hnd) as [_ Hn].
      exact Hn. }
  destruct (negb (String.eqb initial_tab EmptyString)); [|exact H1].
  destruct (keeps_switch_to_tab env initial_tab w1) as [[Hlay Hn] _].
  destruct H1 as [Hp1 Hn1]. split.
  - intros id. rewrite <- Hp1. apply find_layout. exact Hlay.
  - rewrite Hn. exact Hn1.
Qed.

Lemma startup_pages_follow_order_witness :
  List.NoDup all_tabs
  /\ page_of "display" (new_window quiet "power" all_tabs (fun id => String.eqb id "wifi"))
     = index_of "display"
         (visible all_tabs (enabled_with "power" (fun id => String.eqb id "wifi"))).
Proof.
  assert (H : List.NoDup all_tabs).
  { unfold all_tabs.
    repeat (apply List.NoDup_cons;
            [cbn; intros H; repeat (destruct H as [H|H]; [discriminate|]); exact H|]).
    apply List.NoDup_nil. }
  split; [exact H|].
  exact (proj1 (startup_pages_follow_order quiet "power" all_tabs
                  (fun id => String.eqb id "wifi") H) "display").
Defined.

(** *** The options of [main] *)

(** X28.  How [main] starts the window: the startup policy is on exactly
    when one of the six tab options was given, the initial tab of the window
    is the one that the option chain of [main] chose, and that tab is no panel
    exactly when none of the five panel options was given (so with the
    settings option alone the policy is on for a tab that does not exist). *)
Theorem initial_tab_from_options env order enabled
    (volume_opt wifi_opt bluetooth_opt display_opt power_opt settings_opt : bool) :
  let t := initial_tab_option volume_opt wifi_opt bluetooth_opt display_opt
             power_opt settings_opt in
  prevent_auto_loading_ (new_window env t order enabled)
  = volume_opt || wifi_opt || bluetooth_opt || display_opt || power_opt || settings_opt
  /\ initial_tab_ (new_window env t order enabled) = t
  /\ (tab_label t = None
      <-> volume_opt || wifi_opt || bluetooth_opt || display_opt || power_opt = false).
Proof.
  cbv zeta.
  pose proof (policy_new_window env
                (initial_tab_option volume_opt wifi_opt bluetooth_opt display_opt
                   power_opt settings_opt) order enabled) as Hpol.
  unfold policy in Hpol. injection Hpol as Hprev Hinit.
  rewrite Hprev, Hinit. clear Hprev Hinit.
  destruct volume_opt, wifi_opt, bluetooth_opt, display_opt, power_opt, settings_opt;
    vm_compute; repeat split; intros; congruence.
Qed.

End MainWindowExtra.

(* ===================================================================== *)
(** ** Properties of the main window with the notebook's signal *)
(* ===================================================================== *)

Module ReentrantProps.
Import MainWindow MainWindowProps MainWindowExtra Reentrant.
Local Open Scope Z_scope.

(** *** Deliveries while the guard is set *)

Lemma returns_at_guard_respecting : guard_respecting returns_at_guard.
Proof. intros locked page w _. reflexivity. Qed.

Lemma on_tab_switch_respecting env : guard_respecting (on_tab_switch env).
Proof.
  intros locked page w Hg. unfold on_tab_switch, on_tab_switch_body.
  rewrite Hg. reflexivity.
Qed.

Lemma announce_guarded d locked emitted w :
  guard_respecting d -> switch_guard w = true ->
  announce d locked emitted w = Finished w.
Proof.
  intros Hd Hg. destruct emitted as [page|]; [apply Hd; exact Hg | reflexivity].
Qed.

Lemma set_current_page_guarded d locked n w :
  guard_respecting d -> switch_guard w = true ->
  set_current_page d locked n w
  = Finished (with_notebook (fst (select_page n (notebook_ w))) w).
Proof.
  intros Hd Hg. unfold set_current_page.
  destruct (select_page n (notebook_ w)) as [nb e]. apply announce_guarded; assumption.
Qed.

Lemma remove_page_guarded d locked n w :
  guard_respecting d -> switch_guard w = true ->
  remove_page d locked n w
  = Finished (with_notebook (fst (take_page n (notebook_ w))) w).
Proof.
  intros Hd Hg. unfold remove_page.
  destruct (take_page n (notebook_ w)) as [nb e]. apply announce_guarded; assumption.
Qed.

Lemma insert_page_guarded d locked child position w :
  guard_respecting d -> switch_guard w = true ->
  insert_page d locked child position w
  = Finished (with_notebook (fst (put_page child position (notebook_ w))) w).
Proof.
  intros Hd Hg. unfold insert_page.
  destruct (put_page child position (notebook_ w)) as [nb e].
  apply announce_guarded; assumption.
Qed.

(** Under the guard [show_loading_indicator] does not depend on the handler
    it delivers to. *)
Lemma show_loading_indicator_guarded d1 d2 env id page w :
  guard_respecting d1 -> guard_respecting d2 -> switch_guard w = true ->
  show_loading_indicator d1 env id page w = show_loading_indicator d2 env id page w.
Proof.
  intros H1 H2 Hg. unfold show_loading_indicator.
  repeat match goal with
         | |- (if ?b then _ else _) = (if ?b then _ else _) => destruct b
         | |- match ?x with _ => _ end = match ?x with _ => _ end => destruct x
         end; try reflexivity.
  rewrite !remove_page_guarded by assumption. cbn [and_then].
  rewrite !insert_page_guarded by assumption. cbn [and_then].
  destruct (_ =? _); [reflexivity|].
  rewrite !set_current_page_guarded by assumption. reflexivity.
Qed.

(** [on_tab_switch] satisfies its own recursive description: with itself as
    the handler of the deliveries it causes, its body does what it does. *)
Lemma on_tab_switch_nested env locked page w :
  on_tab_switch_body (on_tab_switch env) env locked page w
  = on_tab_switch env locked page w.
Proof.
  unfold on_tab_switch at 2. unfold on_tab_switch_body.
  repeat match goal with
         | |- (if ?b then _ else _) = (if ?b then _ else _) => destruct b
         end; try reflexivity.
  unfold show_and_load.
  rewrite (show_loading_indicator_guarded (on_tab_switch env) returns_at_guard);
    [reflexivity | apply on_tab_switch_respecting
     | apply returns_at_guard_respecting | reflexivity].
Qed.

(** C4 (the code at the failing input).  The window is started on the wifi
    tab: the constructor selects it once.  When the constructor returns the
    slot is Loading with one construction scheduled, and the timer that
    [on_tab_switch] set during the selection is pending; when that timer has
    run, 50 ms later, the slot is still Loading, no constructor has been
    called, and two constructions are scheduled for it. *)
Theorem one_select_two_requests :
  let r0 := started_on_wifi in
  let r1 := and_then r0 (run [(Tick, quiet)]) in
  finished r0 = true
  /\ slot_state "wifi" (window_of r0) = Loading
  /\ requests "wifi" (window_of r0) = 1%nat
  /\ timers (window_of r0)
     = [(50, ShowAndLoad "wifi" 1); (100, ReleaseGuard); (100, CreateContent "wifi" 1)]
  /\ finished r1 = true
  /\ slot_state "wifi" (window_of r1) = Loading
  /\ constructions "wifi" (window_of r1) = 0%nat
  /\ requests "wifi" (window_of r1) = 2%nat
  /\ timers (window_of r1)
     = [(100, ReleaseGuard); (100, CreateContent "wifi" 1);
        (150, CreateContent "wifi" 1)].
Proof. vm_compute. repeat split; reflexivity. Qed.

(** *** Selecting a loaded tab *)

Lemma swaps_refl w : swaps w w.
Proof.
  split; [apply cosmetic_refl|]. split; [reflexivity|].
  exists []. split; [symmetry; apply app_nil_r | constructor].
Qed.

Lemma swaps_trans w1 w2 w3 : swaps w1 w2 -> swaps w2 w3 -> swaps w1 w3.
Proof.
  intros (C1 & P1 & e1 & E1 & A1) (C2 & P2 & e2 & E2 & A2).
  split; [eapply cosmetic_trans; eassumption|].
  split; [congruence|].
  exists (e1 ++ e2)%list. split; [rewrite E2, E1, app_assoc; reflexivity|].
  apply Forall_app. split; assumption.
Qed.

Lemma swaps_exit_animation d p w : swaps w (exit_animation d p w).
Proof.
  destruct (exit_animation_frame d p w) as (Hnb & _ & Hc & _).
  split; [exact Hc|]. split; [rewrite Hnb; reflexivity|].
  unfold exit_animation.
  repeat match goal with
         | |- context [if ?b then _ else _] => destruct b
         end;
    first [ exists []; split; [symmetry; apply app_nil_r | constructor]
          | eexists; split; [reflexivity | repeat constructor] ].
Qed.

Lemma swaps_entrance_animation target msg w :
  swaps w (entrance_animation target msg w).
Proof.
  split; [apply entrance_animation_cosmetic|]. split; [reflexivity|].
  eexists. split.
  - unfold entrance_animation, connect_once, with_clock, effect. cbn.
    rewrite <- app_assoc. reflexivity.
  - repeat constructor.
Qed.

Lemma swaps_with_notebook nb w :
  pages nb = pages (notebook_ w) -> swaps w (with_notebook nb w).
Proof.
  intros H. split; [apply with_notebook_cosmetic|]. split; [exact H|].
  exists []. split; [symmetry; apply app_nil_r | constructor].
Qed.

Lemma exit_animation_same_page d p w :
  current_page (notebook_ w) = p -> exit_animation d p w = w.
Proof.
  intros H. unfold exit_animation. rewrite H, Z.eqb_refl.
  rewrite andb_false_r. reflexivity.
Qed.

(** No tab waits to be loaded on a page whose only tab is loaded. *)
Lemma tab_to_load_none id info w :
  List.NoDup (map fst (tab_widgets_ w)) -> distinct_pages w ->
  find id (tab_widgets_ w) = Some info -> loaded info = true ->
  tab_to_load (page_num info) (tab_widgets_ w) = EmptyString.
Proof.
  intros Hnd Hdist Hfind Hl.
  destruct (String.eqb (tab_to_load (page_num info) (tab_widgets_ w)) EmptyString)
    eqn:E; [apply String.eqb_eq; exact E|].
  apply String.eqb_neq in E.
  destruct (tab_to_load_found _ _ _ Hnd eq_refl E) as (i & Hf & Hp & Hli & _).
  assert (Hsame : tab_to_load (page_num info) (tab_widgets_ w) = id).
  { apply (Hdist _ _ (page_num info)); unfold page_of.
    - rewrite Hf. cbn. rewrite Hp. reflexivity.
    - rewrite Hfind. reflexivity. }
  rewrite Hsame in Hf. congruence.
Qed.

(** A delivery for a page on which no tab waits to be loaded, made without
    the lock held. *)
Lemma on_tab_switch_swaps env page w :
  tab_to_load page (tab_widgets_ w) = EmptyString ->
  exists w',
    on_tab_switch env false page w = Finished w'
    /\ swaps w w' /\ notebook_ w' = notebook_ w.
Proof.
  intros Hnone. unfold on_tab_switch, on_tab_switch_body.
  destruct (switch_guard w);
    [exists w; split; [reflexivity | split; [apply swaps_refl | reflexivity]]|].
  pose proof (swaps_exit_animation 250 page w) as Hs.
  destruct (exit_animation_frame 250 page w) as (Hnb & _ & (Htabs & _) & _).
  set (w1 := exit_animation 250 page w) in *.
  destruct (prevent_auto_loading_ w1 && _);
    [exists w1; split; [reflexivity | split; assumption]|].
  rewrite Htabs, Hnone. cbn [String.eqb negb].
  destruct (is_null _); [exists w1; split; [reflexivity | split; assumption]|].
  destruct (_ && _).
  - eexists. split; [reflexivity|]. split; [|exact Hnb].
    eapply swaps_trans; [exact Hs | apply swaps_entrance_animation].
  - exists w1. split; [reflexivity | split; assumption].
Qed.

Lemma select_page_valid n nb :
  0 <= n < get_n_pages nb ->
  select_page n nb
  = if current_page nb =? n then (nb, None)
    else ({| pages := pages nb; current_page := n |}, Some n).
Proof.
  intros Hn. unfold select_page, resolve.
  destruct (n <? 0) eqn:E0; [apply Z.ltb_lt in E0; lia|].
  destruct (n <? get_n_pages nb) eqn:E1; [|apply Z.ltb_ge in E1; lia].
  rewrite Z2Nat.id by lia. reflexivity.
Qed.

(** C5.  Selecting a tab that is loaded, in a window where no two tabs
    have the same page: the call returns; it changes the lifecycle of no
    slot, schedules no construction and calls no constructor (the window runs
    external commands only inside the constructors of the panels); the slot
    stays Loaded with the content it has; the notebook keeps its pages and
    shows the page of the tab; and every effect added is one of an
    animation, the last of them the entrance animation of the content. *)
Theorem select_loaded_swaps_only env id info w :
  find id (tab_widgets_ w) = Some info ->
  loaded info = true ->
  List.NoDup (map fst (tab_widgets_ w)) ->
  distinct_pages w ->
  0 <= page_num info < get_n_pages (notebook_ w) ->
  exists w',
    switch_to_tab (on_tab_switch env) env id w = Finished w'
    /\ cosmetic w w'
    /\ find id (tab_widgets_ w') = Some info
    /\ slot_state id w' = Loaded
    /\ (forall id', slot_state id' w' = slot_state id' w
                    /\ requests id' w' = requests id' w
                    /\ constructions id' w' = constructions id' w)
    /\ pages (notebook_ w') = pages (notebook_ w)
    /\ current_page (notebook_ w') = page_num info
    /\ exists added,
         effects w' = (effects w ++ added)%list
         /\ Forall is_animation added
         /\ (is_null (widget info) = false ->
             exists before,
               added = (before ++ [SetOpacity (widget info) 0;
                                   AddClass (widget info) "animate-in"])%list).
Proof.
  intros Hfind Hloaded Hnd Hdist Hpage.
  assert (Hmain : exists w',
            switch_to_tab (on_tab_switch env) env id w = Finished w'
            /\ swaps w w'
            /\ current_page (notebook_ w') = page_num info
            /\ (is_null (widget info) = false ->
                exists w0, swaps w w0
                  /\ effects w'
                     = (effects w0 ++ [SetOpacity (widget info) 0;
                                       AddClass (widget info) "animate-in"])%list)).
  { unfold switch_to_tab. rewrite Hfind.
    pose proof (swaps_exit_animation 200 (page_num info) w) as Hs1.
    destruct (exit_animation_frame 200 (page_num info) w)
      as (Hnb1 & _ & (Htabs1 & _) & _).
    set (w1 := exit_animation 200 (page_num info) w) in *.
    assert (Hset : exists w2,
              set_current_page (on_tab_switch env) false (page_num info) w1
              = Finished w2
              /\ swaps w1 w2 /\ current_page (notebook_ w2) = page_num info).
    { unfold set_current_page.
      rewrite select_page_valid by (rewrite Hnb1; exact Hpage).
      destruct (current_page (notebook_ w1) =? page_num info) eqn:Ecur.
      - apply Z.eqb_eq in Ecur. cbn [announce].
        exists (with_notebook (notebook_ w1) w1).
        split; [reflexivity|]. split; [|exact Ecur].
        apply swaps_with_notebook. reflexivity.
      - cbn [announce].
        set (w1' := with_notebook _ w1).
        destruct (on_tab_switch_swaps env (page_num info) w1') as (w2 & Hr & Hs & Hn).
        { change (tab_widgets_ w1') with (tab_widgets_ w1). rewrite Htabs1.
          apply (tab_to_load_none id info w); assumption. }
        exists w2. split; [exact Hr|]. split.
        + eapply swaps_trans; [|exact Hs]. apply swaps_with_notebook. reflexivity.
        + rewrite Hn. reflexivity. }
    destruct Hset as (w2 & Hr2 & Hs2 & Hcur2). rewrite Hr2. cbn [and_then].
    pose proof (swaps_trans _ _ _ Hs1 Hs2) as Hs12.
    destruct Hs12 as ((Htabs2 & Hrest) & Hp2 & Heff2).
    assert (Hs12 : swaps w w2) by (split; [split; assumption | split; assumption]).
    rewrite Htabs2, (entry_found _ _ _ Hfind), Hloaded. cbn [negb andb].
    destruct (is_null (widget info)) eqn:Enull.
    - exists w2. split; [reflexivity|]. split; [exact Hs12|].
      split; [exact Hcur2 | discriminate].
    - eexists. split; [reflexivity|]. split.
      + eapply swaps_trans; [exact Hs12 | apply swaps_entrance_animation].
      + split; [exact Hcur2|]. intros _. exists w2. split; [exact Hs12|].
        unfold entrance_animation, connect_once, with_clock, effect. cbn.
        rewrite <- app_assoc. reflexivity. }
  destruct Hmain as (w' & Hr & (Hc & Hp & added & Heff & Hanim) & Hcur & Hlast).
  exists w'. split; [exact Hr|]. split; [exact Hc|].
  pose proof (cosmetic_counts _ _ Hc) as Hcounts.
  destruct Hc as (Htabs & _).
  split; [rewrite Htabs; exact Hfind|].
  split; [unfold slot_state;
          rewrite Htabs, (entry_found _ _ _ Hfind), Hloaded; reflexivity|].
  split; [exact Hcounts|]. split; [exact Hp|]. split; [exact Hcur|].
  exists added. split; [exact Heff|]. split; [exact Hanim|].
  intros Hnn. destruct (Hlast Hnn) as (w0 & (_ & _ & before & Hb & _) & He).
  exists before. rewrite He, Hb, <- app_assoc in Heff.
  apply app_inv_head in Heff. symmetry. exact Heff.
Qed.

Lemma select_loaded_swaps_only_witness :
  exists w',
    switch_to_tab (on_tab_switch quiet) quiet "wifi" wifi_loaded = Finished w'
    /\ cosmetic wifi_loaded w'
    /\ current_page (notebook_ w') = 1.
Proof.
  destruct (select_loaded_swaps_only quiet "wifi"
              {| widget := TabContent "wifi"; page_num := 1;
                 loaded := true; loading := false |} wifi_loaded)
    as (w' & Hr & Hc & _ & _ & _ & _ & Hcur & _).
  - reflexivity.
  - reflexivity.
  - vm_compute. repeat (constructor; [cbn; intuition discriminate|]). constructor.
  - intros a b p. unfold page_of. vm_compute tab_widgets_.
    cbn [find].
    repeat match goal with
           | |- context [String.eqb ?x a] => destruct (String.eqb x a) eqn:?
           end;
    repeat match goal with
           | |- context [String.eqb ?x b] => destruct (String.eqb x b) eqn:?
           end;
    cbn; intros Ha Hb; try discriminate;
    repeat match goal with
           | H : String.eqb _ _ = true |- _ => apply String.eqb_eq in H
           end; congruence.
  - vm_compute. split; [discriminate | reflexivity].
  - exists w'. split; [exact Hr|]. split; [exact Hc | exact Hcur].
Defined.

(** *** The startup policy *)

Lemma policy_and_then r k :
  (forall w, policy (window_of (k w)) = policy w) ->
  policy (window_of (and_then r k)) = policy (window_of r).
Proof. intros Hk. destruct r as [w|w]; cbn; [apply Hk | reflexivity]. Qed.

Section Policy.

Variable deliver : bool -> Z -> Window -> Result.
Hypothesis deliver_policy :
  forall locked page w, policy (window_of (deliver locked page w)) = policy w.

Lemma policy_announce locked emitted w :
  policy (window_of (announce deliver locked emitted w)) = policy w.
Proof. destruct emitted; [apply deliver_policy | reflexivity]. Qed.

Lemma policy_set_current_page locked n w :
  policy (window_of (set_current_page deliver locked n w)) = policy w.
Proof.
  unfold set_current_page. destruct (select_page n (notebook_ w)).
  rewrite policy_announce. reflexivity.
Qed.

Lemma policy_remove_page locked n w :
  policy (window_of (remove_page deliver locked n w)) = policy w.
Proof.
  unfold remove_page. destruct (take_page n (notebook_ w)).
  rewrite policy_announce. reflexivity.
Qed.

Lemma policy_insert_page locked child position w :
  policy (window_of (insert_page deliver locked child position w)) = policy w.
Proof.
  unfold insert_page. destruct (put_page child position (notebook_ w)).
  rewrite policy_announce. reflexivity.
Qed.

Ltac policy_pieces :=
  repeat first
    [ reflexivity
    | rewrite policy_and_then; [|intros]
    | rewrite policy_set_current_page
    | rewrite policy_remove_page
    | rewrite policy_insert_page
    | rewrite policy_load_tab_content_async
    | rewrite policy_entrance_animation
    | rewrite policy_exit_animation
    | match goal with
      | |- context [if ?b then _ else _] => destruct b
      | |- context [match ?x with _ => _ end] => destruct x
      end; cbn [window_of] ].

Lemma policy_in_show_loading_indicator env id page w :
  policy (window_of (show_loading_indicator deliver env id page w)) = policy w.
Proof. unfold show_loading_indicator. policy_pieces. Qed.

Lemma policy_in_create_tab_content env id page w :
  policy (window_of (create_tab_content deliver env id page w)) = policy w.
Proof. unfold create_tab_content. policy_pieces. Qed.

Lemma policy_show_and_load env id page w :
  policy (window_of (show_and_load deliver env id page w)) = policy w.
Proof.
  unfold show_and_load. rewrite policy_and_then.
  - apply policy_in_show_loading_indicator.
  - intros w1. cbn. apply policy_load_tab_content_async.
Qed.

Lemma policy_in_switch_to_tab env id w :
  policy (window_of (switch_to_tab deliver env id w)) = policy w.
Proof.
  unfold switch_to_tab. destruct (find id (tab_widgets_ w)); [|reflexivity].
  rewrite policy_and_then.
  - rewrite policy_set_current_page. apply policy_exit_animation.
  - intros w1.
    repeat match goal with
           | |- context [if ?b then _ else _] => destruct b
           end; cbn [window_of];
      rewrite ?policy_show_and_load, ?policy_entrance_animation; reflexivity.
Qed.

Lemma policy_in_on_label_press env id button w :
  policy (window_of (on_label_press deliver env id button w)) = policy w.
Proof.
  unfold on_label_press. destruct (button =? 1); [|reflexivity].
  destruct (find id (tab_widgets_ w)); [|reflexivity].
  rewrite policy_and_then.
  - apply policy_set_current_page.
  - intros w1. destruct (_ && _); [apply policy_show_and_load | reflexivity].
Qed.

Lemma policy_on_tab_switch_body env locked page w :
  policy (window_of (on_tab_switch_body deliver env locked page w)) = policy w.
Proof.
  unfold on_tab_switch_body.
  destruct (switch_guard w); [reflexivity|].
  destruct (_ && _); [apply policy_exit_animation|].
  destruct locked; [apply policy_exit_animation|].
  destruct (negb _).
  - rewrite policy_and_then by (intros; reflexivity).
    destruct (String.eqb _ "power").
    + rewrite policy_show_and_load. apply policy_exit_animation.
    + apply policy_exit_animation.
  - destruct (is_null _); [apply policy_exit_animation|].
    destruct (_ && _); [|apply policy_exit_animation].
    cbn [window_of]. rewrite policy_entrance_animation. apply policy_exit_animation.
Qed.

Lemma policy_in_add_tab id w :
  policy (window_of (add_tab deliver id w)) = policy w.
Proof.
  unfold add_tab. rewrite policy_and_then by (intros; reflexivity).
  apply policy_insert_page.
Qed.

Lemma policy_in_create_tabs order enabled : forall w,
  policy (window_of (create_tabs deliver order enabled w)) = policy w.
Proof.
  induction order as [|t rest IH]; intros w; cbn [create_tabs]; [reflexivity|].
  rewrite policy_and_then by exact IH.
  destruct (enabled t); [|reflexivity].
  destruct (tab_label t); [apply policy_in_add_tab | reflexivity].
Qed.

End Policy.

Lemma policy_in_on_tab_switch env locked page w :
  policy (window_of (on_tab_switch env locked page w)) = policy w.
Proof.
  apply policy_on_tab_switch_body. intros; reflexivity.
Qed.

Lemma policy_in_fire env t w : policy (window_of (fire env t w)) = policy w.
Proof.
  destruct t; cbn [fire window_of]; try reflexivity.
  - apply policy_show_and_load, policy_in_on_tab_switch.
  - apply policy_in_create_tab_content, policy_in_on_tab_switch.
Qed.

Lemma policy_of_step env ev w : policy (window_of (step env ev w)) = policy w.
Proof.
  destruct ev; cbn [step].
  - apply policy_set_current_page, policy_in_on_tab_switch.
  - apply policy_in_on_label_press, policy_in_on_tab_switch.
  - destruct (earliest (timers w)) as [[[due t] others]|]; [|reflexivity].
    rewrite policy_in_fire. reflexivity.
  - reflexivity.
Qed.

Lemma policy_of_run evs : forall w, policy (window_of (run evs w)) = policy w.
Proof.
  induction evs as [|[ev env] rest IH]; intros w; cbn [run]; [reflexivity|].
  rewrite policy_and_then by exact IH. apply policy_of_step.
Qed.

Lemma policy_of_new_window env initial_tab order enabled :
  policy (window_of (new_window env initial_tab order enabled))
  = (negb (String.eqb initial_tab EmptyString), initial_tab).
Proof.
  unfold new_window. rewrite policy_and_then.
  - rewrite policy_in_create_tabs by apply policy_in_on_tab_switch. reflexivity.
  - intros w. destruct (negb _); [|reflexivity].
    apply policy_in_switch_to_tab, policy_in_on_tab_switch.
Qed.

(** A delivery for a page whose tab is not the initial one, while the policy
    is on. *)
Lemma delivery_suppressed env locked page w :
  prevent_auto_loading_ w = true ->
  tab_at_page page (tab_widgets_ w) <> initial_tab_ w ->
  exists w',
    on_tab_switch env locked page w = Finished w'
    /\ idle w w' /\ notebook_ w' = notebook_ w.
Proof.
  intros Hprevent Hother. unfold on_tab_switch, on_tab_switch_body.
  destruct (switch_guard w);
    [exists w; split; [reflexivity | split; [apply idle_refl | reflexivity]]|].
  destruct (exit_animation_frame 250 page w) as (Hnb & _ & Hc & _).
  pose proof Hc as (Htabs & _ & Hp & Hi & _).
  rewrite Hp, Hi, Htabs, Hprevent.
  apply String.eqb_neq in Hother. rewrite Hother. cbn [negb andb].
  eexists. split; [reflexivity|]. split; [apply idle_cosmetic; exact Hc | exact Hnb].
Qed.




(** *** Retrying a failed load *)

(** When the constructor throws, no notebook function is called. *)
Lemma create_tab_content_throwing d env id page w :
  factory env <> Returns ->
  create_tab_content d env id page w
  = Finished (MainWindow.create_tab_content env id page w).
Proof.
  intros Hfail. unfold create_tab_content, MainWindow.create_tab_content.
  cbv zeta.
  destruct (loaded _); [reflexivity|].
  destruct (find id _); [|reflexivity].
  destruct (tab_label id); [|reflexivity].
  destruct (factory env); [congruence | reflexivity | reflexivity].
Qed.

Lemma select_page_pages n nb : pages (fst (select_page n nb)) = pages nb.
Proof.
  unfold select_page. destruct (resolve n nb); [|reflexivity].
  destruct (_ =? _); reflexivity.
Qed.

(** [show_loading_indicator] while the guard is set, for a tab that is
    neither loaded nor loading. *)
Lemma show_loading_indicator_under_guard env id info w :
  find id (tab_widgets_ w) = Some info ->
  loaded info = false -> loading info = false ->
  tab_label id <> None ->
  0 <= page_num info < get_n_pages (notebook_ w) ->
  labels env = Returns ->
  switch_guard w = true ->
  exists w' info',
    show_loading_indicator (on_tab_switch env) env id (page_num info) w = Finished w'
    /\ find id (tab_widgets_ w') = Some info'
    /\ loaded info' = false /\ loading info' = true
    /\ tab_load_errors_ w' = tab_load_errors_ w
    /\ timers w' = timers w.
Proof.
  intros Hfind Hloaded Hloading Hknown Hpage Hok Hg.
  pose proof (on_tab_switch_respecting env) as Hd.
  unfold show_loading_indicator. cbv zeta.
  rewrite (touch_found _ _ _ Hfind).
  cbn [tab_widgets_ with_tabs notebook_].
  rewrite (entry_found _ _ _ Hfind), Hloaded, Hloading, Hfind. cbn [orb].
  destruct (page_num info <? 0) eqn:E0; [apply Z.ltb_lt in E0; lia|].
  destruct (get_n_pages (notebook_ w) <=? page_num info) eqn:E1;
    [apply Z.leb_le in E1; lia|].
  cbn [orb].
  destruct (tab_label id) as [lbl|]; [|congruence].
  rewrite Hok.
  rewrite remove_page_guarded by (assumption || exact Hg). cbn [and_then].
  rewrite insert_page_guarded by (assumption || exact Hg). cbn [and_then].
  match goal with
  | |- context [if ?c then Finished ?wa else set_current_page ?d ?l ?n ?wa] =>
      assert (Hs : exists nb,
                (if c then Finished wa else set_current_page d l n wa)
                = Finished (with_notebook nb wa));
      [ destruct c;
        [ exists (notebook_ wa); destruct wa; reflexivity
        | rewrite set_current_page_guarded by (assumption || exact Hg);
          eexists; reflexivity ]
      | destruct Hs as (nb & ->) ]
  end.
  do 2 eexists. split; [reflexivity|].
  cbn [tab_widgets_ tab_load_errors_ timers with_tabs with_notebook effect].
  rewrite find_update_same, entry_update_same, (entry_found _ _ _ Hfind).
  split; [reflexivity|]. cbn. repeat split; try reflexivity. exact Hloaded.
Qed.

(** A left click on the label of a tab that is neither loaded nor loading,
    while the guard is set. *)
Lemma label_press_under_guard env id info w :
  find id (tab_widgets_ w) = Some info ->
  loaded info = false -> loading info = false ->
  tab_label id <> None ->
  0 <= page_num info < get_n_pages (notebook_ w) ->
  labels env = Returns ->
  switch_guard w = true ->
  exists w',
    on_label_press (on_tab_switch env) env id 1 w = Finished w'
    /\ slot_state id w' = Loading
    /\ requests id w' = S (requests id w).
Proof.
  intros Hfind Hloaded Hloading Hknown Hpage Hok Hg.
  pose proof (on_tab_switch_respecting env) as Hd.
  unfold on_label_press. rewrite Z.eqb_refl, Hfind.
  rewrite set_current_page_guarded by assumption. cbn [and_then].
  set (w1 := with_notebook _ w).
  assert (Hn1 : get_n_pages (notebook_ w1) = get_n_pages (notebook_ w)).
  { unfold w1, get_n_pages. cbn. rewrite select_page_pages. reflexivity. }
  assert (Hf1 : find id (tab_widgets_ w1) = Some info) by exact Hfind.
  rewrite (entry_found _ _ _ Hf1), Hloaded, Hloading. cbn [negb andb].
  unfold show_and_load.
  destruct (show_loading_indicator_under_guard env id info w1)
    as (w2 & i2 & -> & Hf2 & Hl2 & Hg2 & He2 & Ht2);
    try assumption; [rewrite Hn1; exact Hpage|].
  cbn [and_then]. eexists. split; [reflexivity|].
  unfold load_tab_content_async. cbv zeta.
  rewrite (touch_found _ _ _ Hf2).
  cbn [tab_widgets_ with_tabs].
  rewrite (entry_found _ _ _ Hf2), Hl2, Hf2.
  split.
  - unfold slot_state.
    destruct (String.eqb id "power");
      cbn [tab_widgets_ connect_once with_clock with_tabs];
      rewrite (entry_found _ _ _ Hf2), Hl2, Hg2; reflexivity.
  - unfold requests.
    destruct (String.eqb id "power");
      cbn [timers connect_once with_clock with_tabs];
      rewrite Ht2, List.filter_app, length_app; cbn; rewrite String.eqb_refl;
      cbn; lia.
Qed.

(** A left click on the label of the tab whose page is showing, with the
    guard and the startup policy off and another page in the notebook:
    [show_loading_indicator] removes the page with [tab_mutex_] held, the
    notebook moves to the neighbour, and [on_tab_switch] locks the mutex
    again. *)
Lemma label_press_relocks env id info w :
  find id (tab_widgets_ w) = Some info ->
  loaded info = false -> loading info = false ->
  tab_label id <> None ->
  0 <= page_num info < get_n_pages (notebook_ w) ->
  labels env = Returns ->
  switch_guard w = false ->
  prevent_auto_loading_ w = false ->
  current_page (notebook_ w) = page_num info ->
  1 < get_n_pages (notebook_ w) ->
  finished (on_label_press (on_tab_switch env) env id 1 w) = false.
Proof.
  intros Hfind Hloaded Hloading Hknown Hpage Hok Hg Hprevent Hcur Hmore.
  unfold on_label_press. rewrite Z.eqb_refl, Hfind.
  unfold set_current_page at 1.
  rewrite select_page_valid by exact Hpage.
  rewrite Hcur, Z.eqb_refl. cbn [announce and_then].
  change (tab_widgets_ (with_notebook (notebook_ w) w)) with (tab_widgets_ w).
  rewrite (entry_found _ _ _ Hfind), Hloaded, Hloading. cbn [negb andb].
  unfold show_and_load, show_loading_indicator. cbv zeta.
  cbn [tab_widgets_ with_tabs with_notebook notebook_].
  rewrite (touch_found _ _ _ Hfind).
  rewrite (entry_found _ _ _ Hfind), Hloaded, Hloading, Hfind. cbn [orb].
  destruct (page_num info <? 0) eqn:E0; [apply Z.ltb_lt in E0; lia|].
  destruct (get_n_pages (notebook_ w) <=? page_num info) eqn:E1;
    [apply Z.leb_le in E1; lia|].
  cbn [orb].
  destruct (tab_label id) as [lbl|]; [|congruence].
  rewrite Hok.
  unfold remove_page at 1. cbn [notebook_ effect with_tabs with_notebook].
  assert (Htake : exists nb q, take_page (page_num info) (notebook_ w) = (nb, Some q)).
  { unfold take_page, resolve.
    rewrite E0.
    destruct (page_num info <? get_n_pages (notebook_ w)) eqn:E2;
      [|apply Z.ltb_ge in E2; lia].
    rewrite Z2Nat.id by lia. rewrite Hcur, Z.eqb_refl. cbv zeta.
    assert (Hlen : Z.of_nat (length (firstn (Z.to_nat (page_num info))
                                       (pages (notebook_ w))
                                     ++ skipn (S (Z.to_nat (page_num info)))
                                          (pages (notebook_ w)))%list)
                   = get_n_pages (notebook_ w) - 1).
    { unfold get_n_pages in *.
      rewrite length_app, length_firstn, length_skipn. lia. }
    rewrite Hlen.
    destruct (page_num info <? get_n_pages (notebook_ w) - 1) eqn:E4;
      [do 2 eexists; reflexivity|].
    destruct (0 <? page_num info) eqn:E3; [do 2 eexists; reflexivity|].
    apply Z.ltb_ge in E3, E4. lia. }
  destruct Htake as (nb & q & ->). cbn [announce].
  unfold on_tab_switch at 1. unfold on_tab_switch_body.
  cbn [switch_guard with_notebook effect with_tabs]. rewrite Hg.
  match goal with
  | |- context [exit_animation 250 q ?wx] =>
      destruct (exit_animation_frame 250 q wx) as (_ & _ & (_ & _ & Hp & _) & _);
      rewrite Hp
  end.
  cbn [prevent_auto_loading_ with_notebook effect with_tabs].
  rewrite Hprevent. reflexivity.
Qed.



End ReentrantProps.

(* ===================================================================== *)
(** ** Further properties of the settings tab *)
(* ===================================================================== *)

Module CoreExtra.
Import Core.

Local Arguments String.append !_ _ / : simpl nomatch.

(** *** The reader *)

Lemma string_app_assoc (a b c : string) : (a ++ b) ++ c = a ++ (b ++ c).
Proof. induction a as [|x a IH]; cbn; [reflexivity | rewrite IH; reflexivity]. Qed.

Lemma skipws_plain s r :
  plain s = true -> skipws (s ++ r) = s ++ r.
Proof.
  destruct s as [|c s]; [discriminate|].
  unfold plain. cbn. intros H.
  apply andb_prop in H as [Hc _].
  destruct (isspace c); [discriminate | reflexivity].
Qed.

Lemma word_no_space s c r :
  no_space s = true -> isspace c = true ->
  word (s ++ String c r) = (s, String c r).
Proof.
  intros Hs Hc. induction s as [|a s IH]; cbn.
  - rewrite Hc. reflexivity.
  - cbn in Hs. apply andb_prop in Hs as [Ha Hs].
    destruct (isspace a); [discriminate|].
    rewrite (IH Hs). reflexivity.
Qed.

Lemma extract_plain s c r :
  plain s = true -> isspace c = true ->
  extract (s ++ String c r) = Some (s, String c r).
Proof.
  intros Hs Hc. unfold extract. rewrite (skipws_plain _ _ Hs).
  unfold plain in Hs. apply andb_prop in Hs as [Hne Hns].
  pose proof (word_no_space _ _ r Hns Hc) as Hw.
  destruct s as [|a s]; [discriminate|].
  cbn [String.append] in *. rewrite Hw. reflexivity.
Qed.

Lemma extract_space c s :
  isspace c = true -> extract (String c s) = extract s.
Proof. intros Hc. unfold extract. cbn. rewrite Hc. reflexivity. Qed.

Lemma read_loop_space n c s m :
  isspace c = true -> read_loop n (String c s) m = read_loop n s m.
Proof.
  intros Hc. destruct n; [reflexivity|]. cbn.
  rewrite (extract_space _ _ Hc). reflexivity.
Qed.

Lemma isspace_blank : isspace " " = true.
Proof. reflexivity. Qed.

Lemma isspace_newline : isspace newline = true.
Proof. reflexivity. Qed.

(** One written pair is one round of the reading loop. *)
Lemma read_loop_write_pair n k v rest m :
  plain k = true -> plain v = true ->
  read_loop (S n) (write_pair (k, v) ++ rest) m = read_loop n rest (<[k := v]> m).
Proof.
  intros Hk Hv. unfold write_pair. cbn [fst snd read_loop].
  rewrite !string_app_assoc.
  change (" " ++ v ++ String newline "" ++ rest)
    with (String " " (v ++ String newline rest)).
  rewrite (extract_plain k " " _ Hk isspace_blank).
  rewrite (extract_space _ _ isspace_blank).
  rewrite (extract_plain v newline _ Hv isspace_newline).
  apply read_loop_space, isspace_newline.
Qed.

Lemma read_loop_written pairs : forall n m,
  Forall (fun kv => plain_pair kv.1 kv.2) pairs ->
  List.length pairs <= n ->
  read_loop n (written pairs) m = fold_left assign_pair pairs m.
Proof.
  induction pairs as [|[k v] pairs IH]; intros n m Hp Hn.
  - destruct n; reflexivity.
  - destruct n as [|n]; [cbn in Hn; lia|].
    apply Forall_cons_1 in Hp as [[Hk Hv] Hp].
    cbn [written fold_left]. rewrite (read_loop_write_pair _ _ _ _ _ Hk Hv).
    apply IH; [exact Hp | cbn in Hn; lia].
Qed.

Lemma length_append (a b : string) :
  String.length (a ++ b) = String.length a + String.length b.
Proof. induction a; cbn; [reflexivity | rewrite IHa; reflexivity]. Qed.

Lemma written_length pairs :
  List.length pairs <= String.length (written pairs).
Proof.
  induction pairs as [|[k v] pairs IH]; cbn [written List.length]; [lia|].
  unfold write_pair. rewrite !length_append. cbn. lia.
Qed.

Lemma fold_left_assign pairs : forall m,
  NoDup pairs.*1 ->
  fold_left assign_pair pairs m = list_to_map pairs ∪ m.
Proof.
  induction pairs as [|[k v] pairs IH]; intros m Hnd; cbn.
  - symmetry. apply (left_id _ _).
  - rewrite fmap_cons in Hnd. apply NoDup_cons in Hnd as [Hk Hnd].
    rewrite (IH _ Hnd). unfold assign_pair. cbn.
    rewrite <- insert_union_r, insert_union_l; [reflexivity|].
    apply not_elem_of_list_to_map_1. exact Hk.
Qed.

(** Pairs that are written in any order of the store are read back as the
    store. *)
Lemma read_pairs_written items (s : gmap string string) :
  items ≡ₚ map_to_list s ->
  map_Forall plain_pair s ->
  read_pairs (written items) ∅ = s.
Proof.
  intros Hperm Hplain. unfold read_pairs.
  assert (Hnd : NoDup items.*1).
  { rewrite Hperm. apply NoDup_fst_map_to_list. }
  rewrite read_loop_written.
  - rewrite (fold_left_assign _ _ Hnd), (right_id _ _).
    rewrite (list_to_map_proper _ _ Hnd Hperm). apply list_to_map_to_list.
  - apply Forall_forall. intros [k v] Hin. apply Hplain.
    apply elem_of_map_to_list. rewrite <- Hperm. exact Hin.
  - apply written_length.
Qed.

(** The length of the stream is enough fuel: more changes nothing. *)
Lemma skipws_length s : String.length (skipws s) <= String.length s.
Proof.
  induction s as [|c s IH]; cbn; [lia|].
  destruct (isspace c); cbn; lia.
Qed.

Lemma word_length s w r :
  word s = (w, r) -> String.length w + String.length r = String.length s.
Proof.
  revert w r. induction s as [|c s IH]; cbn; intros w r H.
  - injection H as <- <-. reflexivity.
  - destruct (isspace c).
    + injection H as <- <-. reflexivity.
    + destruct (word s) as [w' r'] eqn:E. injection H as <- <-.
      cbn. rewrite (IH _ _ eq_refl). reflexivity.
Qed.

Lemma word_nonempty c s :
  isspace c = false -> (word (String c s)).1 <> EmptyString.
Proof.
  intros Hc. cbn. rewrite Hc. destruct (word s). discriminate.
Qed.

Lemma skipws_head s c s' : skipws s = String c s' -> isspace c = false.
Proof.
  induction s as [|a s IH]; cbn; [discriminate|].
  destruct (isspace a) eqn:Ea; [exact IH|].
  intros H. injection H as <- <-. exact Ea.
Qed.

Lemma word_no_space_out s : no_space (word s).1 = true.
Proof.
  induction s as [|c s IH]; cbn; [reflexivity|].
  destruct (isspace c) eqn:Ec; [reflexivity|].
  destruct (word s) as [w r]. cbn in *. rewrite Ec. exact IH.
Qed.

(** What an extraction yields: a token that is plain, and a shorter stream. *)
Lemma extract_some s w r :
  extract s = Some (w, r) ->
  plain w = true /\ String.length r < String.length s.
Proof.
  unfold extract. destruct (skipws s) as [|c s'] eqn:E; [discriminate|].
  remember (String c s') as s1 eqn:Es1.
  intros H. injection H as H. subst s1.
  pose proof (skipws_head _ _ _ E) as Hc.
  pose proof (word_nonempty c s' Hc) as Hne.
  pose proof (word_no_space_out (String c s')) as Hns.
  pose proof (word_length _ _ _ H) as Hlen.
  pose proof (skipws_length s) as Hskip.
  rewrite H in Hne, Hns. cbn [fst] in Hne, Hns.
  split.
  - unfold plain. rewrite Hns. destruct w; [contradiction | reflexivity].
  - rewrite E in Hskip. rewrite <- Hlen in Hskip.
    destruct w; [contradiction|]. cbn in Hskip. lia.
Qed.

Lemma read_loop_enough : forall n n' s m,
  String.length s <= n -> String.length s <= n' ->
  read_loop n s m = read_loop n' s m.
Proof.
  induction n as [|n IH]; intros n' s m Hn Hn'.
  - destruct s; [|cbn in Hn; lia]. destruct n'; reflexivity.
  - destruct n' as [|n'].
    + destruct s; [reflexivity | cbn in Hn'; lia].
    + cbn. destruct (extract s) as [[k s1]|] eqn:E1; [|reflexivity].
      destruct (extract s1) as [[v s2]|] eqn:E2; [|reflexivity].
      apply extract_some in E1 as [_ H1]. apply extract_some in E2 as [_ H2].
      apply IH; lia.
Qed.

(** The reading loop stores plain keys and values only. *)
Lemma read_loop_plain : forall n s m,
  map_Forall plain_pair m -> map_Forall plain_pair (read_loop n s m).
Proof.
  induction n as [|n IH]; intros s m Hm; cbn; [exact Hm|].
  destruct (extract s) as [[k s1]|] eqn:E1; [|exact Hm].
  destruct (extract s1) as [[v s2]|] eqn:E2; [|exact Hm].
  apply IH. apply map_Forall_insert_2; [|exact Hm].
  apply extract_some in E1 as [Hk _]. apply extract_some in E2 as [Hv _].
  split; assumption.
Qed.

(** *** The three keys of the tab *)

Lemma plain_flag b : plain (flag b) = true.
Proof. destruct b; reflexivity. Qed.

Lemma flag_is_one b : String.eqb (flag b) "1" = b.
Proof. destruct b; reflexivity. Qed.

Lemma languages_plain lang :
  In lang languages -> plain lang = true.
Proof.
  cbn. intros [<-|[<-|[<-|[]]]]; reflexivity.
Qed.

Lemma set_active_text_offered lang :
  In lang languages -> set_active_text lang = Some lang.
Proof.
  cbn. intros [<-|[<-|[<-|[]]]]; reflexivity.
Qed.

Lemma set_active_text_some text lang :
  set_active_text text = Some lang -> text = lang /\ In lang languages.
Proof.
  unfold set_active_text.
  destruct (existsb (String.eqb text) languages) eqn:E; [|discriminate].
  intros H. injection H as <-. split; [reflexivity|].
  apply existsb_exists in E as [x [Hin Hx]].
  apply String.eqb_eq in Hx. subst x. exact Hin.
Qed.

Lemma at_key_present key value s :
  s !! key = Some value -> at_key key s = (value, s).
Proof. intros H. unfold at_key. rewrite H. reflexivity. Qed.

Lemma saved_autostart t :
  saved_settings t !! "autostart" = Some (flag (autostart_check_ t)).
Proof.
  unfold saved_settings.
  rewrite lookup_insert_ne by discriminate.
  rewrite lookup_insert_ne by discriminate.
  apply lookup_insert_eq.
Qed.

Lemma saved_notifications t :
  saved_settings t !! "notifications" = Some (flag (notifications_check_ t)).
Proof.
  unfold saved_settings.
  rewrite lookup_insert_ne by discriminate.
  apply lookup_insert_eq.
Qed.

Lemma saved_language t :
  saved_settings t !! "language" = Some (get_active_text (language_combo_ t)).
Proof. unfold saved_settings. apply lookup_insert_eq. Qed.

(** A tab whose written pairs are plain is rebuilt from its file. *)
Lemma reopening_plain
    (items : gmap string string -> list (string * string))
    (t : SettingsTab) (lang : string) :
  (forall s, items s ≡ₚ map_to_list s) ->
  language_combo_ t = Some lang -> In lang languages ->
  map_Forall plain_pair (saved_settings t) ->
  new_SettingsTab (Some (written (items (saved_settings t))))
    = mkSettingsTab (autostart_check_ t) (notifications_check_ t)
        (Some lang) (saved_settings t).
Proof.
  intros Hitems Hl Hin Hs.
  unfold new_SettingsTab, load_settings. cbn [settings_ language_combo_].
  rewrite (read_pairs_written _ _ (Hitems _) Hs).
  rewrite (at_key_present _ _ _ (saved_autostart t)).
  rewrite (at_key_present _ _ _ (saved_notifications t)).
  rewrite (at_key_present _ _ _ (saved_language t)).
  rewrite !flag_is_one, Hl. cbn [get_active_text].
  rewrite (set_active_text_offered _ Hin).
  pose proof (languages_plain _ Hin) as Hp.
  destruct lang; [discriminate | reflexivity].
Qed.

(** What [at_key] leaves in the store: the pairs that were there, and the
    key with an empty value. *)
Lemma at_key_lookup key s k v :
  (at_key key s).2 !! k = Some v -> s !! k = Some v \/ k = key.
Proof.
  unfold at_key. destruct (s !! key) eqn:E; cbn [snd]; [left; assumption|].
  destruct (decide (key = k)) as [->|Hne]; [right; reflexivity|].
  rewrite lookup_insert_ne by exact Hne. left. assumption.
Qed.

(** The store of a constructed tab: plain pairs, but for the three keys of
    the tab. *)
Lemma new_SettingsTab_store file k v :
  settings_ (new_SettingsTab file) !! k = Some v ->
  plain_pair k v \/ In k ["autostart"; "notifications"; "language"].
Proof.
  destruct file as [text|]; [|cbn; rewrite lookup_empty; discriminate].
  unfold new_SettingsTab, load_settings. cbn [settings_].
  pose proof (read_loop_plain (String.length text) text ∅
                (map_Forall_empty _)) as Hread.
  fold (read_pairs text ∅) in Hread.
  pose proof (at_key_lookup "autostart" (read_pairs text ∅) k v) as H1.
  destruct (at_key "autostart" (read_pairs text ∅)) as [a s1].
  pose proof (at_key_lookup "notifications" s1 k v) as H2.
  destruct (at_key "notifications" s1) as [n s2].
  pose proof (at_key_lookup "language" s2 k v) as H3.
  destruct (at_key "language" s2) as [l s3].
  cbn [snd settings_] in *. intros Hk.
  destruct (H3 Hk) as [Hk2| ->]; [|right; cbn; tauto].
  destruct (H2 Hk2) as [Hk1| ->]; [|right; cbn; tauto].
  destruct (H1 Hk1) as [Hk0| ->]; [|right; cbn; tauto].
  left. exact (Hread _ _ Hk0).
Qed.

(** X29. Closing the tab and opening it again restores it.  Take the tab
    that the constructor builds from any file, or from none, with the check
    buttons set either way and any of the offered languages selected.  When
    the file can be opened, the constructor builds from the file written by
    [save_settings] the tab that was closed: the same check buttons, the same
    language and the same store.  This holds for every order in which the
    store lists its pairs. *)
Theorem session_is_restored
    (items : gmap string string -> list (string * string))
    (file : option string) (autostart notifications : bool) (lang : string) :
  (forall s, items s ≡ₚ map_to_list s) ->
  In lang languages ->
  exists text,
    (save_settings items true
       (mkSettingsTab autostart notifications (Some lang)
          (settings_ (new_SettingsTab file)))).2 = Some text
    /\ new_SettingsTab (Some text)
       = (save_settings items true
            (mkSettingsTab autostart notifications (Some lang)
               (settings_ (new_SettingsTab file)))).1
    /\ autostart_check_ (new_SettingsTab (Some text)) = autostart
    /\ notifications_check_ (new_SettingsTab (Some text)) = notifications
    /\ language_combo_ (new_SettingsTab (Some text)) = Some lang.
Proof.
  intros Hitems Hin.
  set (t := mkSettingsTab autostart notifications (Some lang)
              (settings_ (new_SettingsTab file))).
  assert (Hplain : map_Forall plain_pair (saved_settings t)).
  { intros k v. unfold saved_settings. cbn [t language_combo_ get_active_text
      notifications_check_ autostart_check_ settings_].
    rewrite !lookup_insert_Some.
    intros [[<- <-]|[Hl [[<- <-]|[Hn [[<- <-]|[Ha Hk]]]]]].
    - split; [reflexivity | apply languages_plain; exact Hin].
    - split; [reflexivity | apply plain_flag].
    - split; [reflexivity | apply plain_flag].
    - destruct (new_SettingsTab_store _ _ _ Hk) as [Hp|Hthree]; [exact Hp|].
      cbn in Hthree. destruct Hthree as [E|[E|[E|[]]]]; congruence. }
  pose proof (reopening_plain items t lang Hitems eq_refl Hin Hplain) as Hnew.
  exists (written (items (saved_settings t))).
  split; [reflexivity|]. rewrite Hnew. repeat split; reflexivity.
Qed.

Lemma session_is_restored_witness :
  exists text,
    (save_settings map_to_list true
       (mkSettingsTab true false (Some "pt")
          (settings_ (new_SettingsTab (Some french))))).2 = Some text
    /\ new_SettingsTab (Some text)
       = (save_settings map_to_list true
            (mkSettingsTab true false (Some "pt")
               (settings_ (new_SettingsTab (Some french))))).1
    /\ autostart_check_ (new_SettingsTab (Some text)) = true
    /\ notifications_check_ (new_SettingsTab (Some text)) = false
    /\ language_combo_ (new_SettingsTab (Some text)) = Some "pt".
Proof.
  apply (session_is_restored map_to_list (Some french) true false "pt").
  - intros s. reflexivity.
  - cbn. right. left. reflexivity.
Defined.

Lemma at_key_value key s :
  (at_key key s).2 !! key = Some (at_key key s).1.
Proof.
  unfold at_key. destruct (s !! key) eqn:E; cbn; [exact E|].
  apply lookup_insert_eq.
Qed.

(** The language of a constructed tab: one of those offered, or none, and
    then the store holds a language that is not empty and not offered. *)
Lemma new_SettingsTab_language file :
  match language_combo_ (new_SettingsTab file) with
  | Some lang => In lang languages
  | None =>
      exists text, settings_ (new_SettingsTab file) !! "language" = Some text
                   /\ text <> "" /\ ~ In text languages
  end.
Proof.
  destruct file as [text|]; [|cbn; left; reflexivity].
  unfold new_SettingsTab, load_settings. cbn [settings_ language_combo_].
  destruct (at_key "autostart" (read_pairs text ∅)) as [a s1].
  destruct (at_key "notifications" s1) as [n s2].
  pose proof (at_key_value "language" s2) as Hv.
  destruct (at_key "language" s2) as [l s3]. cbn [fst snd] in Hv.
  cbn [language_combo_ settings_].
  destruct (String.eqb l "") eqn:El.
  - cbn. left. reflexivity.
  - destruct (set_active_text l) as [lang|] eqn:Es.
    + apply set_active_text_some in Es as [_ Hin]. exact Hin.
    + exists l. split; [exact Hv|]. split.
      * intros ->. discriminate.
      * intros Hin. rewrite (set_active_text_offered _ Hin) in Es. discriminate.
Qed.

(** X30. A tab that is closed while no language is selected is not restored.
    [save_settings] then stores an empty language, and whatever the file
    holds afterwards, the constructor never builds a tab with no language
    selected and an empty language in its store. *)
Theorem no_selection_is_not_restored
    (items : gmap string string -> list (string * string))
    (opened : bool) (t : SettingsTab) (file : option string) :
  language_combo_ t = None ->
  (save_settings items opened t).1.(settings_) !! "language" = Some ""
  /\ new_SettingsTab file <> (save_settings items opened t).1.
Proof.
  intros Hl.
  assert (Hsaved : settings_ (save_settings items opened t).1 !! "language" = Some "").
  { unfold save_settings. destruct opened; cbn [fst settings_];
      rewrite saved_language, Hl; reflexivity. }
  assert (Hcombo : language_combo_ (save_settings items opened t).1 = None).
  { unfold save_settings. destruct opened; exact Hl. }
  split; [exact Hsaved|].
  intros Heq. pose proof (new_SettingsTab_language file) as Hnew.
  rewrite Heq, Hcombo in Hnew. destruct Hnew as [text [Ht [Hne _]]].
  rewrite Hsaved in Ht. injection Ht as <-. apply Hne. reflexivity.
Qed.

Lemma no_selection_is_not_restored_witness :
  (save_settings map_to_list true (new_SettingsTab (Some french))).1.(settings_)
    !! "language" = Some ""
  /\ new_SettingsTab (Some (written (map_to_list
                        (saved_settings (new_SettingsTab (Some french))))))
     <> (save_settings map_to_list true (new_SettingsTab (Some french))).1.
Proof.
  apply (no_selection_is_not_restored map_to_list true
           (new_SettingsTab (Some french))).
  vm_compute. reflexivity.
Defined.

End CoreExtra.
